(** * Unique attachments: the link-consistent rename/merge engine

    A shallow embedding of [src/main.ts] (class
    [ConsistentAttachmentsAndLinks]).  The asynchronous methods of the plugin
    become computations of a small state-and-exception monad over a model of
    the vault; every [await] is a sequential bind.  The collaborators the
    plugin only calls ([LinksHandler], [path], [Md5], the Obsidian vault) are
    interfaces of the development. *)

From Stdlib Require Import String Ascii List Bool Arith NArith Lia.
From Stdlib Require Import Strings.Byte.
From Stdlib Require Import DecimalString.
Import ListNotations.
Open Scope string_scope.

(* ===================================================================== *)
(** ** JavaScript strings *)
(* ===================================================================== *)

Module JS.

(** [s.startsWith(p)] *)
Definition startsWith (s p : string) : bool := String.prefix p s.

(** [s.endsWith(x)]: the last [x.length] code units of [s] are [x]. *)
Definition endsWith (s x : string) : bool :=
  let n := String.length x in
  let m := String.length s in
  Nat.leb n m && String.eqb (substring (m - n) n s) x.

(** [s.includes(x)] *)
Fixpoint includes (s x : string) : bool :=
  String.prefix x s ||
  match s with
  | EmptyString => false
  | String _ r => includes r x
  end.

(** Number-to-string conversion of a non-negative counter, as in
    ["Renamed " + renamedCount + " files."]. *)
Definition ofNat (n : nat) : string := NilEmpty.string_of_uint (Nat.to_uint n).

(** The line feed of the ["\n"] escapes, and the double quote. *)
Definition nl : string := String (ascii_of_nat 10) EmptyString.
Definition dq : string := String (ascii_of_nat 34) EmptyString.

(** [new Set(l)] followed by a spread: first occurrences, in insertion
    order. *)
Definition Set_add (acc : list string) (x : string) : list string :=
  if existsb (String.eqb x) acc then acc else acc ++ [x].

Definition Set_of (l : list string) : list string := fold_left Set_add l [].

(** [a || []] for a possibly null or undefined array. *)
Definition orEmpty {A : Type} (a : option (list A)) : list A :=
  match a with Some l => l | None => [] end.

End JS.

(* ===================================================================== *)
(** ** Settings ([PluginSettings], read through [this.settings]) *)
(* ===================================================================== *)

Record PluginSettings : Type := {
  ignoreFolders : list string;
  renameFileTypes : list string;
  renameOnlyLinkedAttachments : bool;
  mergeTheSameAttachments : bool
}.

(** [checkFilePathIsIgnored]: the loop returns [true] at the first folder
    that is a prefix of the path. *)
Fixpoint anyFolder (folders : list string) (filePath : string) : bool :=
  match folders with
  | [] => false
  | folder :: rest =>
      if JS.startsWith filePath folder then true else anyFolder rest filePath
  end.

Definition checkFilePathIsIgnored (settings : PluginSettings) (filePath : string) : bool :=
  anyFolder (ignoreFolders settings) filePath.

(** [checkFileTypeIsAllowed]: the loop returns [true] at the first
    extension [ext] with [filePath.endsWith("." + ext)]. *)
Fixpoint anyType (exts : list string) (filePath : string) : bool :=
  match exts with
  | [] => false
  | ext :: rest =>
      if JS.endsWith filePath ("." ++ ext) then true else anyType rest filePath
  end.

Definition checkFileTypeIsAllowed (settings : PluginSettings) (filePath : string) : bool :=
  anyType (renameFileTypes settings) filePath.

(** The guard of the first [return false] of [renameAttachmentIfNeeded]
    (line 75); an attachment enters processing when it is [false]. *)
Definition gatedOut (settings : PluginSettings) (filePath : string) : bool :=
  checkFilePathIsIgnored settings filePath || negb (checkFileTypeIsAllowed settings filePath).

(* ===================================================================== *)
(** ** The vault *)
(* ===================================================================== *)

(** The files of the vault in the order [vault.getFiles()] lists them, each
    with its bytes.  Notes and canvases are files like the others. *)
Definition Files : Type := list (string * list byte).

Definition paths (fs : Files) : list string := map fst fs.

Fixpoint lookup (p : string) (fs : Files) : option (list byte) :=
  match fs with
  | [] => None
  | (q, b) :: rest => if String.eqb q p then Some b else lookup p rest
  end.

Definition fileExists (p : string) (fs : Files) : bool :=
  match lookup p fs with Some _ => true | None => false end.

(** The file at [p] gets the path [q]; it keeps its bytes and its place. *)
Fixpoint moveFile (p q : string) (fs : Files) : Files :=
  match fs with
  | [] => []
  | (r, b) :: rest =>
      if String.eqb r p then (q, b) :: rest else (r, b) :: moveFile p q rest
  end.

Fixpoint removeFile (p : string) (fs : Files) : Files :=
  match fs with
  | [] => []
  | (r, b) :: rest =>
      if String.eqb r p then rest else (r, b) :: removeFile p rest
  end.

(** [vault.modify]: new bytes for an existing file, nothing otherwise. *)
Fixpoint writeFile (p : string) (content : list byte) (fs : Files) : Files :=
  match fs with
  | [] => []
  | (r, b) :: rest =>
      if String.eqb r p then (r, content) :: rest
      else (r, b) :: writeFile p content rest
  end.

(** What a run does to the vault and what it reports, in order. *)
Inductive Event : Type :=
| Renamed (oldPath newPath : string)            (* vault.rename succeeded *)
| Deleted (filePath : string)                   (* vault.delete succeeded *)
| NoteUpdated (note oldLink newLink : string)   (* lh.updateChangedPathInNote *)
| CanvasUpdated (note oldLink newLink : string) (* lh.updateChangedPathInCanvas *)
| Warn (msg : string)                           (* console.warn *)
| Error (msg : string)                          (* console.error *)
| Log (msg : string)                            (* console.log *)
| Notice (msg : string).                        (* new Notice(msg) *)

(** The state of a run: the files, the link index of the host (its metadata
    cache, of a type [D] the links handler chooses; it changes when the
    handler rewrites a document), and the events so far. *)
Record World (D : Type) : Type := mkWorld {
  files : Files;
  cache : D;
  trace : list Event
}.
Arguments mkWorld {D} _ _ _.
Arguments files {D} _.
Arguments cache {D} _.
Arguments trace {D} _.

(** A [TFile] as far as the plugin reads it. *)
Record TFile : Type := { path : string; extension : string }.

(** A leaf of the workspace with its view, as far as the plugin reads
    them; [this.app.workspace.activeLeaf] is a leaf or [null]. *)
Record View : Type := { viewType : string }.
Record WorkspaceLeaf : Type := { view : View }.

(** Values of [JSON.parse]. *)
#[warnings="-register-all"]
Inductive JSON : Type :=
| JNull
| JBool (b : bool)
| JNumber (n : nat)
| JString (s : string)
| JArray (items : list JSON)
| JObject (fields : list (string * JSON)).

(* ===================================================================== *)
(** ** Collaborators *)
(* ===================================================================== *)

(** [import { path } from './path'] *)
Class PathUtil : Type := {
  extname : string -> string;
  basename : string -> string -> string
}.

(** [import { Md5 } from './md5/md5']: [new Md5()], [appendByteArray(buf)],
    [end().toString()] on a fresh hasher, as one function of the buffer. *)
Class Md5 : Type := {
  md5_hex : list byte -> string
}.

(** [import { LinksHandler } from './links-handler'].  The look-ups read the
    vault and the link index; a rewrite of one note yields the new text of
    that note, if it writes one, and the link index afterwards.  The calls
    return: a document the handler cannot parse "is skipped for that
    operation" (Link Index, failure contract).  Calls that reject are the
    matter of [Faults] and [Unguarded] below. *)
Class LinksHandler (D : Type) : Type := {
  getNotesThatHaveLinkToFile : Files -> D -> string -> option (list string);
  getNotesThatHaveLinkToFileInCanvas : Files -> D -> string -> option (list string);
  getFilePathWithRenamedBaseName : string -> string -> string;
  getFullPathForLink : string -> string -> string;
  updateChangedPathInNote :
    Files -> D -> string -> string -> string -> option (list byte) * D;
  updateChangedPathInCanvas :
    Files -> D -> string -> string -> string -> option (list byte) * D
}.

(** The Obsidian application: which storage calls reject (with the error
    they reject with), the resolved links of a note, and [JSON.parse]
    ([None] is its [SyntaxError]). *)
Class App (D : Type) : Type := {
  renameRejects : Files -> string -> string -> option string;
  deleteRejects : Files -> string -> option string;
  resolvedLinks : D -> string -> option (list string);
  JSON_parse : string -> option JSON
}.

(* ===================================================================== *)
(** ** Asynchronous methods as a state-and-exception monad *)
(* ===================================================================== *)

Inductive Result (A : Type) : Type :=
| Ok (a : A)
| Thrown (e : string).
Arguments Ok {A} _.
Arguments Thrown {A} _.

Definition M (D A : Type) : Type := World D -> Result A * World D.

Definition ret {D A : Type} (a : A) : M D A := fun w => (Ok a, w).

Definition bind {D A B : Type} (c : M D A) (k : A -> M D B) : M D B :=
  fun w =>
    match c w with
    | (Ok a, w') => k a w'
    | (Thrown e, w') => (Thrown e, w')
    end.

Definition throw {D A : Type} (e : string) : M D A := fun w => (Thrown e, w).

(** [try { c } catch (e) { handler }  rest], where the handler returns from
    the method. *)
Definition tryCatch {D A : Type} (c : M D unit) (handler : string -> M D A)
    (rest : M D A) : M D A :=
  fun w =>
    match c w with
    | (Ok _, w') => rest w'
    | (Thrown e, w') => handler e w'
    end.

Definition emit {D : Type} (ev : Event) : M D unit :=
  fun w => (Ok tt, mkWorld (files w) (cache w) (trace w ++ [ev])).

Declare Scope js_scope.
Delimit Scope js_scope with js.
Notation "x <- c1 ;; c2" := (bind c1 (fun x => c2))
  (at level 61, c1 at next level, right associativity) : js_scope.
Notation "c1 ;; c2" := (bind c1 (fun _ => c2))
  (at level 61, right associativity) : js_scope.

(** [for (let x of l) body], threading the loop's local variable. *)
Fixpoint forOf {D A S : Type} (l : list A) (body : A -> S -> M D S) (acc : S) : M D S :=
  match l with
  | [] => ret acc
  | x :: rest => bind (body x acc) (fun acc' => forOf rest body acc')
  end.

(* ===================================================================== *)
(** ** The plugin ([class ConsistentAttachmentsAndLinks]) *)
(* ===================================================================== *)

Section Plugin.

Context {D : Type} {P : PathUtil} {H : Md5} {LH : LinksHandler D} {A : App D}.
Variable settings : PluginSettings.

Local Open Scope js_scope.

(** *** The vault of [this.app] *)

(** [this.app.vault.getFiles()] *)
Definition vault_getFiles : M D (list string) :=
  fun w => (Ok (paths (files w)), w).

(** [this.app.vault.getAbstractFileByPath(p)]: the file, or [null]. *)
Definition vault_getAbstractFileByPath (p : string) : M D (option string) :=
  fun w => (Ok (if fileExists p (files w) then Some p else None), w).

(** [this.app.vault.readBinary(this.lh.getFileByPath(p))]; without a file
    at [p] the read rejects. *)
Definition vault_readBinary (p : string) : M D (list byte) :=
  fun w =>
    match lookup p (files w) with
    | Some b => (Ok b, w)
    | None => (Thrown ("File not found: " ++ p), w)
    end.

(** [this.app.vault.read(file)]: the text of a file. *)
Definition vault_read (p : string) : M D string :=
  fun w =>
    match lookup p (files w) with
    | Some b => (Ok (string_of_list_byte b), w)
    | None => (Thrown ("File not found: " ++ p), w)
    end.

(** [this.app.vault.adapter.exists(p)] *)
Definition adapter_exists (p : string) : M D bool :=
  fun w => (Ok (fileExists p (files w)), w).

(** [this.app.vault.delete(file)]: rejects and changes nothing, or
    removes the file. *)
Definition vault_delete (p : string) : M D unit :=
  fun w =>
    match deleteRejects (files w) p with
    | Some e => (Thrown e, w)
    | None =>
        (Ok tt, mkWorld (removeFile p (files w)) (cache w) (trace w ++ [Deleted p]))
    end.

(** [this.app.vault.rename(file, newPath)]: rejects and changes nothing,
    or moves the file. *)
Definition vault_rename (p q : string) : M D unit :=
  fun w =>
    match renameRejects (files w) p q with
    | Some e => (Thrown e, w)
    | None =>
        (Ok tt, mkWorld (moveFile p q (files w)) (cache w) (trace w ++ [Renamed p q]))
    end.

Definition console_warn (msg : string) : M D unit := emit (Warn msg).
Definition console_error (msg : string) : M D unit := emit (Error msg).
Definition console_log (msg : string) : M D unit := emit (Log msg).
Definition new_Notice (msg : string) : M D unit := emit (Notice msg).

(** *** The links handler [this.lh] *)

Definition lh_getNotesThatHaveLinkToFile (p : string) : M D (option (list string)) :=
  fun w => (Ok (getNotesThatHaveLinkToFile (files w) (cache w) p), w).

Definition lh_getNotesThatHaveLinkToFileInCanvas (p : string) : M D (option (list string)) :=
  fun w => (Ok (getNotesThatHaveLinkToFileInCanvas (files w) (cache w) p), w).

Definition applyRewrite (note : string) (r : option (list byte) * D) (ev : Event)
    (w : World D) : World D :=
  mkWorld
    (match fst r with Some b => writeFile note b (files w) | None => files w end)
    (snd r)
    (trace w ++ [ev]).

Definition lh_updateChangedPathInNote (note oldLink newLink : string) : M D unit :=
  fun w =>
    (Ok tt,
     applyRewrite note
       (updateChangedPathInNote (files w) (cache w) note oldLink newLink)
       (NoteUpdated note oldLink newLink) w).

Definition lh_updateChangedPathInCanvas (note oldLink newLink : string) : M D unit :=
  fun w =>
    (Ok tt,
     applyRewrite note
       (updateChangedPathInCanvas (files w) (cache w) note oldLink newLink)
       (CanvasUpdated note oldLink newLink) w).

(** *** [generateValidBaseName] (lines 278-291) *)
Definition generateValidBaseName (filePath : string) : M D string :=
  data <- vault_readBinary filePath ;;
  let buf := data in
  let hash := md5_hex buf in
  ret hash.

(** *** The messages of [renameAttachmentIfNeeded] *)

Definition msgNameClash (filePath validPath : string) : string :=
  "Unique attachments: cant rename file " ++ JS.nl ++ "   " ++ filePath ++ JS.nl
  ++ "    to" ++ JS.nl ++ "   " ++ validPath ++ JS.nl
  ++ "   Another file exists with the same (target) name but different content.".

Definition msgMergeDisabled (filePath validPath : string) : string :=
  "Unique attachments: cant rename file " ++ JS.nl ++ "   " ++ filePath ++ JS.nl
  ++ "    to" ++ JS.nl ++ "   " ++ validPath ++ JS.nl
  ++ "   Another file exists with the same (target) name and the same content. You can enable "
  ++ JS.dq ++ "Delete duplicates" ++ JS.dq
  ++ " setting for delete this file and merge attachments.".

Definition msgCantDelete (filePath e : string) : string :=
  "Unique attachments: cant delete duplicate file " ++ filePath ++ "." ++ JS.nl ++ e.

Definition msgCantRename (filePath validPath e : string) : string :=
  "Unique attachments: cant rename file " ++ JS.nl ++ "   " ++ filePath ++ JS.nl
  ++ "   to" ++ JS.nl ++ "   " ++ validPath ++ "   " ++ JS.nl ++ e.

Definition msgMerged (filePath validPath : string) : string :=
  "Unique attachments: file content is the same in " ++ JS.nl ++ "   " ++ filePath
  ++ JS.nl ++ "   and " ++ JS.nl ++ "   " ++ validPath ++ JS.nl
  ++ "   Duplicates merged.".

Definition msgRenamed (filePath validPath : string) : string :=
  "Unique attachments: file renamed [from, to]:" ++ JS.nl ++ "   " ++ filePath
  ++ JS.nl ++ "   " ++ validPath.

(** The loop of lines 121-129 and 141-149: every note of [allNotes] is
    rewritten, a canvas by the canvas rewriter. *)
Definition updateReferences (allNotes : list string) (filePath validPath : string)
    : M D unit :=
  forOf allNotes
    (fun note (_ : unit) =>
       if JS.endsWith note ".canvas"
       then lh_updateChangedPathInCanvas note filePath validPath
       else lh_updateChangedPathInNote note filePath validPath)
    tt.

(** [allNotes] of line 89. *)
Definition referencingNotes (mdNotes canvasNotes : option (list string)) : list string :=
  JS.Set_of (JS.orEmpty mdNotes ++ JS.orEmpty canvasNotes).

(** *** [renameAttachmentIfNeeded] (lines 73-155); [file] is the path of
    the [TAbstractFile]. *)
Definition renameAttachmentIfNeeded (file : string) : M D bool :=
  let filePath := file in
  if checkFilePathIsIgnored settings filePath
     || negb (checkFileTypeIsAllowed settings filePath)
  then ret false
  else
    let ext := extname filePath in
    let baseName := basename filePath ext in
    validBaseName <- generateValidBaseName filePath ;;
    if String.eqb baseName validBaseName then ret false
    else
      mdNotes <- lh_getNotesThatHaveLinkToFile filePath ;;
      canvasNotes <- lh_getNotesThatHaveLinkToFileInCanvas filePath ;;
      let allNotes := referencingNotes mdNotes canvasNotes in
      if Nat.eqb (List.length allNotes) 0 && renameOnlyLinkedAttachments settings
      then ret false
      else
        let validPath := getFilePathWithRenamedBaseName filePath validBaseName in
        targetFileAlreadyExists <- adapter_exists validPath ;;
        if targetFileAlreadyExists then
          validAnotherFileBaseName <- generateValidBaseName validPath ;;
          if negb (String.eqb validAnotherFileBaseName validBaseName) then
            console_warn (msgNameClash filePath validPath) ;;
            ret false
          else if negb (mergeTheSameAttachments settings) then
            console_warn (msgMergeDisabled filePath validPath) ;;
            ret false
          else
            tryCatch (vault_delete file)
              (fun e =>
                 console_error (msgCantDelete filePath e) ;;
                 ret false)
              (updateReferences allNotes filePath validPath ;;
               console_log (msgMerged filePath validPath) ;;
               ret true)
        else
          tryCatch (vault_rename file validPath)
            (fun e =>
               console_error (msgCantRename filePath validPath e) ;;
               ret false)
            (updateReferences allNotes filePath validPath ;;
             console_log (msgRenamed filePath validPath) ;;
             ret true).

(** The notice after a pass (lines 41-46 and 65-70). *)
Definition countNotice (renamedCount : nat) : string :=
  if Nat.eqb renamedCount 0 then "No files found that need to be renamed"
  else if Nat.eqb renamedCount 1 then "Renamed 1 file."
  else "Renamed " ++ JS.ofNat renamedCount ++ " files.".

(** The body of the loop of lines 35-39. *)
Definition countIfRenamed (file : string) (renamedCount : nat) : M D nat :=
  renamed <- renameAttachmentIfNeeded file ;;
  ret (if renamed : bool then S renamedCount else renamedCount).

(** *** [renameAllAttachments] (lines 31-47) *)
Definition renameAllAttachments : M D unit :=
  files <- vault_getFiles ;;
  renamedCount <- forOf files countIfRenamed 0 ;;
  new_Notice (countNotice renamedCount).

(** *** Parsed canvases *)

(** [JSON.parse(content)] *)
Definition JSON_parse_ (content : string) : M D JSON :=
  match JSON_parse content with
  | Some v => ret v
  | None => throw "SyntaxError: Unexpected token in JSON"
  end.

Fixpoint field (k : string) (fields : list (string * JSON)) : option JSON :=
  match fields with
  | [] => None
  | (k', v) :: rest => if String.eqb k' k then Some v else field k rest
  end.

(** [v.k]: [None] is [undefined]; reading a property of [null] throws. *)
Definition getProp (v : JSON) (k : string) : M D (option JSON) :=
  match v with
  | JNull => throw "TypeError: Cannot read properties of null"
  | JObject fields => ret (field k fields)
  | _ => ret None
  end.

Fixpoint chars (s : string) : list JSON :=
  match s with
  | EmptyString => []
  | String c r => JString (String c EmptyString) :: chars r
  end.

(** The values [for (let node of v)] visits; what is not iterable
    throws. *)
Definition iterate (v : option JSON) : M D (list JSON) :=
  match v with
  | Some (JArray items) => ret items
  | Some (JString s) => ret (chars s)
  | _ => throw "TypeError: canvasData.nodes is not iterable"
  end.

Definition truthy (v : option JSON) : bool :=
  match v with
  | None | Some JNull => false
  | Some (JBool b) => b
  | Some (JNumber n) => negb (Nat.eqb n 0)
  | Some (JString s) => negb (String.eqb s "")
  | Some (JArray _) | Some (JObject _) => true
  end.

Definition isString (v : option JSON) (s : string) : bool :=
  match v with
  | Some (JString s') => String.eqb s' s
  | _ => false
  end.

(** [this.lh.getFullPathForLink(node.file, mdfile.path)]; the handler
    works on the link as a string, a [file] of another type throws. *)
Definition lh_getFullPathForLink (link : option JSON) (owningNotePath : string)
    : M D string :=
  match link with
  | Some (JString s) => ret (getFullPathForLink s owningNotePath)
  | _ => throw "TypeError: link is not a string"
  end.

(** [Object.keys(this.app.metadataCache.resolvedLinks[p])] *)
Definition metadataCache_resolvedLinks (p : string) : M D (list string) :=
  fun w =>
    match resolvedLinks (cache w) p with
    | Some l => (Ok l, w)
    | None => (Thrown "TypeError: Cannot convert undefined or null to object", w)
    end.

(** [this.app.workspace.activeLeaf.view] (line 159): reading [view] of
    [null] throws. *)
Definition workspace_activeLeaf_view (activeLeaf : option WorkspaceLeaf) : M D View :=
  match activeLeaf with
  | Some leaf => ret (view leaf)
  | None => throw "TypeError: Cannot read properties of null (reading 'view')"
  end.

(** *** [renameAttachmentsForActiveMD] (lines 157-192); [activeLeaf] is
    [this.app.workspace.activeLeaf].  The view of the active leaf is read
    first and not used. *)
Definition renameAttachmentsForActiveMD (activeLeaf : option WorkspaceLeaf)
    (mdfile : TFile) : M D nat :=
  let renamedCount := 0 in
  currentView <- workspace_activeLeaf_view activeLeaf ;;
  if String.eqb (extension mdfile) "md" then
    rlinks <- metadataCache_resolvedLinks (path mdfile) ;;
    forOf rlinks
      (fun rlink renamedCount =>
         file <- vault_getAbstractFileByPath rlink ;;
         match file with
         | None => ret renamedCount
         | Some file =>
             renamed <- renameAttachmentIfNeeded file ;;
             ret (if renamed : bool then S renamedCount else renamedCount)
         end)
      renamedCount
  else if String.eqb (extension mdfile) "canvas" then
    content <- vault_read (path mdfile) ;;
    canvasData <- JSON_parse_ content ;;
    nodesProp <- getProp canvasData "nodes" ;;
    nodes <- iterate nodesProp ;;
    forOf nodes
      (fun node renamedCount =>
         type <- getProp node "type" ;;
         file <- getProp node "file" ;;
         if isString type "file" && truthy file then
           filePath <- lh_getFullPathForLink file (path mdfile) ;;
           file <- vault_getAbstractFileByPath filePath ;;
           match file with
           | None => ret renamedCount
           | Some file =>
               renamed <- renameAttachmentIfNeeded file ;;
               ret (if renamed : bool then S renamedCount else renamedCount)
           end
         else ret renamedCount)
      renamedCount
  else ret renamedCount.

(** *** [renameOnlyActiveAttachments] (lines 49-71); [activeFile] is what
    [this.app.workspace.getActiveFile()] returned, [activeLeaf] is
    [this.app.workspace.activeLeaf]. *)
Definition renameOnlyActiveAttachments (activeFile : option TFile)
    (activeLeaf : option WorkspaceLeaf) : M D unit :=
  match activeFile with
  | None => new_Notice "No active file"
  | Some activeFile =>
      if negb (JS.endsWith (path activeFile) ".md")
         && negb (JS.endsWith (path activeFile) ".canvas")
      then new_Notice "Active file must be a markdown or canvas file"
      else
        renamedCount <- renameAttachmentsForActiveMD activeLeaf activeFile ;;
        new_Notice (countNotice renamedCount)
  end.

End Plugin.

(* ===================================================================== *)
(** ** Collaborators to run the plugin with *)
(* ===================================================================== *)

(** Modelled from the spec: the Content Hasher ([./md5/md5] is not among the
    sources).  "A fixed-length hexadecimal digest string derived
    deterministically from a file's full byte content"; the digest the plugin
    names is MD5 (lines 283-288), given here as RFC 1321 defines it, on
    32-bit words kept in [N]. *)
Module MD5.
Local Open Scope N_scope.

Definition mask32 : N := 0xffffffff.
Definition add32 (x y : N) : N := N.land (x + y) mask32.
Definition not32 (x : N) : N := N.lxor x mask32.
Definition rotl32 (x : N) (c : N) : N :=
  N.land (N.lor (N.shiftl x c) (N.shiftr x (32 - c))) mask32.

Definition K : list N := [
  0xd76aa478; 0xe8c7b756; 0x242070db; 0xc1bdceee;
  0xf57c0faf; 0x4787c62a; 0xa8304613; 0xfd469501;
  0x698098d8; 0x8b44f7af; 0xffff5bb1; 0x895cd7be;
  0x6b901122; 0xfd987193; 0xa679438e; 0x49b40821;
  0xf61e2562; 0xc040b340; 0x265e5a51; 0xe9b6c7aa;
  0xd62f105d; 0x02441453; 0xd8a1e681; 0xe7d3fbc8;
  0x21e1cde6; 0xc33707d6; 0xf4d50d87; 0x455a14ed;
  0xa9e3e905; 0xfcefa3f8; 0x676f02d9; 0x8d2a4c8a;
  0xfffa3942; 0x8771f681; 0x6d9d6122; 0xfde5380c;
  0xa4beea44; 0x4bdecfa9; 0xf6bb4b60; 0xbebfbc70;
  0x289b7ec6; 0xeaa127fa; 0xd4ef3085; 0x04881d05;
  0xd9d4d039; 0xe6db99e5; 0x1fa27cf8; 0xc4ac5665;
  0xf4292244; 0x432aff97; 0xab9423a7; 0xfc93a039;
  0x655b59c3; 0x8f0ccc92; 0xffeff47d; 0x85845dd1;
  0x6fa87e4f; 0xfe2ce6e0; 0xa3014314; 0x4e0811a1;
  0xf7537e82; 0xbd3af235; 0x2ad7d2bb; 0xeb86d391 ].

Definition shifts : list N := [
  7; 12; 17; 22; 7; 12; 17; 22; 7; 12; 17; 22; 7; 12; 17; 22;
  5; 9; 14; 20; 5; 9; 14; 20; 5; 9; 14; 20; 5; 9; 14; 20;
  4; 11; 16; 23; 4; 11; 16; 23; 4; 11; 16; 23; 4; 11; 16; 23;
  6; 10; 15; 21; 6; 10; 15; 21; 6; 10; 15; 21; 6; 10; 15; 21 ].

(** Little-endian words of a byte sequence. *)
Fixpoint words (l : list N) : list N :=
  match l with
  | a :: b :: c :: d :: r =>
      (a + N.shiftl b 8 + N.shiftl c 16 + N.shiftl d 24) :: words r
  | _ => []
  end.

Fixpoint leBytes (n : nat) (x : N) : list N :=
  match n with
  | O => []
  | S n' => N.land x 0xff :: leBytes n' (N.shiftr x 8)
  end.

(** The message, a 1 bit, zeros up to 56 modulo 64 bytes, and the bit length on
    64 bits. *)
Definition pad (msg : list N) : list N :=
  let len := List.length msg in
  let zeros := ((55 + 64 - (len mod 64)) mod 64)%nat in
  msg ++ [0x80] ++ repeat 0 zeros ++ leBytes 8 (8 * N.of_nat len).

Definition round (M : list N) (i : nat) (st : N * N * N * N) : N * N * N * N :=
  let '(a, b, c, d) := st in
  let '(f, g) :=
    if (i <? 16)%nat then (N.lor (N.land b c) (N.land (not32 b) d), i)
    else if (i <? 32)%nat then (N.lor (N.land d b) (N.land (not32 d) c), ((5 * i + 1) mod 16)%nat)
    else if (i <? 48)%nat then (N.lxor b (N.lxor c d), ((3 * i + 5) mod 16)%nat)
    else (N.lxor c (N.lor b (not32 d)), ((7 * i) mod 16)%nat) in
  let f' := add32 (add32 (add32 f a) (nth i K 0)) (nth g M 0) in
  (d, add32 b (rotl32 f' (nth i shifts 0)), b, c).

Definition block (st : N * N * N * N) (M : list N) : N * N * N * N :=
  let '(a, b, c, d) := st in
  let '(a', b', c', d') := fold_left (fun s i => round M i s) (seq 0 64) st in
  (add32 a a', add32 b b', add32 c c', add32 d d').

Fixpoint blocks (fuel : nat) (ws : list N) (st : N * N * N * N) : N * N * N * N :=
  match fuel, ws with
  | S fuel', _ :: _ => blocks fuel' (skipn 16 ws) (block st (firstn 16 ws))
  | _, _ => st
  end.

Definition digest (msg : list N) : list N :=
  let ws := words (pad msg) in
  let '(a, b, c, d) :=
    blocks (List.length ws) ws (0x67452301, 0xefcdab89, 0x98badcfe, 0x10325476) in
  leBytes 4 a ++ leBytes 4 b ++ leBytes 4 c ++ leBytes 4 d.

Definition hexDigit (n : N) : ascii :=
  nth (N.to_nat n) (list_ascii_of_string "0123456789abcdef") "0"%char.

Fixpoint hex (l : list N) : string :=
  match l with
  | [] => EmptyString
  | x :: r => String (hexDigit (N.shiftr x 4)) (String (hexDigit (N.land x 0xf)) (hex r))
  end.

Definition hashBytes (buf : list byte) : string :=
  hex (digest (map Byte.to_N buf)).

End MD5.

#[export] Instance md5 : Md5 := {| md5_hex := MD5.hashBytes |}.

(** Modelled from the spec: the Path/Name Utility ([./path] is not among the
    sources).  "Pure string operations for extension/basename manipulation";
    [withBaseName] "replaces the stem, keeps directory and extension". *)
Module NodePath.

Fixpoint hasChar (c : ascii) (s : string) : bool :=
  match s with
  | EmptyString => false
  | String a r => Ascii.eqb a c || hasChar c r
  end.

(** The parts of [s] before and after its last [c]. *)
Fixpoint splitLast (c : ascii) (s : string) : option (string * string) :=
  match s with
  | EmptyString => None
  | String a r =>
      match splitLast c r with
      | Some (x, y) => Some (String a x, y)
      | None => if Ascii.eqb a c then Some (EmptyString, r) else None
      end
  end.

Definition fileName (p : string) : string :=
  match splitLast "/" p with Some (_, n) => n | None => p end.

(** The directory of [p] with its separator; empty at the vault root. *)
Definition dirPrefix (p : string) : string :=
  match splitLast "/" p with Some (d, _) => d ++ "/" | None => "" end.

(** From the last dot of the file name on; empty without a dot and for a
    name that only starts with one. *)
Definition extname (p : string) : string :=
  match splitLast "." (fileName p) with
  | Some (EmptyString, _) => ""
  | Some (_, e) => "." ++ e
  | None => ""
  end.

Definition basename (p ext : string) : string :=
  let n := fileName p in
  if JS.endsWith n ext
  then substring 0 (String.length n - String.length ext) n
  else n.

Definition withBaseName (p newBase : string) : string :=
  dirPrefix p ++ newBase ++ extname p.

(** "Resolve against the containing document's directory, treating a
    leading '/' as vault-root-absolute." *)
Definition resolveRelative (link owner : string) : string :=
  match link with
  | String "/" rest => rest
  | _ => dirPrefix owner ++ link
  end.

End NodePath.

#[export] Instance nodePath : PathUtil :=
  {| extname := NodePath.extname; basename := NodePath.basename |}.

(** Modelled from the spec: the Link Index and the Reference Rewriter
    ([./links-handler] is not among the sources), on the resolved links the
    host keeps for every document.  [findReferencingDocuments] is "unioned
    across prose and canvas documents"; a rewrite matches "by resolved-path
    equality", replaces the old path with the new one and preserves "all
    other node fields and node order". *)
Module LinkTable.

(** For every document, the resolved targets of its links, in order. *)
Definition Index : Type := list (string * list string).

Definition isCanvas (note : string) : bool := JS.endsWith note ".canvas".

Definition refers (p : string) (entry : string * list string) : bool :=
  existsb (String.eqb p) (snd entry).

Definition notesWithLink (d : Index) (p : string) : list string :=
  map fst (filter (fun e => negb (isCanvas (fst e)) && refers p e) d).

Definition canvasesWithLink (d : Index) (p : string) : list string :=
  map fst (filter (fun e => isCanvas (fst e) && refers p e) d).

Fixpoint linksOf (d : Index) (note : string) : option (list string) :=
  match d with
  | [] => None
  | (n, ts) :: rest => if String.eqb n note then Some ts else linksOf rest note
  end.

Definition retarget (oldPath newPath t : string) : string :=
  if String.eqb t oldPath then newPath else t.

Definition rewriteLinks (note oldPath newPath : string) (d : Index) : Index :=
  map (fun e =>
         if String.eqb (fst e) note
         then (fst e, map (retarget oldPath newPath) (snd e))
         else e) d.

(** A prose document with one embed per link. *)
Definition renderNote (targets : list string) : string :=
  String.concat "" (map (fun t => "![](" ++ t ++ ")" ++ JS.nl) targets).

(** A canvas with one file node per link. *)
Definition renderNode (t : string) : string :=
  "{" ++ JS.dq ++ "type" ++ JS.dq ++ ":" ++ JS.dq ++ "file" ++ JS.dq ++ ","
  ++ JS.dq ++ "file" ++ JS.dq ++ ":" ++ JS.dq ++ t ++ JS.dq ++ "}".

Definition renderCanvas (targets : list string) : string :=
  "{" ++ JS.dq ++ "nodes" ++ JS.dq ++ ":[" ++ String.concat "," (map renderNode targets)
  ++ "]}".

(** The rewrite of one document: the index afterwards and, when a link
    changed, the new text of the document. *)
Definition update (render : list string -> string) (d : Index)
    (note oldPath newPath : string) : option (list byte) * Index :=
  (match linksOf d note with
   | Some ts =>
       if existsb (String.eqb oldPath) ts
       then Some (list_byte_of_string (render (map (retarget oldPath newPath) ts)))
       else None
   | None => None
   end,
   rewriteLinks note oldPath newPath d).

End LinkTable.

#[export] Instance linkTable : LinksHandler LinkTable.Index := {|
  getNotesThatHaveLinkToFile := fun _ d p => Some (LinkTable.notesWithLink d p);
  getNotesThatHaveLinkToFileInCanvas := fun _ d p => Some (LinkTable.canvasesWithLink d p);
  getFilePathWithRenamedBaseName := NodePath.withBaseName;
  getFullPathForLink := NodePath.resolveRelative;
  updateChangedPathInNote := fun _ d => LinkTable.update LinkTable.renderNote d;
  updateChangedPathInCanvas := fun _ d => LinkTable.update LinkTable.renderCanvas d
|}.

(** A [JSON.parse] for the host below: objects, arrays, strings without
    escapes, unsigned integers, [true], [false] and [null]. *)
Module MiniJSON.

Definition isWs (c : ascii) : bool :=
  Ascii.eqb c " " || Ascii.eqb c (ascii_of_nat 9)
  || Ascii.eqb c (ascii_of_nat 10) || Ascii.eqb c (ascii_of_nat 13).

Fixpoint skipWs (s : string) : string :=
  match s with
  | String c r => if isWs c then skipWs r else s
  | EmptyString => s
  end.

Definition drop (n : nat) (s : string) : string :=
  substring n (String.length s - n) s.

(** The characters up to the closing quote, and what follows it. *)
Fixpoint parseString (s : string) : option (string * string) :=
  match s with
  | EmptyString => None
  | String c r =>
      if Ascii.eqb c (ascii_of_nat 34) then Some (EmptyString, r)
      else if Ascii.eqb c (ascii_of_nat 92) then None
      else match parseString r with
           | Some (x, rest) => Some (String c x, rest)
           | None => None
           end
  end.

Definition digit (c : ascii) : option nat :=
  let n := nat_of_ascii c in
  if (48 <=? n)%nat && (n <=? 57)%nat then Some (n - 48) else None.

Fixpoint parseDigits (s : string) (acc : nat) : nat * string :=
  match s with
  | String c r =>
      match digit c with
      | Some k => parseDigits r (10 * acc + k)
      | None => (acc, s)
      end
  | EmptyString => (acc, s)
  end.

Fixpoint parseValue (fuel : nat) (s : string) : option (JSON * string) :=
  match fuel with
  | O => None
  | S fuel' =>
      match s with
      | EmptyString => None
      | String c r =>
          if Ascii.eqb c "{" then
            match skipWs r with
            | String "}" r' => Some (JObject [], r')
            | r' =>
                match parseMembers fuel' r' with
                | Some (ms, rest) => Some (JObject ms, rest)
                | None => None
                end
            end
          else if Ascii.eqb c "[" then
            match skipWs r with
            | String "]" r' => Some (JArray [], r')
            | r' =>
                match parseElements fuel' r' with
                | Some (vs, rest) => Some (JArray vs, rest)
                | None => None
                end
            end
          else if Ascii.eqb c (ascii_of_nat 34) then
            match parseString r with
            | Some (x, rest) => Some (JString x, rest)
            | None => None
            end
          else if String.prefix "true" s then Some (JBool true, drop 4 s)
          else if String.prefix "false" s then Some (JBool false, drop 5 s)
          else if String.prefix "null" s then Some (JNull, drop 4 s)
          else
            match digit c with
            | Some _ => let '(n, rest) := parseDigits s 0 in Some (JNumber n, rest)
            | None => None
            end
      end
  end
with parseElements (fuel : nat) (s : string) : option (list JSON * string) :=
  match fuel with
  | O => None
  | S fuel' =>
      match parseValue fuel' s with
      | Some (v, r) =>
          match skipWs r with
          | String "," r' =>
              match parseElements fuel' (skipWs r') with
              | Some (vs, rest) => Some (v :: vs, rest)
              | None => None
              end
          | String "]" r' => Some ([v], r')
          | _ => None
          end
      | None => None
      end
  end
with parseMembers (fuel : nat) (s : string) : option (list (string * JSON) * string) :=
  match fuel with
  | O => None
  | S fuel' =>
      match s with
      | String c r =>
          if Ascii.eqb c (ascii_of_nat 34) then
            match parseString r with
            | Some (k, r1) =>
                match skipWs r1 with
                | String ":" r2 =>
                    match parseValue fuel' (skipWs r2) with
                    | Some (v, r3) =>
                        match skipWs r3 with
                        | String "," r4 =>
                            match parseMembers fuel' (skipWs r4) with
                            | Some (ms, rest) => Some ((k, v) :: ms, rest)
                            | None => None
                            end
                        | String "}" r4 => Some ([(k, v)], r4)
                        | _ => None
                        end
                    | None => None
                    end
                | _ => None
                end
            | None => None
            end
          else None
      | EmptyString => None
      end
  end.

Definition parse (s : string) : option JSON :=
  match parseValue (S (String.length s)) (skipWs s) with
  | Some (v, rest) =>
      match skipWs rest with
      | EmptyString => Some v
      | _ => None
      end
  | None => None
  end.

End MiniJSON.

(** A host whose storage rejects the rename and the delete of the files in
    [locked], and of no other. *)
Definition lockedHost (locked : list string) : App LinkTable.Index := {|
  renameRejects := fun _ p _ =>
    if existsb (String.eqb p) locked
    then Some ("Error: EPERM: operation not permitted, rename '" ++ p ++ "'")
    else None;
  deleteRejects := fun _ p =>
    if existsb (String.eqb p) locked
    then Some ("Error: EPERM: operation not permitted, unlink '" ++ p ++ "'")
    else None;
  resolvedLinks := LinkTable.linksOf;
  JSON_parse := MiniJSON.parse
|}.

(* ===================================================================== *)
(** ** The decision of the engine, as the specification words it *)
(* ===================================================================== *)

(** "RenameDecision: one of {No-op, Rename, Merge-and-Delete, Blocked}",
    computed by steps 1 to 6 of the algorithm of the Rename/Merge Engine;
    compared with [renameAttachmentIfNeeded] below. *)
Inductive Blocking : Type :=
| NameClash                    (* another file, other content *)
| MergeDisallowed              (* a duplicate, and merging is off *)
| DeleteFailed (e : string)    (* the storage refused the delete *)
| RenameFailed (e : string).   (* the storage refused the rename *)

Inductive RenameDecision : Type :=
| NoOp
| Rename (candidatePath : string)
| MergeAndDelete (candidatePath : string)
| Blocked (candidatePath : string) (why : Blocking).

Section Decision.

Context {D : Type} {P : PathUtil} {H : Md5} {LH : LinksHandler D} {A : App D}.
Variable settings : PluginSettings.

(** [findReferencingDocuments]: the documents of both kinds that refer to
    the attachment, each once. *)
Definition referencingDocuments (w : World D) (p : string) : list string :=
  referencingNotes (getNotesThatHaveLinkToFile (files w) (cache w) p)
                   (getNotesThatHaveLinkToFileInCanvas (files w) (cache w) p).

(** "A file is correctly named iff its current basename equals its
    CanonicalBaseName." *)
Definition canonicallyNamed (p : string) (bytes : list byte) : bool :=
  String.eqb (basename p (extname p)) (md5_hex bytes).

(** Whether step 3 stops the attachment: nothing refers to it and only
    linked attachments are renamed. *)
Definition skippedAsUnlinked (w : World D) (p : string) : bool :=
  match referencingDocuments w p with [] => true | _ => false end
  && renameOnlyLinkedAttachments settings.

(** Steps 1 to 6 for an attachment whose bytes are [bytes]. *)
Definition decisionFor (w : World D) (p : string) (bytes : list byte) : RenameDecision :=
  if gatedOut settings p then NoOp
  else if canonicallyNamed p bytes then NoOp
  else if skippedAsUnlinked w p then NoOp
  else
    let target := md5_hex bytes in
    let candidatePath := getFilePathWithRenamedBaseName p target in
    match lookup candidatePath (files w) with
    | None =>
        match renameRejects (files w) p candidatePath with
        | Some e => Blocked candidatePath (RenameFailed e)
        | None => Rename candidatePath
        end
    | Some existing =>
        if negb (String.eqb (md5_hex existing) target)
        then Blocked candidatePath NameClash
        else if negb (mergeTheSameAttachments settings)
        then Blocked candidatePath MergeDisallowed
        else
          match deleteRejects (files w) p with
          | Some e => Blocked candidatePath (DeleteFailed e)
          | None => MergeAndDelete candidatePath
          end
    end.

(** The decision for the file at [p]; a path that is filtered out needs no
    file, any other has to be read. *)
Definition decision (w : World D) (p : string) : option RenameDecision :=
  if gatedOut settings p then Some NoOp
  else match lookup p (files w) with
       | Some bytes => Some (decisionFor w p bytes)
       | None => None
       end.

(** The report of a Blocked decision. *)
Definition blockedReport (p candidatePath : string) (why : Blocking) : Event :=
  match why with
  | NameClash => Warn (msgNameClash p candidatePath)
  | MergeDisallowed => Warn (msgMergeDisabled p candidatePath)
  | DeleteFailed e => Error (msgCantDelete p e)
  | RenameFailed e => Error (msgCantRename p candidatePath e)
  end.

(** One document rewritten, and all of them in order. *)
Definition rewriteOne (oldPath newPath : string) (w : World D) (note : string) : World D :=
  if JS.endsWith note ".canvas"
  then applyRewrite note
         (updateChangedPathInCanvas (files w) (cache w) note oldPath newPath)
         (CanvasUpdated note oldPath newPath) w
  else applyRewrite note
         (updateChangedPathInNote (files w) (cache w) note oldPath newPath)
         (NoteUpdated note oldPath newPath) w.

Definition rewriteAll (notes : list string) (oldPath newPath : string) (w : World D)
    : World D :=
  fold_left (rewriteOne oldPath newPath) notes w.

Definition report (ev : Event) (w : World D) : World D :=
  mkWorld (files w) (cache w) (trace w ++ [ev]).

(** The event of the rewrite of one document. *)
Definition rewriteEvent (oldPath newPath note : string) : Event :=
  if JS.endsWith note ".canvas"
  then CanvasUpdated note oldPath newPath
  else NoteUpdated note oldPath newPath.

(** What a decision does to the world, and the value returned for it
    (step 7). *)
Definition enact (w : World D) (p : string) (d : RenameDecision) : bool * World D :=
  match d with
  | NoOp => (false, w)
  | Blocked candidatePath why => (false, report (blockedReport p candidatePath why) w)
  | Rename candidatePath =>
      (true,
       report (Log (msgRenamed p candidatePath))
         (rewriteAll (referencingDocuments w p) p candidatePath
            (mkWorld (moveFile p candidatePath (files w)) (cache w)
               (trace w ++ [Renamed p candidatePath]))))
  | MergeAndDelete candidatePath =>
      (true,
       report (Log (msgMerged p candidatePath))
         (rewriteAll (referencingDocuments w p) p candidatePath
            (mkWorld (removeFile p (files w)) (cache w)
               (trace w ++ [Deleted p]))))
  end.

(** The events that change the vault. *)
Definition isMutation (ev : Event) : bool :=
  match ev with
  | Renamed _ _ | Deleted _ | NoteUpdated _ _ _ | CanvasUpdated _ _ _ => true
  | _ => false
  end.

Definition isRewrite (ev : Event) : bool :=
  match ev with
  | NoteUpdated _ _ _ | CanvasUpdated _ _ _ => true
  | _ => false
  end.

Definition isRewriteOf (note : string) (ev : Event) : bool :=
  match ev with
  | NoteUpdated n _ _ | CanvasUpdated n _ _ => String.eqb n note
  | _ => false
  end.

Definition isReport (ev : Event) : bool :=
  match ev with
  | Warn _ | Error _ => true
  | _ => false
  end.

(** A pass over a list of attachments: every one of them is handed to
    [renameAttachmentIfNeeded] in the world the previous one left, and
    returns.  The pass records what each call returned and the world
    after it. *)
Inductive Pass : list string -> World D -> list (string * bool * World D) -> World D -> Prop :=
| Pass_done (w : World D) : Pass [] w [] w
| Pass_step (file : string) (rest : list string) (w w1 w2 : World D) (renamed : bool)
    (steps : list (string * bool * World D)) :
    renameAttachmentIfNeeded settings file w = (Ok renamed, w1) ->
    Pass rest w1 steps w2 ->
    Pass (file :: rest) w ((file, renamed, w1) :: steps) w2.

(** The number of calls of a pass that returned [true]. *)
Definition succeeded (steps : list (string * bool * World D)) : nat :=
  List.length (filter (fun s => snd (fst s)) steps).

(** The events a run added to the trace of [w]. *)
Definition newEvents (w w' : World D) : list Event :=
  skipn (List.length (trace w)) (trace w').

(** A run in which nothing was Blocked, and in which no document that was
    rewritten is itself an attachment the engine would rename. *)
Definition cleanEvent (ev : Event) : bool :=
  match ev with
  | Warn _ | Error _ => false
  | NoteUpdated note _ _ | CanvasUpdated note _ _ => gatedOut settings note
  | _ => true
  end.

Definition cleanRun (w w' : World D) : bool := forallb cleanEvent (newEvents w w').

(** The attachment at [p] needs nothing: the decision for it is No-op. *)
Definition idle (w : World D) (p : string) : Prop :=
  decision w p = Some NoOp.

(** The attachment at [p] is settled: the decision for it is No-op or
    Blocked, a call for it renames, deletes and rewrites nothing. *)
Definition settled (w : World D) (p : string) : bool :=
  match decision w p with
  | Some NoOp | Some (Blocked _ _) => true
  | _ => false
  end.

(** The attachments that a pass over [l], from [w] on, leaves Blocked. *)
Fixpoint blockedIn (l : list string) (w : World D) : list string :=
  match l with
  | [] => []
  | file :: rest =>
      (match decision w file with Some (Blocked _ _) => [file] | _ => [] end)
      ++ blockedIn rest (snd (renameAttachmentIfNeeded settings file w))
  end.

(** The documents that rewrite events name. *)
Definition rewrittenDocuments (evs : list Event) : list string :=
  flat_map (fun ev => match ev with
                      | NoteUpdated note _ _ | CanvasUpdated note _ _ => [note]
                      | _ => []
                      end) evs.

(** A run from [w] to [w'] after which what it left Blocked and what it
    rewrote is settled, as far as it is still in the vault. *)
Definition settledRun (w w' : World D) : bool :=
  forallb (fun u => negb (fileExists u (files w')) || settled w' u)
    (blockedIn (paths (files w)) w ++ rewrittenDocuments (newEvents w w')).

(** What the engine relies on in its collaborators, from their contracts.
    Path/Name Utility: [withBaseName] "replaces the stem", so the base name
    of a path renamed to a digest is that digest.  Link Index and Reference
    Rewriter: a rewrite changes the links to the old path into links to the
    new path and no other, and the files of attachments are not links; so a
    path no document refers to stays unreferenced when another file is
    moved or removed and when a document is rewritten towards another
    path. *)
Class Lawful : Prop := {
  renamed_basename : forall (p : string) (bytes : list byte),
    let q := getFilePathWithRenamedBaseName p (md5_hex bytes) in
    basename q (extname q) = md5_hex bytes;
  unlinked_after_move : forall (w : World D) (p q u : string) (t : list Event),
    q <> u -> referencingDocuments w u = [] ->
    referencingDocuments (mkWorld (moveFile p q (files w)) (cache w) t) u = [];
  unlinked_after_remove : forall (w : World D) (p u : string) (t : list Event),
    referencingDocuments w u = [] ->
    referencingDocuments (mkWorld (removeFile p (files w)) (cache w) t) u = [];
  unlinked_after_rewrite : forall (w : World D) (note oldPath newPath u : string),
    newPath <> u -> referencingDocuments w u = [] ->
    referencingDocuments (rewriteOne oldPath newPath w note) u = []
}.

End Decision.

(* ===================================================================== *)
(** ** The awaited calls outside a [try] *)
(* ===================================================================== *)

(** Of the calls that [renameAttachmentIfNeeded] awaits, [vault.delete]
    (line 114) and [vault.rename] (line 134) are inside a [try].  The read
    of the file (line 280, for lines 80 and 102), the two look-ups (lines 87
    and 88), the check for the candidate path (line 98) and the rewriters
    (lines 124, 126, 144 and 146) are not.  Which of these calls reject,
    and with what error; a call that rejects has changed nothing. *)
Class Faults (D : Type) : Type := {
  readBinaryRejects : Files -> string -> option string;
  getNotesRejects : Files -> D -> string -> option string;
  getCanvasNotesRejects : Files -> D -> string -> option string;
  existsRejects : Files -> string -> option string;
  updateNoteRejects : Files -> D -> string -> string -> string -> option string;
  updateCanvasRejects : Files -> D -> string -> string -> string -> option string
}.

(** Collaborators of which none of these calls rejects. *)
Definition noFaults {D : Type} : Faults D := {|
  readBinaryRejects := fun _ _ => None;
  getNotesRejects := fun _ _ _ => None;
  getCanvasNotesRejects := fun _ _ _ => None;
  existsRejects := fun _ _ => None;
  updateNoteRejects := fun _ _ _ _ _ => None;
  updateCanvasRejects := fun _ _ _ _ _ => None
|}.

(** The methods of the whole-vault command over such collaborators: the
    same text, every awaited call being one that may reject. *)
Module Unguarded.

Section Methods.

Context {D : Type} {P : PathUtil} {H : Md5} {LH : LinksHandler D} {A : App D}.
Context {F : Faults D}.
Variable settings : PluginSettings.

Local Open Scope js_scope.

(** The call [c], unless [rejects] has an error for it. *)
Definition orRejects {X : Type} (rejects : World D -> option string) (c : M D X) : M D X :=
  fun w =>
    match rejects w with
    | Some e => (Thrown e, w)
    | None => c w
    end.

Definition vault_readBinary (p : string) : M D (list byte) :=
  orRejects (fun w => readBinaryRejects (files w) p) (vault_readBinary p).

Definition adapter_exists (p : string) : M D bool :=
  orRejects (fun w => existsRejects (files w) p) (adapter_exists p).

Definition lh_getNotesThatHaveLinkToFile (p : string) : M D (option (list string)) :=
  orRejects (fun w => getNotesRejects (files w) (cache w) p)
    (lh_getNotesThatHaveLinkToFile p).

Definition lh_getNotesThatHaveLinkToFileInCanvas (p : string) : M D (option (list string)) :=
  orRejects (fun w => getCanvasNotesRejects (files w) (cache w) p)
    (lh_getNotesThatHaveLinkToFileInCanvas p).

Definition lh_updateChangedPathInNote (note oldLink newLink : string) : M D unit :=
  orRejects (fun w => updateNoteRejects (files w) (cache w) note oldLink newLink)
    (lh_updateChangedPathInNote note oldLink newLink).

Definition lh_updateChangedPathInCanvas (note oldLink newLink : string) : M D unit :=
  orRejects (fun w => updateCanvasRejects (files w) (cache w) note oldLink newLink)
    (lh_updateChangedPathInCanvas note oldLink newLink).

(** [generateValidBaseName] (lines 278-291) *)
Definition generateValidBaseName (filePath : string) : M D string :=
  data <- vault_readBinary filePath ;;
  let buf := data in
  let hash := md5_hex buf in
  ret hash.

(** The loop of lines 121-129 and 141-149. *)
Definition updateReferences (allNotes : list string) (filePath validPath : string)
    : M D unit :=
  forOf allNotes
    (fun note (_ : unit) =>
       if JS.endsWith note ".canvas"
       then lh_updateChangedPathInCanvas note filePath validPath
       else lh_updateChangedPathInNote note filePath validPath)
    tt.

(** [renameAttachmentIfNeeded] (lines 73-155) *)
Definition renameAttachmentIfNeeded (file : string) : M D bool :=
  let filePath := file in
  if checkFilePathIsIgnored settings filePath
     || negb (checkFileTypeIsAllowed settings filePath)
  then ret false
  else
    let ext := extname filePath in
    let baseName := basename filePath ext in
    validBaseName <- generateValidBaseName filePath ;;
    if String.eqb baseName validBaseName then ret false
    else
      mdNotes <- lh_getNotesThatHaveLinkToFile filePath ;;
      canvasNotes <- lh_getNotesThatHaveLinkToFileInCanvas filePath ;;
      let allNotes := referencingNotes mdNotes canvasNotes in
      if Nat.eqb (List.length allNotes) 0 && renameOnlyLinkedAttachments settings
      then ret false
      else
        let validPath := getFilePathWithRenamedBaseName filePath validBaseName in
        targetFileAlreadyExists <- adapter_exists validPath ;;
        if targetFileAlreadyExists then
          validAnotherFileBaseName <- generateValidBaseName validPath ;;
          if negb (String.eqb validAnotherFileBaseName validBaseName) then
            console_warn (msgNameClash filePath validPath) ;;
            ret false
          else if negb (mergeTheSameAttachments settings) then
            console_warn (msgMergeDisabled filePath validPath) ;;
            ret false
          else
            tryCatch (vault_delete file)
              (fun e =>
                 console_error (msgCantDelete filePath e) ;;
                 ret false)
              (updateReferences allNotes filePath validPath ;;
               console_log (msgMerged filePath validPath) ;;
               ret true)
        else
          tryCatch (vault_rename file validPath)
            (fun e =>
               console_error (msgCantRename filePath validPath e) ;;
               ret false)
            (updateReferences allNotes filePath validPath ;;
             console_log (msgRenamed filePath validPath) ;;
             ret true).

(** The body of the loop of lines 35-39. *)
Definition countIfRenamed (file : string) (renamedCount : nat) : M D nat :=
  renamed <- renameAttachmentIfNeeded file ;;
  ret (if renamed : bool then S renamedCount else renamedCount).

(** [renameAllAttachments] (lines 31-47) *)
Definition renameAllAttachments : M D unit :=
  files <- vault_getFiles ;;
  renamedCount <- forOf files countIfRenamed 0 ;;
  new_Notice (countNotice renamedCount).

End Methods.

End Unguarded.

(** What a call over such collaborators comes to. *)
Section Rejections.

Context {D : Type} {P : PathUtil} {H : Md5} {LH : LinksHandler D} {A : App D}.
Context {F : Faults D}.
Variable settings : PluginSettings.

(** The error of the first call that rejects before the decision is
    taken, if one does: the read of the attachment, the look-ups, the check
    for the candidate path, the read of the file that has it. *)
Definition rejectsBeforeActing (w : World D) (p : string) : option string :=
  if gatedOut settings p then None
  else
    match readBinaryRejects (files w) p with
    | Some e => Some e
    | None =>
        match lookup p (files w) with
        | None => None
        | Some bytes =>
            if canonicallyNamed p bytes then None
            else
              match getNotesRejects (files w) (cache w) p with
              | Some e => Some e
              | None =>
                  match getCanvasNotesRejects (files w) (cache w) p with
                  | Some e => Some e
                  | None =>
                      if skippedAsUnlinked settings w p then None
                      else
                        let candidatePath :=
                          getFilePathWithRenamedBaseName p (md5_hex bytes) in
                        match existsRejects (files w) candidatePath with
                        | Some e => Some e
                        | None =>
                            match lookup candidatePath (files w) with
                            | Some _ => readBinaryRejects (files w) candidatePath
                            | None => None
                            end
                        end
                  end
              end
        end
    end.

(** Whether the rewriter rejects for [note]. *)
Definition rewriteRejects (oldPath newPath : string) (w : World D) (note : string)
    : option string :=
  if JS.endsWith note ".canvas"
  then updateCanvasRejects (files w) (cache w) note oldPath newPath
  else updateNoteRejects (files w) (cache w) note oldPath newPath.

(** The documents are rewritten in order, up to the first for which the
    rewriter rejects. *)
Fixpoint rewriteUntilRejected (notes : list string) (oldPath newPath : string)
    (w : World D) : Result unit * World D :=
  match notes with
  | [] => (Ok tt, w)
  | note :: rest =>
      match rewriteRejects oldPath newPath w note with
      | Some e => (Thrown e, w)
      | None => rewriteUntilRejected rest oldPath newPath (rewriteOne oldPath newPath w note)
      end
  end.

(** The log line and [true] after the rewriting, if it was not cut
    short. *)
Definition thenLog (msg : string) (r : Result unit * World D) : Result bool * World D :=
  match r with
  | (Ok _, w) => (Ok true, report (Log msg) w)
  | (Thrown e, w) => (Thrown e, w)
  end.

(** What a decision comes to when the rewriters may reject. *)
Definition enactUnguarded (w : World D) (p : string) (d : RenameDecision)
    : Result bool * World D :=
  match d with
  | Rename candidatePath =>
      thenLog (msgRenamed p candidatePath)
        (rewriteUntilRejected (referencingDocuments w p) p candidatePath
           (mkWorld (moveFile p candidatePath (files w)) (cache w)
              (trace w ++ [Renamed p candidatePath])))
  | MergeAndDelete candidatePath =>
      thenLog (msgMerged p candidatePath)
        (rewriteUntilRejected (referencingDocuments w p) p candidatePath
           (mkWorld (removeFile p (files w)) (cache w)
              (trace w ++ [Deleted p])))
  | _ => (Ok (fst (enact w p d)), snd (enact w p d))
  end.

End Rejections.

(* ===================================================================== *)
(** ** Vaults to run the plugin on *)
(* ===================================================================== *)

Module Scenario.

Definition bytesA : list byte := list_byte_of_string "A".
Definition bytesB : list byte := list_byte_of_string "B".

(** The MD5 digests of the two contents. *)
Definition hashA : string := "7fc56270e7a70fa81a5935b72eacbe29".
Definition hashB : string := "9d5ed678fe57bcca610140957afab571".

(** Images are renamed, [.git/] and [.obsidian/] are left alone. *)
Definition linkedOnly : PluginSettings := {|
  ignoreFolders := [".git/"; ".obsidian/"];
  renameFileTypes := ["png"; "jpg"; "gif"];
  renameOnlyLinkedAttachments := true;
  mergeTheSameAttachments := true
|}.

Definition everything : PluginSettings := {|
  ignoreFolders := [".git/"; ".obsidian/"];
  renameFileTypes := ["png"; "jpg"; "gif"];
  renameOnlyLinkedAttachments := false;
  mergeTheSameAttachments := true
|}.


Definition note (p : string) (targets : list string) : string * list byte :=
  (p, list_byte_of_string (LinkTable.renderNote targets)).

Definition canvas (p : string) (targets : list string) : string * list byte :=
  (p, list_byte_of_string (LinkTable.renderCanvas targets)).

(** [c.png] holds "A"; the file that has the name of the digest of "A"
    holds "B".  No document refers to either. *)
Definition clash : World LinkTable.Index :=
  mkWorld [("c.png", bytesA); (hashA ++ ".png", bytesB)] [] [].

(** [b.png] is a copy of the canonically named file; a note and a canvas
    embed it. *)
Definition duplicate : World LinkTable.Index :=
  mkWorld
    [("b.png", bytesA); (hashA ++ ".png", bytesA);
     note "note.md" ["b.png"]; canvas "board.canvas" ["b.png"; "b.png"]]
    [("note.md", ["b.png"]); ("board.canvas", ["b.png"; "b.png"])]
    [].

(** A vault for a whole pass: [c.png] cannot be renamed by the storage,
    [a.png] and [b.png] hold the same bytes, a note embeds all three. *)
Definition batch : World LinkTable.Index :=
  mkWorld
    [("c.png", bytesB); ("a.png", bytesA); ("b.png", bytesA);
     note "note.md" ["c.png"; "a.png"; "b.png"]]
    [("note.md", ["c.png"; "a.png"; "b.png"])]
    [].

(** A canvas that is cut off in the middle. *)
Definition brokenCanvas : string :=
  "{" ++ JS.dq ++ "nodes" ++ JS.dq ++ ": [".

Definition broken : World LinkTable.Index :=
  mkWorld [("img.png", bytesA); ("board.canvas", list_byte_of_string brokenCanvas)]
          [] [].

Definition board : TFile := {| path := "board.canvas"; extension := "canvas" |}.

(** Hosts: one that rejects nothing, and two with a file the storage
    refuses to touch. *)
Definition free : App LinkTable.Index := lockedHost [].
Definition bLocked : App LinkTable.Index := lockedHost ["b.png"].
Definition cLocked : App LinkTable.Index := lockedHost ["c.png"].

End Scenario.

(* ===================================================================== *)
(** ** The methods no command calls *)
(* ===================================================================== *)

(** [this.app.fileManager.renameFile]: the host renames the file and
    updates the links to it in the documents it chooses; it rejects and
    changes nothing, or moves the file, writes the documents it relinked and
    brings its link index up to date. *)
Class FileManager (D : Type) : Type := {
  renameFileRejects : Files -> string -> string -> option string;
  relinked : Files -> D -> string -> string -> list (string * list byte) * D
}.

Definition writeAll (writes : list (string * list byte)) (fs : Files) : Files :=
  fold_left (fun acc wr => writeFile (fst wr) (snd wr) acc) writes fs.

Section Unused.

Context {D : Type} {P : PathUtil} {H : Md5} {LH : LinksHandler D} {A : App D}.
Context {FM : FileManager D}.
Variable settings : PluginSettings.

Local Open Scope js_scope.

Definition fileManager_renameFile (p q : string) : M D unit :=
  fun w =>
    match renameFileRejects (files w) p q with
    | Some e => (Thrown e, w)
    | None =>
        let moved := moveFile p q (files w) in
        let r := relinked moved (cache w) p q in
        (Ok tt, mkWorld (writeAll (fst r) moved) (snd r) (trace w ++ [Renamed p q]))
    end.

(** The world after a rename the file manager accepted. *)
Definition renamedByFileManager (p q : string) (w : World D) : World D :=
  let moved := moveFile p q (files w) in
  let r := relinked moved (cache w) p q in
  mkWorld (writeAll (fst r) moved) (snd r) (trace w ++ [Renamed p q]).

(** [this.app.vault.delete(oldfile)] for what
    [getAbstractFileByPath] returned; there is nothing to delete in
    [null]. *)
Definition vault_delete_found (oldfile : option string) : M D unit :=
  match oldfile with
  | Some f => vault_delete f
  | None => throw "TypeError: Cannot read properties of null"
  end.

(** The message of line 232, with its spelling. *)
Definition msgMergeDisabledDelte (filePath validPath : string) : string :=
  "Unique attachments: cant rename file " ++ JS.nl ++ "   " ++ filePath ++ JS.nl
  ++ "    to" ++ JS.nl ++ "   " ++ validPath ++ JS.nl
  ++ "   Another file exists with the same (target) name and the same content. You can enable "
  ++ JS.dq ++ "Delte duplicates" ++ JS.dq
  ++ " setting for delete this file and merge attachments.".

(** *** [renameAttachment] (lines 218-260); [file] is the path of the
    [TAbstractFile] at the call.  The host writes the new path into the
    [TAbstractFile] it renames: [file.path] is [file] up to an accepted
    [renameFile] and [validPath] after it, where lines 248 and 257 read
    it. *)
Definition renameAttachment (file validBaseName : string) : M D bool :=
  let validPath := getFilePathWithRenamedBaseName file validBaseName in
  targetFileAlreadyExists <- adapter_exists validPath ;;
  if targetFileAlreadyExists then
    validAnotherFileBaseName <- generateValidBaseName validPath ;;
    if negb (String.eqb validAnotherFileBaseName validBaseName) then
      console_warn (msgNameClash file validPath) ;;
      ret false
    else if negb (mergeTheSameAttachments settings) then
      console_warn (msgMergeDisabledDelte file validPath) ;;
      ret false
    else
      tryCatch
        (oldfile <- vault_getAbstractFileByPath validPath ;;
         vault_delete_found oldfile ;;
         fileManager_renameFile file validPath)
        (fun e =>
           console_error (msgCantDelete file e) ;;
           ret false)
        (let file_path := validPath in
         console_log (msgMerged file_path validPath) ;;
         ret true)
  else
    tryCatch (fileManager_renameFile file validPath)
      (fun e =>
         console_error (msgCantRename file validPath e) ;;
         ret false)
      (let file_path := validPath in
       console_log (msgRenamed file_path validPath) ;;
       ret true).

End Unused.

(** *** [saveAttachmentNameInLink] (lines 194-216) *)

(** A position of the metadata cache, a link of [mdc.links] as far as the
    method reads it ([displayText] may be missing), and a call of
    [cmDoc.replaceRange(text, {line, ch}, {line, ch})]. *)
Record Loc : Type := { locLine : nat; locCol : nat }.

Record LinkCache : Type := {
  linkText : string;
  displayText : option string;
  positionStart : Loc;
  positionEnd : Loc
}.

Record ReplaceRange : Type := {
  replacement : string;
  rangeFrom : Loc;
  rangeTo : Loc
}.

(** [getLinkpath] of the obsidian module,
    [this.app.metadataCache.getFirstLinkpathDest] (the path of the file, or
    [null]) and [this.app.fileManager.generateMarkdownLink] on the path of
    the file. *)
Class LinkResolver : Type := {
  getLinkpath : string -> string;
  getFirstLinkpathDest : string -> string -> option string;
  generateMarkdownLink : string -> string -> string -> string -> string
}.

Section SaveName.

Context {R : LinkResolver}.

(** [s.substring(1)] *)
Definition substringFrom1 (s : string) : string :=
  substring 1 (String.length s - 1) s.

(** [displayText != "" && link != displayText]: the guard of [continue];
    a missing display text differs from both. *)
Definition hasOwnDisplayText (eachLink : LinkCache) : bool :=
  match displayText eachLink with
  | None => true
  | Some d => negb (String.eqb d "") && negb (String.eqb (linkText eachLink) d)
  end.

(** [afile != null && afile.path == file.path] *)
Definition resolvesTo (mdfilePath filePath : string) (eachLink : LinkCache) : bool :=
  match getFirstLinkpathDest (getLinkpath (linkText eachLink)) mdfilePath with
  | Some afile => String.eqb afile filePath
  | None => false
  end.

(** The loop of lines 200-215; the calls on the editor, in order. *)
Fixpoint replaceLinks (links : list LinkCache)
    (mdfilePath filePath parentPath baseName : string) : list ReplaceRange :=
  match links with
  | [] => []
  | eachLink :: rest =>
      if hasOwnDisplayText eachLink
      then replaceLinks rest mdfilePath filePath parentPath baseName
      else
        match getFirstLinkpathDest (getLinkpath (linkText eachLink)) mdfilePath with
        | Some afile =>
            if String.eqb afile filePath then
              let newlink := generateMarkdownLink afile parentPath "" baseName in
              let newlink := substringFrom1 newlink in
              {| replacement := newlink;
                 rangeFrom := positionStart eachLink;
                 rangeTo := positionEnd eachLink |}
              :: replaceLinks rest mdfilePath filePath parentPath baseName
            else replaceLinks rest mdfilePath filePath parentPath baseName
        | None => replaceLinks rest mdfilePath filePath parentPath baseName
        end
  end.

(** [mdcLinks] is [mdc.links], [parentPath] is [file.parent.path]; the
    result is what the editor of the view was asked to replace. *)
Definition saveAttachmentNameInLink (mdcLinks : option (list LinkCache))
    (mdfilePath filePath parentPath baseName : string) : list ReplaceRange :=
  match mdcLinks with
  | None => []
  | Some links => replaceLinks links mdfilePath filePath parentPath baseName
  end.

End SaveName.

(* ===================================================================== *)
(** ** Counting events, and canvases of file nodes *)
(* ===================================================================== *)

Definition isNotice (ev : Event) : bool :=
  match ev with Notice _ => true | _ => false end.

Definition isRenamed (ev : Event) : bool :=
  match ev with Renamed _ _ => true | _ => false end.

Definition isDeleted (ev : Event) : bool :=
  match ev with Deleted _ => true | _ => false end.

Definition countOf (f : Event -> bool) (evs : list Event) : nat :=
  List.length (filter f evs).

(** The renames and deletes among some events. *)
Definition acts (evs : list Event) : nat :=
  countOf isRenamed evs + countOf isDeleted evs.



(** More vaults and hosts to run the plugin on. *)
Module Scenario2.

Import Scenario.

(** A host whose file manager rejects the rename of the files in
    [locked], and relinks nothing. *)
Definition lockedManager (locked : list string) : FileManager LinkTable.Index := {|
  renameFileRejects := fun _ p _ =>
    if existsb (String.eqb p) locked
    then Some ("Error: EPERM: operation not permitted, rename '" ++ p ++ "'")
    else None;
  relinked := fun _ d _ _ => ([], d)
|}.

(** Every file is ignored: the list of folders has an empty entry. *)
Definition emptyFolderEntry : PluginSettings := {|
  ignoreFolders := [".git/"; ""];
  renameFileTypes := ["png"; "jpg"; "gif"];
  renameOnlyLinkedAttachments := false;
  mergeTheSameAttachments := true
|}.

(** Two copies of the same image next to each other, and no file with the
    name of their digest. *)
Definition twins : World LinkTable.Index :=
  mkWorld [("a.png", bytesA); ("b.png", bytesA); note "note.md" ["a.png"; "b.png"]]
          [("note.md", ["a.png"; "b.png"])] [].

(** A canvas with two file nodes for the same image, and an empty one. *)
Definition twoNodes : World LinkTable.Index :=
  mkWorld [("img.png", bytesA); canvas "board.canvas" ["img.png"; "img.png"];
           ("empty.canvas", list_byte_of_string "{}");
           note "note.md" []]
          [("board.canvas", ["img.png"; "img.png"])] [].

Definition emptyBoard : TFile := {| path := "empty.canvas"; extension := "canvas" |}.


Definition aNote : TFile := {| path := "note.md"; extension := "md" |}.

(** The leaf of an open canvas. *)
Definition canvasLeaf : WorkspaceLeaf := {| view := {| viewType := "canvas" |} |}.

(** Collaborators that reject the read of the files in [unreadable] and
    the rewriting of the documents in [readOnly]. *)
Definition failing (unreadable readOnly : list string) : Faults LinkTable.Index := {|
  readBinaryRejects := fun _ p =>
    if existsb (String.eqb p) unreadable
    then Some ("Error: EACCES: permission denied, open '" ++ p ++ "'")
    else None;
  getNotesRejects := fun _ _ _ => None;
  getCanvasNotesRejects := fun _ _ _ => None;
  existsRejects := fun _ _ => None;
  updateNoteRejects := fun _ _ note _ _ =>
    if existsb (String.eqb note) readOnly
    then Some ("Error: EPERM: operation not permitted, open '" ++ note ++ "'")
    else None;
  updateCanvasRejects := fun _ _ note _ _ =>
    if existsb (String.eqb note) readOnly
    then Some ("Error: EPERM: operation not permitted, open '" ++ note ++ "'")
    else None
|}.

(** Notes are renamed like images. *)
Definition notesToo : PluginSettings := {|
  ignoreFolders := [".git/"];
  renameFileTypes := ["png"; "md"];
  renameOnlyLinkedAttachments := false;
  mergeTheSameAttachments := true
|}.

(** A note that has the name of its digest and embeds [a.png]. *)
Definition selfNamedNote : string :=
  md5_hex (list_byte_of_string (LinkTable.renderNote ["a.png"])) ++ ".md".

Definition selfNamed : World LinkTable.Index :=
  mkWorld [note selfNamedNote ["a.png"]; ("a.png", bytesA)]
          [(selfNamedNote, ["a.png"])] [].

(** [c.png], which a note embeds, holds "A"; the file that has the name of
    the digest of "A" holds "B" and nothing refers to it. *)
Definition standingClash : World LinkTable.Index :=
  mkWorld [("c.png", bytesA); (hashA ++ ".png", bytesB); note "note.md" ["c.png"]]
          [("note.md", ["c.png"])] [].

(** Links by their target as written: a link resolves to the file of that
    path; the generated link is an embed of the file under the alias. *)
Definition byName : LinkResolver := {|
  getLinkpath := fun l => l;
  getFirstLinkpathDest := fun l _ => if String.eqb l "" then None else Some l;
  generateMarkdownLink := fun afile _ _ alias => "![" ++ alias ++ "](" ++ afile ++ ")"
|}.

Definition at_ (l c : nat) : Loc := {| locLine := l; locCol := c |}.

(** [[img.png](img.png)], [[my cat](img.png)], a link to another file and
    a link the cache has no display text for. *)
Definition someLinks : list LinkCache :=
  [ {| linkText := "img.png"; displayText := Some "img.png";
       positionStart := at_ 0 0; positionEnd := at_ 0 18 |};
    {| linkText := "img.png"; displayText := Some "my cat";
       positionStart := at_ 1 0; positionEnd := at_ 1 17 |};
    {| linkText := "other.png"; displayText := Some "";
       positionStart := at_ 2 0; positionEnd := at_ 2 13 |};
    {| linkText := "img.png"; displayText := None;
       positionStart := at_ 3 0; positionEnd := at_ 3 11 |} ].

End Scenario2.

(* ===================================================================== *)
(** * Properties *)
(* ===================================================================== *)

(** ** Strings *)

Lemma prefix_app (p r : string) : String.prefix p (p ++ r) = true.
Proof.
  induction p as [|c p IH]; simpl.
  - destruct r; reflexivity.
  - destruct (Ascii.ascii_dec c c) as [_|n]; [exact IH | now elim n].
Qed.

Lemma prefix_inv (p s : string) :
  String.prefix p s = true -> exists r, s = p ++ r.
Proof.
  revert s; induction p as [|c p IH]; intros s Hp.
  - now exists s.
  - destruct s as [|d s]; simpl in Hp; [discriminate|].
    destruct (Ascii.ascii_dec c d) as [->|]; [|discriminate].
    destruct (IH _ Hp) as [r ->]. now exists r.
Qed.

Lemma startsWith_spec (s p : string) :
  JS.startsWith s p = true <-> exists r, s = p ++ r.
Proof.
  unfold JS.startsWith; split.
  - apply prefix_inv.
  - intros [r ->]. apply prefix_app.
Qed.

Lemma length_app (a b : string) :
  String.length (a ++ b) = String.length a + String.length b.
Proof. induction a; simpl; congruence. Qed.

Lemma substring_all (x : string) : substring 0 (String.length x) x = x.
Proof. induction x; simpl; congruence. Qed.

Lemma substring_skip (a x : string) :
  substring (String.length a) (String.length x) (a ++ x) = x.
Proof. induction a; simpl; [apply substring_all | assumption]. Qed.

Lemma substring_take (a x : string) :
  substring 0 (String.length a) (a ++ x) = a.
Proof.
  induction a; simpl.
  - now destruct x.
  - congruence.
Qed.

Lemma substring_split (k : nat) (s : string) :
  k <= String.length s ->
  s = substring 0 k s ++ substring k (String.length s - k) s.
Proof.
  revert s; induction k as [|k IH]; intros s Hk.
  - simpl. rewrite Nat.sub_0_r.
    replace (substring 0 0 s) with EmptyString by now destruct s.
    now rewrite substring_all.
  - destruct s as [|c s]; simpl in *; [lia|].
    f_equal. apply IH. lia.
Qed.

Lemma endsWith_app (a x : string) : JS.endsWith (a ++ x) x = true.
Proof.
  unfold JS.endsWith. rewrite length_app.
  replace (String.length a + String.length x - String.length x)
    with (String.length a) by lia.
  rewrite substring_skip, String.eqb_refl, andb_true_r.
  apply Nat.leb_le. lia.
Qed.

Lemma endsWith_inv (s x : string) :
  JS.endsWith s x = true ->
  s = substring 0 (String.length s - String.length x) s ++ x.
Proof.
  unfold JS.endsWith. intros Hx.
  apply andb_true_iff in Hx as [Hle Heq].
  apply Nat.leb_le in Hle. apply String.eqb_eq in Heq.
  rewrite (substring_split (String.length s - String.length x) s) at 1 by lia.
  replace (String.length s - (String.length s - String.length x))
    with (String.length x) by lia.
  now rewrite Heq.
Qed.

Lemma endsWith_spec (s x : string) :
  JS.endsWith s x = true <-> exists a, s = a ++ x.
Proof.
  split.
  - intros Hx. eexists. now apply endsWith_inv.
  - intros [a ->]. apply endsWith_app.
Qed.

(** ** The gate (lines 75-77, 262-276) *)

Lemma anyFolder_spec (folders : list string) (filePath : string) :
  anyFolder folders filePath = true <->
  exists folder, In folder folders /\ JS.startsWith filePath folder = true.
Proof.
  induction folders as [|f l IH]; simpl.
  - split; [discriminate | now intros [? [[] _]]].
  - destruct (JS.startsWith filePath f) eqn:E.
    + split; [|reflexivity]. intros _. exists f. auto.
    + rewrite IH. split.
      * intros [g [Hin Hg]]. exists g. auto.
      * intros [g [[<-|Hin] Hg]]; [congruence|]. exists g. auto.
Qed.

Lemma anyType_spec (exts : list string) (filePath : string) :
  anyType exts filePath = true <->
  exists ext, In ext exts /\ JS.endsWith filePath ("." ++ ext) = true.
Proof.
  induction exts as [|e l IH]; simpl.
  - split; [discriminate | now intros [? [[] _]]].
  - destruct (JS.endsWith filePath (String "." e)) eqn:E.
    + split; [|reflexivity]. intros _. exists e. auto.
    + rewrite IH. split.
      * intros [g [Hin Hg]]. exists g. auto.
      * intros [g [[<-|Hin] Hg]]; [simpl in Hg; congruence|]. exists g. auto.
Qed.

(** ** The engine refines the decision *)

Section Engine.

Context {D : Type} {P : PathUtil} {H : Md5} {LH : LinksHandler D} {A : App D}.
Variable settings : PluginSettings.

Lemma updateReferences_run (notes : list string) (oldPath newPath : string) (w : World D) :
  updateReferences notes oldPath newPath w = (Ok tt, rewriteAll notes oldPath newPath w).
Proof.
  unfold updateReferences, rewriteAll.
  revert w; induction notes as [|n l IH]; intros w; simpl; [reflexivity|].
  unfold bind at 1.
  assert (E : (if JS.endsWith n ".canvas"
               then lh_updateChangedPathInCanvas n oldPath newPath
               else lh_updateChangedPathInNote n oldPath newPath) w
              = (Ok tt, rewriteOne oldPath newPath w n)).
  { unfold rewriteOne. destruct (JS.endsWith n ".canvas"); reflexivity. }
  rewrite E. apply IH.
Qed.

Lemma generateValidBaseName_run (p : string) (w : World D) :
  generateValidBaseName p w =
  match lookup p (files w) with
  | Some b => (Ok (md5_hex b), w)
  | None => (Thrown ("File not found: " ++ p), w)
  end.
Proof.
  unfold generateValidBaseName, bind, vault_readBinary.
  destruct (lookup p (files w)); reflexivity.
Qed.

(** [renameAttachmentIfNeeded] returns what the decision of steps 1 to 6
    enacts, and rejects only when the attachment cannot be read. *)
Lemma renameAttachmentIfNeeded_decision (file : string) (w : World D) :
  renameAttachmentIfNeeded settings file w =
  match decision settings w file with
  | Some d => (Ok (fst (enact w file d)), snd (enact w file d))
  | None => (Thrown ("File not found: " ++ file), w)
  end.
Proof.
  unfold renameAttachmentIfNeeded, decision, gatedOut.
  destruct (checkFilePathIsIgnored settings file
            || negb (checkFileTypeIsAllowed settings file)) eqn:Egate;
    [reflexivity|].
  unfold bind at 1. rewrite generateValidBaseName_run.
  destruct (lookup file (files w)) as [bytes|] eqn:Efile; [|reflexivity].
  unfold decisionFor, gatedOut, canonicallyNamed, skippedAsUnlinked. rewrite Egate.
  destruct (String.eqb (basename file (extname file)) (md5_hex bytes)); [reflexivity|].
  unfold bind at 1, lh_getNotesThatHaveLinkToFile.
  unfold bind at 1, lh_getNotesThatHaveLinkToFileInCanvas.
  fold (referencingDocuments w file).
  assert (Elen : Nat.eqb (List.length (referencingDocuments w file)) 0
                 = match referencingDocuments w file with [] => true | _ => false end)
    by now destruct (referencingDocuments w file).
  rewrite Elen.
  destruct ((match referencingDocuments w file with [] => true | _ => false end)
            && renameOnlyLinkedAttachments settings); [reflexivity|].
  unfold bind at 1, adapter_exists, fileExists.
  set (validPath := getFilePathWithRenamedBaseName file (md5_hex bytes)).
  destruct (lookup validPath (files w)) as [existing|] eqn:Etarget.
  - unfold bind at 1. rewrite generateValidBaseName_run, Etarget.
    destruct (String.eqb (md5_hex existing) (md5_hex bytes)); cbn [negb].
    + destruct (mergeTheSameAttachments settings); cbn [negb].
      * unfold tryCatch, vault_delete.
        destruct (deleteRejects (files w) file) as [e|]; [reflexivity|].
        unfold bind at 1. rewrite updateReferences_run. reflexivity.
      * reflexivity.
    + reflexivity.
  - unfold tryCatch, vault_rename.
    destruct (renameRejects (files w) file validPath) as [e|]; [reflexivity|].
    unfold bind at 1. rewrite updateReferences_run. reflexivity.
Qed.

(** *** What rewriting the references does *)

Lemma rewriteOne_trace (oldPath newPath : string) (w : World D) (note : string) :
  trace (rewriteOne oldPath newPath w note)
  = (trace w ++ [rewriteEvent oldPath newPath note])%list.
Proof.
  unfold rewriteOne, rewriteEvent.
  destruct (JS.endsWith note ".canvas"); reflexivity.
Qed.

Lemma rewriteAll_trace (notes : list string) (oldPath newPath : string) (w : World D) :
  trace (rewriteAll notes oldPath newPath w)
  = (trace w ++ map (rewriteEvent oldPath newPath) notes)%list.
Proof.
  unfold rewriteAll. revert w.
  induction notes as [|n l IH]; intros w; simpl.
  - now rewrite app_nil_r.
  - rewrite IH, rewriteOne_trace, <- app_assoc. reflexivity.
Qed.

Lemma isMutation_report (ev : Event) : isReport ev = true -> isMutation ev = false.
Proof. destruct ev; simpl; congruence. Qed.

Lemma blockedReport_isReport (p q : string) (why : Blocking) :
  isReport (blockedReport p q why) = true.
Proof. destruct why; reflexivity. Qed.

(** A call that returns [false] decided No-op or Blocked. *)
Lemma returns_false_inv (file : string) (w w' : World D) :
  renameAttachmentIfNeeded settings file w = (Ok false, w') ->
  (decision settings w file = Some NoOp /\ w' = w)
  \/ (exists q why, decision settings w file = Some (Blocked q why)
                    /\ w' = report (blockedReport file q why) w).
Proof.
  rewrite renameAttachmentIfNeeded_decision.
  destruct (decision settings w file) as [[|q|q|q why]|]; simpl; intros E;
    inversion E; subst; eauto.
Qed.

(** A call that returns [true] decided Rename or Merge-and-Delete. *)
Lemma returns_true_inv (file : string) (w w' : World D) :
  renameAttachmentIfNeeded settings file w = (Ok true, w') ->
  exists q, (decision settings w file = Some (Rename q)
             \/ decision settings w file = Some (MergeAndDelete q))
            /\ exists first,
                 (first = Renamed file q \/ first = Deleted file)
                 /\ trace w' =
                    (trace w ++ first
                       :: map (rewriteEvent file q) (referencingDocuments w file)
                       ++ [Log (match first with
                                | Renamed _ _ => msgRenamed file q
                                | _ => msgMerged file q
                                end)])%list.
Proof.
  rewrite renameAttachmentIfNeeded_decision.
  destruct (decision settings w file) as [[|q|q|q why]|] eqn:Ed; simpl; intros E;
    inversion E; subst; clear E; exists q.
  - split; [now left|]. exists (Renamed file q). split; [now left|].
    unfold report; cbn [trace].
    rewrite rewriteAll_trace. cbn [trace]. rewrite <- !app_assoc. reflexivity.
  - split; [now right|]. exists (Deleted file). split; [now right|].
    unfold report; cbn [trace].
    rewrite rewriteAll_trace. cbn [trace]. rewrite <- !app_assoc. reflexivity.
Qed.

(** *** The gate *)

(** C10. An attachment enters processing iff no configured ignore folder
    is a literal prefix of its path and the path ends with a dot followed
    by a configured extension, both compared character for character: a
    path that is gated out returns [false] untouched, any other is read.
    So ["IMG.PNG"] is skipped when only ["png"] is allowed, and the ignore
    entry ["att"] matches ["attic/x.png"], which has no separator after
    the prefix. *)
Theorem gate_is_case_sensitive_string_matching :
  (forall filePath : string,
      gatedOut settings filePath = false <->
      (forall folder, In folder (ignoreFolders settings) ->
                      ~ exists rest, filePath = folder ++ rest)
      /\ (exists ext stem, In ext (renameFileTypes settings)
                           /\ filePath = stem ++ "." ++ ext))
  /\ (forall (filePath : string) (w : World D),
         renameAttachmentIfNeeded settings filePath w =
         if gatedOut settings filePath then (Ok false, w)
         else match lookup filePath (files w) with
              | Some bytes => (Ok (fst (enact w filePath (decisionFor settings w filePath bytes))),
                               snd (enact w filePath (decisionFor settings w filePath bytes)))
              | None => (Thrown ("File not found: " ++ filePath), w)
              end)
  /\ (forall folders linkedOnly merge,
         gatedOut {| ignoreFolders := folders; renameFileTypes := ["png"];
                     renameOnlyLinkedAttachments := linkedOnly;
                     mergeTheSameAttachments := merge |} "IMG.PNG" = true)
  /\ (forall types linkedOnly merge,
         gatedOut {| ignoreFolders := ["att"]; renameFileTypes := types;
                     renameOnlyLinkedAttachments := linkedOnly;
                     mergeTheSameAttachments := merge |} "attic/x.png" = true).
Proof.
  split; [|split; [|split]].
  - intros filePath. unfold gatedOut, checkFilePathIsIgnored, checkFileTypeIsAllowed.
    rewrite orb_false_iff, negb_false_iff. split.
    + intros [Hign Htype]. split.
      * intros folder Hin [rest Hrest].
        assert (Hany : anyFolder (ignoreFolders settings) filePath = true).
        { apply anyFolder_spec. exists folder. split; [assumption|].
          apply startsWith_spec. now exists rest. }
        congruence.
      * apply anyType_spec in Htype as [ext [Hin Hends]].
        apply endsWith_spec in Hends as [stem Hstem].
        exists ext, stem. split; [assumption | exact Hstem].
    + intros [Hign [ext [stem [Hin Hstem]]]]. split.
      * destruct (anyFolder (ignoreFolders settings) filePath) eqn:Hany; [|reflexivity].
        apply anyFolder_spec in Hany as [folder [Hf Hstarts]].
        apply startsWith_spec in Hstarts. elim (Hign folder Hf Hstarts).
      * apply anyType_spec. exists ext. split; [assumption|].
        apply endsWith_spec. now exists stem.
  - intros filePath w. rewrite renameAttachmentIfNeeded_decision.
    unfold decision. destruct (gatedOut settings filePath); [reflexivity|].
    destruct (lookup filePath (files w)); reflexivity.
  - intros folders linkedOnly merge. unfold gatedOut. apply orb_true_iff. right.
    reflexivity.
  - reflexivity.
Qed.

(** *** The fingerprint *)

(** C7. [generateValidBaseName] is a function of the bytes of the file
    only: two files with the same bytes, at any paths and in any two
    worlds, get the same digest string, and the call leaves the world as
    it found it. *)
Theorem generateValidBaseName_depends_on_bytes_only
    (w1 w2 : World D) (p1 p2 : string) (bytes : list byte) :
  lookup p1 (files w1) = Some bytes ->
  lookup p2 (files w2) = Some bytes ->
  generateValidBaseName p1 w1 = (Ok (md5_hex bytes), w1)
  /\ generateValidBaseName p2 w2 = (Ok (md5_hex bytes), w2).
Proof.
  intros H1 H2. rewrite !generateValidBaseName_run, H1, H2. split; reflexivity.
Qed.

(** *** Calls that return [false] *)

(** C9. Whenever [renameAttachmentIfNeeded] returns [false], the call
    decided No-op or Blocked, the files and the link index are as before,
    and the events of the call, a report at most, include no rename, no
    delete and no rewrite of a reference. *)
Theorem no_mutation_when_false (file : string) (w w' : World D) :
  renameAttachmentIfNeeded settings file w = (Ok false, w') ->
  files w' = files w
  /\ cache w' = cache w
  /\ (exists evs, trace w' = (trace w ++ evs)%list
                  /\ existsb isMutation evs = false
                  /\ List.length evs <= 1)
  /\ (decision settings w file = Some NoOp
      \/ exists q why, decision settings w file = Some (Blocked q why)).
Proof.
  intros Hrun. apply returns_false_inv in Hrun as [[Hd ->]|[q [why [Hd ->]]]].
  - repeat split; [exists []; rewrite app_nil_r; simpl; auto | now left].
  - repeat split.
    + exists [blockedReport file q why]. repeat split; [|simpl; lia].
      simpl. now rewrite (isMutation_report _ (blockedReport_isReport file q why)).
    + right. eauto.
Qed.

(** *** Steps 3 to 6 *)

Lemma skippedAsUnlinked_false (w : World D) (p : string) :
  referencingDocuments w p <> [] \/ renameOnlyLinkedAttachments settings = false ->
  skippedAsUnlinked settings w p = false.
Proof.
  unfold skippedAsUnlinked. intros [Hrefs| ->].
  - destruct (referencingDocuments w p); [congruence | reflexivity].
  - apply andb_false_r.
Qed.

Lemma decision_when_target_exists (w : World D) (p : string) (bytes existing : list byte) :
  gatedOut settings p = false ->
  lookup p (files w) = Some bytes ->
  canonicallyNamed p bytes = false ->
  lookup (getFilePathWithRenamedBaseName p (md5_hex bytes)) (files w) = Some existing ->
  decision settings w p =
  Some (if skippedAsUnlinked settings w p then NoOp
        else if negb (String.eqb (md5_hex existing) (md5_hex bytes))
        then Blocked (getFilePathWithRenamedBaseName p (md5_hex bytes)) NameClash
        else if negb (mergeTheSameAttachments settings)
        then Blocked (getFilePathWithRenamedBaseName p (md5_hex bytes)) MergeDisallowed
        else match deleteRejects (files w) p with
             | Some e => Blocked (getFilePathWithRenamedBaseName p (md5_hex bytes)) (DeleteFailed e)
             | None => MergeAndDelete (getFilePathWithRenamedBaseName p (md5_hex bytes))
             end).
Proof.
  intros Hgate Hfile Hname Htarget.
  unfold decision, decisionFor.
  now rewrite Hgate, Hfile, Hname, Htarget.
Qed.

(** C1 (amended). When another file with a different fingerprint sits at
    the candidate path of an attachment that passes the filters and is not
    canonically named, [renameAttachmentIfNeeded] returns [false] and
    renames, deletes and rewrites nothing; it reports the clash when some
    document refers to the attachment or unlinked attachments are renamed
    too, and returns silently at step 3 otherwise. *)
Theorem name_clash_blocks (file : string) (w : World D) (bytes existing : list byte) :
  gatedOut settings file = false ->
  lookup file (files w) = Some bytes ->
  canonicallyNamed file bytes = false ->
  lookup (getFilePathWithRenamedBaseName file (md5_hex bytes)) (files w) = Some existing ->
  md5_hex existing <> md5_hex bytes ->
  let validPath := getFilePathWithRenamedBaseName file (md5_hex bytes) in
  let r := renameAttachmentIfNeeded settings file w in
  fst r = Ok false
  /\ files (snd r) = files w
  /\ cache (snd r) = cache w
  /\ (exists evs, trace (snd r) = (trace w ++ evs)%list /\ existsb isMutation evs = false)
  /\ (referencingDocuments w file <> [] \/ renameOnlyLinkedAttachments settings = false ->
      r = (Ok false, report (Warn (msgNameClash file validPath)) w))
  /\ (referencingDocuments w file = [] -> renameOnlyLinkedAttachments settings = true ->
      r = (Ok false, w)).
Proof.
  intros Hgate Hfile Hname Htarget Hdiff validPath r.
  assert (Hneq : String.eqb (md5_hex existing) (md5_hex bytes) = false)
    by now apply String.eqb_neq.
  assert (Hr : r = if skippedAsUnlinked settings w file then (Ok false, w)
                   else (Ok false, report (Warn (msgNameClash file validPath)) w)).
  { unfold r. rewrite renameAttachmentIfNeeded_decision.
    rewrite (decision_when_target_exists w file bytes existing) by assumption.
    rewrite Hneq. destruct (skippedAsUnlinked settings w file); reflexivity. }
  repeat split.
  - rewrite Hr. now destruct (skippedAsUnlinked settings w file).
  - rewrite Hr. now destruct (skippedAsUnlinked settings w file).
  - rewrite Hr. now destruct (skippedAsUnlinked settings w file).
  - rewrite Hr. destruct (skippedAsUnlinked settings w file).
    + exists []. now rewrite app_nil_r.
    + now exists [Warn (msgNameClash file validPath)].
  - intros Hlinked. now rewrite Hr, (skippedAsUnlinked_false _ _ Hlinked).
  - intros Hrefs Honly. rewrite Hr. unfold skippedAsUnlinked. now rewrite Hrefs, Honly.
Qed.

(** C2. On the merge path (a file with the same fingerprint exists at the
    candidate path and merging is enabled): when the storage rejects the
    delete the call returns [false], the vault is as before and no
    reference was rewritten; when it accepts, and step 3 did not stop the
    attachment, the delete comes first, the rewrite of every referencing
    document from the old path to the candidate path follows it, and the
    call returns [true]. *)
Theorem merge_deletes_before_rewriting (file : string) (w : World D)
    (bytes existing : list byte) :
  gatedOut settings file = false ->
  lookup file (files w) = Some bytes ->
  canonicallyNamed file bytes = false ->
  lookup (getFilePathWithRenamedBaseName file (md5_hex bytes)) (files w) = Some existing ->
  md5_hex existing = md5_hex bytes ->
  mergeTheSameAttachments settings = true ->
  let validPath := getFilePathWithRenamedBaseName file (md5_hex bytes) in
  let r := renameAttachmentIfNeeded settings file w in
  (forall e, deleteRejects (files w) file = Some e ->
     fst r = Ok false
     /\ files (snd r) = files w
     /\ cache (snd r) = cache w
     /\ exists evs, trace (snd r) = (trace w ++ evs)%list
                    /\ existsb isMutation evs = false)
  /\ (deleteRejects (files w) file = None ->
      skippedAsUnlinked settings w file = false ->
      fst r = Ok true
      /\ snd r = report (Log (msgMerged file validPath))
                   (rewriteAll (referencingDocuments w file) file validPath
                      (mkWorld (removeFile file (files w)) (cache w)
                               (trace w ++ [Deleted file])))
      /\ trace (snd r) =
         (trace w ++ Deleted file
            :: map (rewriteEvent file validPath) (referencingDocuments w file)
            ++ [Log (msgMerged file validPath)])%list)
  /\ (forall before ev after,
         trace (snd r) = (trace w ++ before ++ ev :: after)%list ->
         isRewrite ev = true -> In (Deleted file) before).
Proof.
  intros Hgate Hfile Hname Htarget Hsame Hmerge validPath r.
  assert (Heq : String.eqb (md5_hex existing) (md5_hex bytes) = true)
    by now apply String.eqb_eq.
  assert (Hr : r = if skippedAsUnlinked settings w file then (Ok false, w)
                   else match deleteRejects (files w) file with
                        | Some e => (Ok false, report (Error (msgCantDelete file e)) w)
                        | None =>
                            (Ok true,
                             report (Log (msgMerged file validPath))
                               (rewriteAll (referencingDocuments w file) file validPath
                                  (mkWorld (removeFile file (files w)) (cache w)
                                     (trace w ++ [Deleted file]))))
                        end).
  { unfold r. rewrite renameAttachmentIfNeeded_decision.
    rewrite (decision_when_target_exists w file bytes existing) by assumption.
    rewrite Heq, Hmerge. cbn [negb].
    destruct (skippedAsUnlinked settings w file); [reflexivity|].
    destruct (deleteRejects (files w) file); reflexivity. }
  assert (Htrace : forall w0, trace (report (Log (msgMerged file validPath))
              (rewriteAll (referencingDocuments w file) file validPath
                 (mkWorld (removeFile file (files w0)) (cache w0)
                    (trace w ++ [Deleted file]))))
            = (trace w ++ Deleted file
                 :: map (rewriteEvent file validPath) (referencingDocuments w file)
                 ++ [Log (msgMerged file validPath)])%list).
  { intros w0. unfold report; cbn [trace]. rewrite rewriteAll_trace. cbn [trace].
    rewrite <- !app_assoc. reflexivity. }
  split; [|split].
  - intros e He. rewrite Hr, He.
    destruct (skippedAsUnlinked settings w file); cbn [fst snd].
    + repeat split. exists []. now rewrite app_nil_r.
    + repeat split. now exists [Error (msgCantDelete file e)].
  - intros Hdel Hlinked. rewrite Hr, Hdel, Hlinked. cbn [fst snd].
    repeat split. apply Htrace.
  - intros before ev after. rewrite Hr.
    destruct (skippedAsUnlinked settings w file); cbn [snd].
    + intros E Hev. exfalso.
      rewrite <- (app_nil_r (trace w)) in E at 1.
      apply app_inv_head in E. now destruct before.
    + destruct (deleteRejects (files w) file) as [e|]; cbn [snd].
      * unfold report; cbn [trace]. intros E Hev. exfalso.
        apply app_inv_head in E.
        destruct before as [|b before].
        -- inversion E; subst. discriminate.
        -- inversion E. now destruct before.
      * rewrite Htrace. intros E Hev. apply app_inv_head in E.
        destruct before as [|b before].
        -- inversion E; subst. discriminate.
        -- inversion E; subst. now left.
Qed.

(** *** Reports *)

Lemma includes_here (x b : string) : JS.includes (x ++ b) x = true.
Proof.
  destruct x as [|c x]; simpl.
  - now destruct b.
  - destruct (Ascii.ascii_dec c c) as [_|n]; [|now elim n].
    now rewrite prefix_app.
Qed.

Lemma includes_skip (a s x : string) :
  JS.includes s x = true -> JS.includes (a ++ s) x = true.
Proof.
  intros Hs. induction a as [|c a IH]; simpl; [assumption|].
  rewrite IH. apply orb_true_r.
Qed.

Lemma includes_refl (x : string) : JS.includes x x = true.
Proof.
  assert (E : String.prefix x x = true).
  { induction x as [|c x IH]; simpl; [reflexivity|].
    destruct (Ascii.ascii_dec c c) as [_|n]; [exact IH | now elim n]. }
  destruct x as [|c x]; [reflexivity|].
  cbn [JS.includes]. now rewrite E.
Qed.

Ltac find_in_message :=
  repeat first [apply includes_here | apply includes_refl | apply includes_skip].

Lemma decision_blocked_inv (w : World D) (file q : string) (why : Blocking) :
  decision settings w file = Some (Blocked q why) ->
  exists bytes,
    lookup file (files w) = Some bytes
    /\ gatedOut settings file = false
    /\ canonicallyNamed file bytes = false
    /\ skippedAsUnlinked settings w file = false
    /\ q = getFilePathWithRenamedBaseName file (md5_hex bytes)
    /\ match why with
       | NameClash =>
           exists existing, lookup q (files w) = Some existing
                            /\ md5_hex existing <> md5_hex bytes
       | MergeDisallowed =>
           exists existing, lookup q (files w) = Some existing
                            /\ md5_hex existing = md5_hex bytes
                            /\ mergeTheSameAttachments settings = false
       | DeleteFailed e =>
           exists existing, lookup q (files w) = Some existing
                            /\ md5_hex existing = md5_hex bytes
                            /\ mergeTheSameAttachments settings = true
                            /\ deleteRejects (files w) file = Some e
       | RenameFailed e =>
           lookup q (files w) = None /\ renameRejects (files w) file q = Some e
       end.
Proof.
  unfold decision, decisionFor.
  destruct (gatedOut settings file) eqn:Hgate; [discriminate|].
  destruct (lookup file (files w)) as [bytes|] eqn:Hfile; [|discriminate].
  destruct (canonicallyNamed file bytes) eqn:Hname; [discriminate|].
  destruct (skippedAsUnlinked settings w file) eqn:Hskip; [discriminate|].
  set (validPath := getFilePathWithRenamedBaseName file (md5_hex bytes)).
  destruct (lookup validPath (files w)) as [existing|] eqn:Htarget.
  - destruct (String.eqb (md5_hex existing) (md5_hex bytes)) eqn:Heq; cbn [negb].
    + apply String.eqb_eq in Heq.
      destruct (mergeTheSameAttachments settings) eqn:Hmerge; cbn [negb].
      * destruct (deleteRejects (files w) file) as [e|] eqn:Hdel; [|discriminate].
        intros E; inversion E; subst. exists bytes. repeat split; auto.
        exists existing. auto.
      * intros E; inversion E; subst. exists bytes. repeat split; auto.
        exists existing. auto.
    + apply String.eqb_neq in Heq.
      intros E; inversion E; subst. exists bytes. repeat split; auto.
      exists existing. auto.
  - destruct (renameRejects (files w) file validPath) as [e|] eqn:Hren; [|discriminate].
    intros E; inversion E; subst. exists bytes. repeat split; auto.
Qed.

(** C8 (amended). Every Blocked outcome (a name clash, a duplicate while
    merging is off, a rejected rename, a rejected delete) returns [false]
    after one report that names the source path and the reason; the
    reports of a name clash, of a disallowed merge and of a rejected
    rename name the destination path too, the report of a rejected delete
    is the source path and the storage error.  The call returns, so the
    loop goes on with the next attachment. *)
Theorem blocked_is_reported (file : string) (w : World D) (q : string) (why : Blocking) :
  decision settings w file = Some (Blocked q why) ->
  renameAttachmentIfNeeded settings file w
  = (Ok false, report (blockedReport file q why) w)
  /\ (exists msg,
        (blockedReport file q why = Warn msg \/ blockedReport file q why = Error msg)
        /\ JS.includes msg file = true
        /\ match why with
           | DeleteFailed e => msg = msgCantDelete file e
           | RenameFailed e => JS.includes msg q = true /\ JS.includes msg e = true
           | _ => JS.includes msg q = true
           end)
  /\ (forall rest count,
        forOf (file :: rest) (countIfRenamed settings) count w
        = forOf rest (countIfRenamed settings) count
            (report (blockedReport file q why) w))
  /\ (exists bytes,
        lookup file (files w) = Some bytes
        /\ q = getFilePathWithRenamedBaseName file (md5_hex bytes)
        /\ match why with
           | NameClash =>
               exists existing, lookup q (files w) = Some existing
                                /\ md5_hex existing <> md5_hex bytes
           | MergeDisallowed =>
               exists existing, lookup q (files w) = Some existing
                                /\ md5_hex existing = md5_hex bytes
                                /\ mergeTheSameAttachments settings = false
           | DeleteFailed e =>
               exists existing, lookup q (files w) = Some existing
                                /\ md5_hex existing = md5_hex bytes
                                /\ mergeTheSameAttachments settings = true
                                /\ deleteRejects (files w) file = Some e
           | RenameFailed e =>
               lookup q (files w) = None /\ renameRejects (files w) file q = Some e
           end).
Proof.
  intros Hd.
  assert (Hrun : renameAttachmentIfNeeded settings file w
                 = (Ok false, report (blockedReport file q why) w))
    by now rewrite renameAttachmentIfNeeded_decision, Hd.
  split; [exact Hrun|split; [|split]]; cycle 2.
  { destruct (decision_blocked_inv w file q why Hd)
      as [bytes [Hf [_ [_ [_ [Hq Hwhy]]]]]].
    exists bytes. auto. }
  - destruct why as [| |e|e]; cbn [blockedReport]; eexists;
      (split; [first [left; reflexivity | right; reflexivity]|]);
      (split; [|try split]);
      unfold msgNameClash, msgMergeDisabled, msgCantDelete, msgCantRename;
      try reflexivity; find_in_message.
  - intros rest count. cbn [forOf]. unfold bind at 1.
    unfold countIfRenamed at 1. unfold bind at 1. rewrite Hrun. reflexivity.
Qed.

(** *** The referencing documents *)

Lemma Set_add_In (acc : list string) (x y : string) :
  In y (JS.Set_add acc x) <-> In y acc \/ y = x.
Proof.
  unfold JS.Set_add. destruct (existsb (String.eqb x) acc) eqn:E.
  - apply existsb_exists in E as [z [Hz Hxz]]. apply String.eqb_eq in Hxz. subst z.
    split; [auto|]. intros [Hy| ->]; assumption.
  - rewrite in_app_iff. simpl. intuition.
Qed.

Lemma Set_add_NoDup (acc : list string) (x : string) :
  NoDup acc -> NoDup (JS.Set_add acc x).
Proof.
  intros Hnd. unfold JS.Set_add. destruct (existsb (String.eqb x) acc) eqn:E; [assumption|].
  apply NoDup_app; [assumption | constructor; [intros [] | constructor] |].
  intros y Hy [Hxy|[]]. subst y.
  assert (Hex : existsb (String.eqb x) acc = true).
  { apply existsb_exists. exists x. split; [assumption | apply String.eqb_refl]. }
  congruence.
Qed.

Lemma fold_Set_add (l acc : list string) :
  NoDup acc ->
  NoDup (fold_left JS.Set_add l acc)
  /\ forall y, In y (fold_left JS.Set_add l acc) <-> In y acc \/ In y l.
Proof.
  revert acc; induction l as [|x l IH]; intros acc Hnd; simpl.
  - split; [assumption | intuition].
  - destruct (IH _ (Set_add_NoDup acc x Hnd)) as [Hnd' Hin].
    split; [assumption|]. intros y. rewrite Hin, Set_add_In. intuition.
Qed.

Lemma referencingNotes_NoDup (mdNotes canvasNotes : option (list string)) :
  NoDup (referencingNotes mdNotes canvasNotes).
Proof. apply fold_Set_add. constructor. Qed.

Lemma referencingNotes_In (mdNotes canvasNotes : option (list string)) (note : string) :
  In note (referencingNotes mdNotes canvasNotes)
  <-> In note (JS.orEmpty mdNotes ++ JS.orEmpty canvasNotes).
Proof.
  unfold referencingNotes, JS.Set_of.
  destruct (fold_Set_add (JS.orEmpty mdNotes ++ JS.orEmpty canvasNotes) [] (NoDup_nil _))
    as [_ Hin].
  rewrite Hin. simpl. intuition.
Qed.

Lemma isRewriteOf_rewriteEvent (oldPath newPath note n : string) :
  isRewriteOf note (rewriteEvent oldPath newPath n) = String.eqb n note.
Proof. unfold rewriteEvent. destruct (JS.endsWith n ".canvas"); reflexivity. Qed.

Lemma rewrites_of_note (oldPath newPath note : string) (notes : list string) :
  NoDup notes ->
  (In note notes ->
   List.length (filter (isRewriteOf note) (map (rewriteEvent oldPath newPath) notes)) = 1)
  /\ (~ In note notes ->
      List.length (filter (isRewriteOf note) (map (rewriteEvent oldPath newPath) notes)) = 0).
Proof.
  induction 1 as [|n l Hn Hnd [IHin IHout]]; simpl.
  - split; [intros [] | reflexivity].
  - rewrite isRewriteOf_rewriteEvent.
    destruct (String.eqb_spec n note) as [->|Hneq]; simpl.
    + split; [|intros Hc; elim Hc; now left].
      intros _. now rewrite (IHout Hn).
    + split.
      * intros [Hc|Hin]; [congruence | auto].
      * intros Hc. apply IHout. intros Hin. apply Hc. now right.
Qed.

(** C6. The documents that drive the rewriting, the union of the
    referencing notes and the referencing canvases, hold every path once,
    however often the two look-ups list it; in a call that renames or
    merges, every one of them is rewritten exactly once and no other
    document is rewritten. *)
Theorem referencing_documents_rewritten_once :
  (forall mdNotes canvasNotes : option (list string),
      NoDup (referencingNotes mdNotes canvasNotes)
      /\ forall note, In note (referencingNotes mdNotes canvasNotes)
                      <-> In note (JS.orEmpty mdNotes ++ JS.orEmpty canvasNotes))
  /\ (forall (file : string) (w w' : World D),
         renameAttachmentIfNeeded settings file w = (Ok true, w') ->
         exists evs,
           trace w' = (trace w ++ evs)%list
           /\ forall note,
               (In note (JS.orEmpty (getNotesThatHaveLinkToFile (files w) (cache w) file)
                         ++ JS.orEmpty (getNotesThatHaveLinkToFileInCanvas (files w) (cache w) file))
                -> List.length (filter (isRewriteOf note) evs) = 1)
               /\ (~ In note (JS.orEmpty (getNotesThatHaveLinkToFile (files w) (cache w) file)
                             ++ JS.orEmpty (getNotesThatHaveLinkToFileInCanvas (files w) (cache w) file))
                   -> List.length (filter (isRewriteOf note) evs) = 0)).
Proof.
  split.
  - intros mdNotes canvasNotes. split.
    + apply referencingNotes_NoDup.
    + intros note. apply referencingNotes_In.
  - intros file w w' Hrun.
    apply returns_true_inv in Hrun as [q [_ [first [Hfirst Htrace]]]].
    eexists. split; [exact Htrace|].
    intros note.
    assert (Hcount : List.length (filter (isRewriteOf note)
              (first :: map (rewriteEvent file q) (referencingDocuments w file)
                 ++ [Log (match first with
                          | Renamed _ _ => msgRenamed file q
                          | _ => msgMerged file q
                          end)]))
            = List.length (filter (isRewriteOf note)
                (map (rewriteEvent file q) (referencingDocuments w file)))).
    { cbn [filter].
      replace (isRewriteOf note first) with false by (destruct Hfirst; now subst).
      rewrite filter_app. cbn [filter isRewriteOf]. now rewrite app_nil_r. }
    rewrite Hcount.
    destruct (rewrites_of_note file q note (referencingDocuments w file)
                (referencingNotes_NoDup _ _)) as [Hin Hout].
    unfold referencingDocuments in Hin, Hout. rewrite referencingNotes_In in Hin, Hout.
    split; assumption.
Qed.

(** *** Files under the storage calls *)

Lemma lookup_moveFile_other (p q r : string) (fs : Files) :
  r <> p -> r <> q -> lookup r (moveFile p q fs) = lookup r fs.
Proof.
  intros Hp Hq. induction fs as [|[k b] fs IH]; simpl; [reflexivity|].
  destruct (String.eqb_spec k p) as [->|Hkp]; simpl.
  - destruct (String.eqb_spec q r); [congruence|].
    destruct (String.eqb_spec p r); [congruence | reflexivity].
  - destruct (String.eqb_spec k r); [reflexivity | assumption].
Qed.

Lemma lookup_moveFile_new (p q : string) (fs : Files) (bytes : list byte) :
  lookup p fs = Some bytes -> lookup q fs = None ->
  lookup q (moveFile p q fs) = Some bytes.
Proof.
  induction fs as [|[k b] fs IH]; simpl; [discriminate|].
  destruct (String.eqb_spec k p) as [->|Hkp]; simpl.
  - intros E _. now rewrite String.eqb_refl.
  - destruct (String.eqb_spec k q); [discriminate | assumption].
Qed.

Lemma lookup_removeFile_other (p r : string) (fs : Files) :
  r <> p -> lookup r (removeFile p fs) = lookup r fs.
Proof.
  intros Hp. induction fs as [|[k b] fs IH]; simpl; [reflexivity|].
  destruct (String.eqb_spec k p) as [->|Hkp]; simpl.
  - destruct (String.eqb_spec p r); [congruence | reflexivity].
  - destruct (String.eqb_spec k r); [reflexivity | assumption].
Qed.

Lemma lookup_writeFile_other (p r : string) (content : list byte) (fs : Files) :
  r <> p -> lookup r (writeFile p content fs) = lookup r fs.
Proof.
  intros Hp. induction fs as [|[k b] fs IH]; simpl; [reflexivity|].
  destruct (String.eqb_spec k p) as [->|Hkp]; simpl.
  - destruct (String.eqb_spec p r); [congruence | reflexivity].
  - destruct (String.eqb_spec k r); [reflexivity | assumption].
Qed.

Lemma paths_writeFile (p : string) (content : list byte) (fs : Files) :
  paths (writeFile p content fs) = paths fs.
Proof.
  induction fs as [|[k b] fs IH]; simpl; [reflexivity|].
  destruct (String.eqb k p); simpl; [reflexivity | now f_equal].
Qed.

Lemma fileExists_In (p : string) (fs : Files) :
  fileExists p fs = true <-> In p (paths fs).
Proof.
  unfold fileExists. induction fs as [|[k b] fs IH]; simpl.
  - split; [discriminate | intros []].
  - destruct (String.eqb_spec k p) as [->|Hkp].
    + split; auto.
    + rewrite IH. split; [auto | intros [E|Hin]; [congruence | assumption]].
Qed.

Lemma paths_rewriteOne (oldPath newPath : string) (w : World D) (note : string) :
  paths (files (rewriteOne oldPath newPath w note)) = paths (files w).
Proof.
  unfold rewriteOne, applyRewrite.
  destruct (JS.endsWith note ".canvas"); cbn [files];
    match goal with |- context [fst ?r] => destruct (fst r) end;
    auto using paths_writeFile.
Qed.

Lemma paths_rewriteAll (notes : list string) (oldPath newPath : string) (w : World D) :
  paths (files (rewriteAll notes oldPath newPath w)) = paths (files w).
Proof.
  unfold rewriteAll. revert w. induction notes as [|n l IH]; intros w; simpl;
    [reflexivity|].
  now rewrite IH, paths_rewriteOne.
Qed.

Lemma fileExists_rewriteAll (notes : list string) (oldPath newPath r : string) (w : World D) :
  fileExists r (files (rewriteAll notes oldPath newPath w)) = fileExists r (files w).
Proof.
  apply eq_true_iff_eq. now rewrite !fileExists_In, paths_rewriteAll.
Qed.

Lemma decision_rename_inv (w : World D) (file q : string) :
  decision settings w file = Some (Rename q) ->
  exists bytes,
    lookup file (files w) = Some bytes
    /\ gatedOut settings file = false
    /\ canonicallyNamed file bytes = false
    /\ q = getFilePathWithRenamedBaseName file (md5_hex bytes)
    /\ lookup q (files w) = None.
Proof.
  unfold decision, decisionFor.
  destruct (gatedOut settings file) eqn:Hgate; [discriminate|].
  destruct (lookup file (files w)) as [bytes|] eqn:Hfile; [|discriminate].
  destruct (canonicallyNamed file bytes) eqn:Hname; [discriminate|].
  destruct (skippedAsUnlinked settings w file); [discriminate|].
  set (validPath := getFilePathWithRenamedBaseName file (md5_hex bytes)).
  destruct (lookup validPath (files w)) as [existing|] eqn:Htarget.
  - destruct (negb (String.eqb (md5_hex existing) (md5_hex bytes))); [discriminate|].
    destruct (negb (mergeTheSameAttachments settings)); [discriminate|].
    destruct (deleteRejects (files w) file); discriminate.
  - destruct (renameRejects (files w) file validPath); [discriminate|].
    intros E; inversion E; subst. exists bytes. repeat split; auto.
Qed.

Lemma decision_merge_inv (w : World D) (file q : string) :
  decision settings w file = Some (MergeAndDelete q) ->
  exists bytes existing,
    lookup file (files w) = Some bytes
    /\ gatedOut settings file = false
    /\ canonicallyNamed file bytes = false
    /\ q = getFilePathWithRenamedBaseName file (md5_hex bytes)
    /\ lookup q (files w) = Some existing
    /\ md5_hex existing = md5_hex bytes.
Proof.
  unfold decision, decisionFor.
  destruct (gatedOut settings file) eqn:Hgate; [discriminate|].
  destruct (lookup file (files w)) as [bytes|] eqn:Hfile; [|discriminate].
  destruct (canonicallyNamed file bytes) eqn:Hname; [discriminate|].
  destruct (skippedAsUnlinked settings w file); [discriminate|].
  set (validPath := getFilePathWithRenamedBaseName file (md5_hex bytes)).
  destruct (lookup validPath (files w)) as [existing|] eqn:Htarget.
  - destruct (String.eqb_spec (md5_hex existing) (md5_hex bytes)); cbn [negb];
      [|discriminate].
    destruct (negb (mergeTheSameAttachments settings)); [discriminate|].
    destruct (deleteRejects (files w) file); [discriminate|].
    intros E; inversion E; subst. exists bytes, existing. repeat split; auto.
  - destruct (renameRejects (files w) file validPath); discriminate.
Qed.

(** A call on [file] leaves every other file of the vault in the vault. *)
Lemma step_keeps_other_files (file r : string) (w w1 : World D) (renamed : bool) :
  renameAttachmentIfNeeded settings file w = (Ok renamed, w1) ->
  r <> file -> fileExists r (files w) = true -> fileExists r (files w1) = true.
Proof.
  rewrite renameAttachmentIfNeeded_decision.
  destruct (decision settings w file) as [[|q|q|q why]|] eqn:Hd; cbn [enact fst snd];
    intros E Hr Hex; inversion E; subst; clear E; try assumption.
  - unfold report; cbn [files]. rewrite fileExists_rewriteAll. cbn [files].
    apply decision_rename_inv in Hd as [bytes [_ [_ [_ [_ Hq]]]]].
    assert (Hrq : r <> q).
    { intros ->. unfold fileExists in Hex. now rewrite Hq in Hex. }
    unfold fileExists in *. now rewrite lookup_moveFile_other.
  - unfold report; cbn [files]. rewrite fileExists_rewriteAll. cbn [files].
    unfold fileExists in *. now rewrite lookup_removeFile_other.
Qed.

(** Every attachment that is in the vault when its turn comes is
    processed, and its call returns. *)
Lemma pass_exists (rest : list string) (w : World D) :
  NoDup rest ->
  (forall r, In r rest -> fileExists r (files w) = true) ->
  exists steps w', Pass settings rest w steps w'
                   /\ map (fun s => fst (fst s)) steps = rest.
Proof.
  intros Hnd. revert w. induction Hnd as [|file rest Hfile Hnd IH]; intros w Hex.
  - exists [], w. split; [constructor | reflexivity].
  - assert (Hrun : exists renamed w1,
               renameAttachmentIfNeeded settings file w = (Ok renamed, w1)).
    { rewrite renameAttachmentIfNeeded_decision. unfold decision.
      destruct (gatedOut settings file); [eauto|].
      specialize (Hex file (or_introl eq_refl)). unfold fileExists in Hex.
      destruct (lookup file (files w)); [eauto | discriminate]. }
    destruct Hrun as [renamed [w1 Hrun]].
    destruct (IH w1) as [steps [w' [Hpass Hmap]]].
    { intros r Hr. apply (step_keeps_other_files file r w w1 renamed Hrun).
      - intros ->. contradiction.
      - apply Hex. now right. }
    exists ((file, renamed, w1) :: steps), w'. split.
    + econstructor; eassumption.
    + simpl. now f_equal.
Qed.

Lemma forOf_pass (rest : list string) (w w' : World D)
    (steps : list (string * bool * World D)) (count : nat) :
  Pass settings rest w steps w' ->
  forOf rest (countIfRenamed settings) count w = (Ok (count + succeeded steps), w').
Proof.
  intros Hpass. revert count. induction Hpass as [w|file rest w w1 w2 renamed steps Hrun Hpass IH];
    intros count.
  - simpl. unfold ret, succeeded. simpl. now rewrite Nat.add_0_r.
  - cbn [forOf]. unfold bind at 1. unfold countIfRenamed at 1. unfold bind at 1.
    rewrite Hrun. unfold ret at 1. rewrite IH. unfold succeeded. cbn [filter fst snd].
    destruct renamed; cbn [List.length]; f_equal; f_equal; lia.
Qed.

Lemma rewriteEvent_not_Renamed (oldPath newPath p q : string) (notes : list string) :
  ~ In (Renamed p q) (map (rewriteEvent oldPath newPath) notes).
Proof.
  induction notes as [|n l IH]; simpl; [tauto|].
  intros [E|Hin]; [|auto].
  unfold rewriteEvent in E. destruct (JS.endsWith n ".canvas"); discriminate.
Qed.

(** The events of one call: the trace only grows, and a rename in it is
    the rename of the attachment of the call to a path that was free and
    now holds a file. *)
Lemma step_events (file : string) (w w1 : World D) (renamed : bool) :
  renameAttachmentIfNeeded settings file w = (Ok renamed, w1) ->
  exists evs,
    trace w1 = (trace w ++ evs)%list
    /\ forall p q, In (Renamed p q) evs ->
                   p = file /\ lookup q (files w) = None
                   /\ fileExists q (files w1) = true.
Proof.
  rewrite renameAttachmentIfNeeded_decision.
  destruct (decision settings w file) as [[|q|q|q why]|] eqn:Hd; cbn [enact fst snd];
    intros E; inversion E; subst; clear E.
  - exists []. rewrite app_nil_r. split; [reflexivity | intros ? ? []].
  - eexists. split.
    + unfold report; cbn [trace]. rewrite rewriteAll_trace. cbn [trace].
      rewrite <- !app_assoc. reflexivity.
    + intros p q' Hin. cbn [app] in Hin.
      destruct Hin as [E|Hin].
      * inversion E; subst.
        apply decision_rename_inv in Hd as [bytes [Hfile [_ [_ [_ Hq]]]]].
        repeat split; [assumption|].
        unfold report; cbn [files]. rewrite fileExists_rewriteAll. cbn [files].
        unfold fileExists. now rewrite (lookup_moveFile_new _ _ _ bytes).
      * apply in_app_or in Hin as [Hin|[E|[]]]; [|discriminate].
        now apply rewriteEvent_not_Renamed in Hin.
  - eexists. split.
    + unfold report; cbn [trace]. rewrite rewriteAll_trace. cbn [trace].
      rewrite <- !app_assoc. reflexivity.
    + intros p q' Hin. cbn [app] in Hin.
      destruct Hin as [E|Hin]; [discriminate|].
      apply in_app_or in Hin as [Hin|[E|[]]]; [|discriminate].
      now apply rewriteEvent_not_Renamed in Hin.
  - exists [blockedReport file q why]. split; [reflexivity|].
    intros p q' [E|[]]. destruct why; discriminate.
Qed.

(** A pass keeps the files it does not process. *)
Lemma pass_keeps (rest : list string) (w w' : World D)
    (steps : list (string * bool * World D)) (r : string) :
  Pass settings rest w steps w' ->
  ~ In r rest -> fileExists r (files w) = true -> fileExists r (files w') = true.
Proof.
  induction 1 as [w|file rest w w1 w2 renamed steps Hrun Hpass IH]; intros Hr Hex;
    [assumption|].
  apply IH.
  - intros Hin. apply Hr. now right.
  - apply (step_keeps_other_files file r w w1 renamed Hrun); [|assumption].
    intros ->. apply Hr. now left.
Qed.

(** Nothing a pass did is undone: what the trace held after any call is a
    prefix of the trace at the end, and every file a call renamed is in
    the vault under its new name at the end. *)
Lemma pass_retains (rest : list string) (w w' : World D)
    (steps : list (string * bool * World D)) :
  Pass settings rest w steps w' ->
  NoDup rest ->
  (forall r, In r rest -> fileExists r (files w) = true) ->
  exists evs,
    trace w' = (trace w ++ evs)%list
    /\ (forall file renamed wi, In (file, renamed, wi) steps ->
                                exists later, trace w' = (trace wi ++ later)%list)
    /\ (forall p q, In (Renamed p q) evs -> fileExists q (files w') = true).
Proof.
  induction 1 as [w|file rest w w1 w2 renamed steps Hrun Hpass IH]; intros Hnd Hex.
  - exists []. rewrite app_nil_r. repeat split; [intros ? ? ? [] | intros ? ? []].
  - inversion Hnd as [|? ? Hfile Hnd']; subst.
    assert (Hex1 : forall r, In r rest -> fileExists r (files w1) = true).
    { intros r Hr. apply (step_keeps_other_files file r w w1 renamed Hrun).
      - intros ->. contradiction.
      - apply Hex. now right. }
    destruct (IH Hnd' Hex1) as [evs2 [Htrace2 [Hsteps2 Hren2]]].
    destruct (step_events file w w1 renamed Hrun) as [evs1 [Htrace1 Hren1]].
    exists (evs1 ++ evs2)%list. split; [|split].
    + now rewrite Htrace2, Htrace1, app_assoc.
    + intros f b wi [E|Hin]; [|eauto].
      inversion E; subst. eauto.
    + intros p q Hin. apply in_app_or in Hin as [Hin|Hin]; [|eauto].
      destruct (Hren1 p q Hin) as [-> [Hfree Hnow]].
      apply (pass_keeps rest w1 w2 steps q Hpass); [|assumption].
      intros Hq. specialize (Hex q (or_intror Hq)).
      unfold fileExists in Hex. now rewrite Hfree in Hex.
Qed.

(** Rejected renames and deletes do not stop a pass.  When the other
    awaited calls return, a pass of [renameAllAttachments] over a vault
    hands every file of the vault, in order, to [renameAttachmentIfNeeded],
    whatever [vault.rename] and [vault.delete] rejected before: every call
    returns.  What a call did stays done: the trace after any call is a
    prefix of the final trace, and a file that was renamed is in the final
    vault under its new name.  The notice at the end reports the number of
    calls that returned [true]. *)
Theorem batch_processes_every_attachment (w : World D) :
  NoDup (paths (files w)) ->
  exists steps w',
    Pass settings (paths (files w)) w steps w'
    /\ map (fun s => fst (fst s)) steps = paths (files w)
    /\ renameAllAttachments settings w
       = (Ok tt, report (Notice (countNotice (succeeded steps))) w')
    /\ (forall file renamed wi, In (file, renamed, wi) steps ->
                                exists later, trace w' = (trace wi ++ later)%list)
    /\ (exists evs, trace w' = (trace w ++ evs)%list
                    /\ forall p q, In (Renamed p q) evs ->
                                   fileExists q (files w') = true).
Proof.
  intros Hnd.
  assert (Hex : forall r, In r (paths (files w)) -> fileExists r (files w) = true)
    by (intros r; apply fileExists_In).
  destruct (pass_exists (paths (files w)) w Hnd Hex) as [steps [w' [Hpass Hmap]]].
  destruct (pass_retains _ _ _ _ Hpass Hnd Hex) as [evs [Htrace [Hsteps Hren]]].
  exists steps, w'. repeat split; try assumption.
  - unfold renameAllAttachments. unfold bind at 1. unfold vault_getFiles.
    unfold bind at 1. rewrite (forOf_pass _ _ _ _ 0 Hpass). reflexivity.
  - exists evs. split; assumption.
Qed.

(** *** The active document *)

(** C5. The entry point for the active document does not skip a canvas
    that fails to parse: [JSON.parse] throws outside any [try], so
    [renameAttachmentsForActiveMD] rejects with the syntax error, and so
    does the command; the world is as before, without an error report and
    without the notice of the count.  (Without an active leaf both reject
    before that, at line 159, and the world is as before as well.) *)
Theorem malformed_active_canvas_rejects (mdfile : TFile) (w : World D) (bytes : list byte) :
  extension mdfile = "canvas" ->
  JS.endsWith (path mdfile) ".canvas" = true ->
  lookup (path mdfile) (files w) = Some bytes ->
  JSON_parse (string_of_list_byte bytes) = None ->
  (forall leaf : WorkspaceLeaf,
     renameAttachmentsForActiveMD settings (Some leaf) mdfile w
     = (Thrown "SyntaxError: Unexpected token in JSON", w)
     /\ renameOnlyActiveAttachments settings (Some mdfile) (Some leaf) w
        = (Thrown "SyntaxError: Unexpected token in JSON", w))
  /\ renameAttachmentsForActiveMD settings None mdfile w
     = (Thrown "TypeError: Cannot read properties of null (reading 'view')", w)
  /\ renameOnlyActiveAttachments settings (Some mdfile) None w
     = (Thrown "TypeError: Cannot read properties of null (reading 'view')", w).
Proof.
  intros Hext Hpath Hfile Hparse. split; [|split].
  - intros leaf.
    assert (Hrun : renameAttachmentsForActiveMD settings (Some leaf) mdfile w
                   = (Thrown "SyntaxError: Unexpected token in JSON", w)).
    { unfold renameAttachmentsForActiveMD. unfold bind at 1.
      cbn [workspace_activeLeaf_view ret].
      rewrite Hext. cbn [String.eqb Ascii.eqb Bool.eqb].
      unfold bind at 1, vault_read. rewrite Hfile.
      unfold bind at 1, JSON_parse_. rewrite Hparse. reflexivity. }
    split; [exact Hrun|].
    unfold renameOnlyActiveAttachments. rewrite Hpath, andb_false_r.
    unfold bind. now rewrite Hrun.
  - reflexivity.
  - unfold renameOnlyActiveAttachments. rewrite Hpath, andb_false_r. reflexivity.
Qed.

End Engine.

(** ** A second pass *)

Section Idempotence.

Context {D : Type} {P : PathUtil} {H : Md5} {LH : LinksHandler D} {A : App D}.
Context {L : Lawful}.
Variable settings : PluginSettings.

Lemma idle_run (w : World D) (p : string) :
  idle settings w p -> renameAttachmentIfNeeded settings p w = (Ok false, w).
Proof.
  unfold idle. intros Hd. now rewrite renameAttachmentIfNeeded_decision, Hd.
Qed.

Lemma idle_gated (w : World D) (p : string) :
  gatedOut settings p = true -> idle settings w p.
Proof. unfold idle, decision. now intros ->. Qed.




(** *** Bytes and links under the rewriting of documents *)

Lemma lookup_rewriteOne_other (oldPath newPath u note : string) (w : World D) :
  note <> u ->
  lookup u (files (rewriteOne oldPath newPath w note)) = lookup u (files w).
Proof.
  intros Hu. unfold rewriteOne, applyRewrite.
  destruct (JS.endsWith note ".canvas"); cbn [files];
    match goal with |- context [fst ?r] => destruct (fst r) end;
    auto using lookup_writeFile_other.
Qed.

Lemma lookup_rewriteAll_other (notes : list string) (oldPath newPath u : string) (w : World D) :
  (forall note, In note notes -> note <> u) ->
  lookup u (files (rewriteAll notes oldPath newPath w)) = lookup u (files w).
Proof.
  unfold rewriteAll. revert w. induction notes as [|n l IH]; intros w Hu; simpl;
    [reflexivity|].
  rewrite IH by (intros note Hin; apply Hu; now right).
  apply lookup_rewriteOne_other. apply Hu. now left.
Qed.


(** *** Paths under the storage calls *)

Lemma in_paths_moveFile (p q x : string) (fs : Files) :
  In x (paths (moveFile p q fs)) -> x = q \/ In x (paths fs).
Proof.
  induction fs as [|[k b] fs IH]; simpl; [tauto|].
  destruct (String.eqb k p); simpl.
  - intros [<-|Hin]; auto.
  - intros [<-|Hin]; [auto|]. destruct (IH Hin); auto.
Qed.

Lemma NoDup_moveFile (p q : string) (fs : Files) :
  NoDup (paths fs) -> ~ In q (paths fs) -> NoDup (paths (moveFile p q fs)).
Proof.
  induction fs as [|[k b] fs IH]; simpl; [constructor|].
  intros Hnd Hq. inversion Hnd as [|? ? Hk Hnd']; subst.
  destruct (String.eqb k p); simpl.
  - constructor; [|assumption]. intros Hin. apply Hq. now right.
  - constructor.
    + intros Hin. apply in_paths_moveFile in Hin as [->|Hin]; [|contradiction].
      apply Hq. now left.
    + apply IH; [assumption|]. intros Hin. apply Hq. now right.
Qed.

Lemma notin_moveFile (p q : string) (fs : Files) :
  NoDup (paths fs) -> q <> p -> ~ In p (paths (moveFile p q fs)).
Proof.
  induction fs as [|[k b] fs IH]; simpl; [tauto|].
  intros Hnd Hq. inversion Hnd as [|? ? Hk Hnd']; subst.
  destruct (String.eqb_spec k p) as [->|Hkp]; simpl.
  - intros [E|Hin]; [congruence | contradiction].
  - intros [E|Hin]; [congruence|]. now apply IH.
Qed.

Lemma in_paths_removeFile (p x : string) (fs : Files) :
  In x (paths (removeFile p fs)) -> In x (paths fs).
Proof.
  induction fs as [|[k b] fs IH]; simpl; [tauto|].
  destruct (String.eqb k p); simpl; [auto|].
  intros [<-|Hin]; auto.
Qed.

Lemma NoDup_removeFile (p : string) (fs : Files) :
  NoDup (paths fs) -> NoDup (paths (removeFile p fs)).
Proof.
  induction fs as [|[k b] fs IH]; simpl; [constructor|].
  intros Hnd. inversion Hnd as [|? ? Hk Hnd']; subst.
  destruct (String.eqb k p); simpl; [assumption|].
  constructor; [|auto]. intros Hin. apply Hk. eapply in_paths_removeFile; eassumption.
Qed.

Lemma notin_removeFile (p : string) (fs : Files) :
  NoDup (paths fs) -> ~ In p (paths (removeFile p fs)).
Proof.
  induction fs as [|[k b] fs IH]; simpl; [tauto|].
  intros Hnd. inversion Hnd as [|? ? Hk Hnd']; subst.
  destruct (String.eqb_spec k p) as [->|Hkp]; simpl; [assumption|].
  intros [E|Hin]; [congruence|]. now apply IH.
Qed.

Lemma lookup_notIn (p : string) (fs : Files) :
  lookup p fs = None -> ~ In p (paths fs).
Proof.
  intros Hl Hin. apply fileExists_In in Hin. unfold fileExists in Hin.
  now rewrite Hl in Hin.
Qed.

(** *** The events of a run *)

Lemma newEvents_app (w w' : World D) (evs : list Event) :
  trace w' = (trace w ++ evs)%list -> newEvents w w' = evs.
Proof.
  unfold newEvents. intros ->.
  rewrite skipn_app, Nat.sub_diag, skipn_all. reflexivity.
Qed.

Lemma cleanRun_split (w w1 w2 : World D) (evs1 evs2 : list Event) :
  trace w1 = (trace w ++ evs1)%list -> trace w2 = (trace w1 ++ evs2)%list ->
  cleanRun settings w w2 = true ->
  cleanRun settings w w1 = true /\ cleanRun settings w1 w2 = true.
Proof.
  intros H1 H2. unfold cleanRun.
  rewrite (newEvents_app w w1 evs1 H1), (newEvents_app w1 w2 evs2 H2).
  rewrite (newEvents_app w w2 (evs1 ++ evs2)) by now rewrite H2, H1, app_assoc.
  rewrite forallb_app. apply andb_true_iff.
Qed.

Lemma cleanEvent_rewriteEvent (oldPath newPath note : string) :
  cleanEvent settings (rewriteEvent oldPath newPath note) = gatedOut settings note.
Proof. unfold rewriteEvent. destruct (JS.endsWith note ".canvas"); reflexivity. Qed.

(** A call of a clean run decided No-op, Rename or Merge-and-Delete, and the
    documents it rewrote are not attachments to rename. *)
Lemma clean_step_inv (file : string) (w w1 : World D) (renamed : bool) :
  renameAttachmentIfNeeded settings file w = (Ok renamed, w1) ->
  cleanRun settings w w1 = true ->
  (decision settings w file = Some NoOp /\ w1 = w)
  \/ (exists q,
        (decision settings w file = Some (Rename q)
         \/ decision settings w file = Some (MergeAndDelete q))
        /\ (forall note, In note (referencingDocuments w file) ->
                         gatedOut settings note = true)
        /\ exists d, decision settings w file = Some d /\ w1 = snd (enact w file d)).
Proof.
  rewrite renameAttachmentIfNeeded_decision.
  destruct (decision settings w file) as [[|q|q|q why]|] eqn:Hd; cbn [enact fst snd];
    intros E Hclean; inversion E; subst; clear E.
  - now left.
  - right. exists q. split; [now left|]. split; [|eauto].
    intros note Hin. unfold cleanRun in Hclean.
    rewrite (newEvents_app _ _
               (Renamed file q :: map (rewriteEvent file q) (referencingDocuments w file)
                  ++ [Log (msgRenamed file q)])) in Hclean.
    + rewrite forallb_forall in Hclean.
      rewrite <- (cleanEvent_rewriteEvent file q). apply Hclean.
      right. apply in_or_app. left. now apply in_map.
    + unfold report; cbn [trace]. rewrite rewriteAll_trace. cbn [trace].
      rewrite <- !app_assoc. reflexivity.
  - right. exists q. split; [now right|]. split; [|eauto].
    intros note Hin. unfold cleanRun in Hclean.
    rewrite (newEvents_app _ _
               (Deleted file :: map (rewriteEvent file q) (referencingDocuments w file)
                  ++ [Log (msgMerged file q)])) in Hclean.
    + rewrite forallb_forall in Hclean.
      rewrite <- (cleanEvent_rewriteEvent file q). apply Hclean.
      right. apply in_or_app. left. now apply in_map.
    + unfold report; cbn [trace]. rewrite rewriteAll_trace. cbn [trace].
      rewrite <- !app_assoc. reflexivity.
  - exfalso. unfold cleanRun in Hclean.
    rewrite (newEvents_app _ _ [blockedReport file q why]) in Hclean by reflexivity.
    destruct why; discriminate.
Qed.




Lemma canonical_at_candidate (p : string) (bytes existing : list byte) :
  md5_hex existing = md5_hex bytes ->
  canonicallyNamed (getFilePathWithRenamedBaseName p (md5_hex bytes)) existing = true.
Proof.
  intros Hsame. unfold canonicallyNamed.
  rewrite (renamed_basename p bytes), Hsame. apply String.eqb_refl.
Qed.


Lemma pass_trace (rest : list string) (w w' : World D)
    (steps : list (string * bool * World D)) :
  Pass settings rest w steps w' -> exists evs, trace w' = (trace w ++ evs)%list.
Proof.
  induction 1 as [w|file rest w w1 w2 renamed steps Hrun Hpass [evs2 IH]].
  - exists []. now rewrite app_nil_r.
  - destruct (step_events settings file w w1 renamed Hrun) as [evs1 [H1 _]].
    exists (evs1 ++ evs2)%list. now rewrite IH, H1, app_assoc.
Qed.


(** A pass over idle files does nothing and counts nothing. *)
Lemma forOf_idle (l : list string) (w : World D) (count : nat) :
  (forall u, In u l -> idle settings w u) ->
  forOf l (countIfRenamed settings) count w = (Ok count, w).
Proof.
  induction l as [|u l IH]; intros Hidle; [reflexivity|].
  cbn [forOf]. unfold bind at 1. unfold countIfRenamed at 1. unfold bind at 1.
  rewrite (idle_run w u) by (apply Hidle; now left).
  unfold ret at 1. apply IH. intros v Hv. apply Hidle. now right.
Qed.


(** *** What is settled *)












Lemma cleanRun_blocks_nothing (rest : list string) (w w' : World D)
    (steps : list (string * bool * World D)) :
  Pass settings rest w steps w' ->
  cleanRun settings w w' = true ->
  blockedIn settings rest w = [].
Proof.
  induction 1 as [w|file rest w w1 w2 renamed steps Hrun Hpass IH]; intros Hclean;
    [reflexivity|].
  destruct (step_events settings file w w1 renamed Hrun) as [evs1 [H1 _]].
  destruct (pass_trace _ _ _ _ Hpass) as [evs2 H2].
  destruct (cleanRun_split w w1 w2 evs1 evs2 H1 H2 Hclean) as [Hclean1 Hclean2].
  cbn [blockedIn]. rewrite Hrun. cbn [snd]. rewrite (IH Hclean2), app_nil_r.
  destruct (clean_step_inv file w w1 renamed Hrun Hclean1)
    as [[Hd _]|[q [[Hd|Hd] _]]]; now rewrite Hd.
Qed.


End Idempotence.

(** ** The collaborators of the scenarios honour their contracts *)

Section PathFacts.

Import NodePath.

Lemma hasChar_app (c : ascii) (a b : string) :
  hasChar c (a ++ b) = hasChar c a || hasChar c b.
Proof.
  induction a as [|x a IH]; simpl; [reflexivity|].
  now rewrite IH, orb_assoc.
Qed.

Lemma splitLast_absent (c : ascii) (s : string) :
  hasChar c s = false -> splitLast c s = None.
Proof.
  induction s as [|a s IH]; simpl; [reflexivity|].
  intros Hs. apply orb_false_iff in Hs as [Ha Hs].
  now rewrite (IH Hs), Ha.
Qed.

Lemma splitLast_last (c : ascii) (x y : string) :
  hasChar c y = false -> splitLast c (x ++ String c y) = Some (x, y).
Proof.
  intros Hy. induction x as [|a x IH]; simpl.
  - now rewrite (splitLast_absent c y Hy), Ascii.eqb_refl.
  - now rewrite IH.
Qed.

Lemma splitLast_inv (c : ascii) (s x y : string) :
  splitLast c s = Some (x, y) -> s = x ++ String c y /\ hasChar c y = false.
Proof.
  revert x. induction s as [|a s IH]; simpl; intros x; [discriminate|].
  destruct (splitLast c s) as [[x' y']|] eqn:E.
  - intros E'; inversion E'; subst. destruct (IH x' eq_refl) as [-> Hy]. auto.
  - destruct (Ascii.eqb_spec a c) as [->|]; [|discriminate].
    intros E'; inversion E'; subst. split; [reflexivity|].
    clear IH. revert E. induction y as [|b y IHy]; simpl; [reflexivity|].
    destruct (splitLast c y) as [[? ?]|]; [discriminate|].
    destruct (Ascii.eqb b c); [discriminate|]. intros _. now apply IHy.
Qed.

Lemma splitLast_None_inv (c : ascii) (s : string) :
  splitLast c s = None -> hasChar c s = false.
Proof.
  induction s as [|a s IH]; simpl; [reflexivity|].
  destruct (splitLast c s) as [[? ?]|]; [discriminate|].
  destruct (Ascii.eqb a c); [discriminate|]. intros _. now apply IH.
Qed.

Lemma fileName_no_separator (p : string) : hasChar "/" (fileName p) = false.
Proof.
  unfold fileName. destruct (splitLast "/" p) as [[d n]|] eqn:E.
  - now apply splitLast_inv in E.
  - now apply splitLast_None_inv.
Qed.

(** An extension is empty, or a dot and a part without dot and separator. *)
Lemma extname_shape (p : string) :
  NodePath.extname p = ""
  \/ exists e, NodePath.extname p = String "." e
               /\ hasChar "." e = false /\ hasChar "/" e = false.
Proof.
  unfold NodePath.extname.
  destruct (splitLast "." (fileName p)) as [[x e]|] eqn:E; [|now left].
  destruct x as [|a x]; [now left|]. right. exists e.
  apply splitLast_inv in E as [Hname He]. split; [reflexivity|]. split; [assumption|].
  pose proof (fileName_no_separator p) as Hsep. rewrite Hname in Hsep.
  rewrite hasChar_app in Hsep. apply orb_false_iff in Hsep as [_ Hsep].
  simpl in Hsep. exact Hsep.
Qed.

Lemma fileName_withBaseName (p name : string) :
  hasChar "/" name = false -> fileName (dirPrefix p ++ name) = name.
Proof.
  intros Hname. unfold fileName, dirPrefix.
  destruct (splitLast "/" p) as [[d n]|].
  - replace ((d ++ "/") ++ name) with (d ++ String "/" name).
    + now rewrite splitLast_last.
    + clear. induction d; simpl; congruence.
  - simpl. now rewrite splitLast_absent.
Qed.

(** The stem of a renamed path is the new base, for a base that is not
    empty and has neither dot nor separator. *)
Lemma basename_withBaseName (p h : string) :
  h <> "" -> hasChar "." h = false -> hasChar "/" h = false ->
  let q := withBaseName p h in
  NodePath.basename q (NodePath.extname q) = h.
Proof.
  intros Hne Hdot Hsep q.
  assert (Hname : fileName q = h ++ NodePath.extname p).
  { unfold q, withBaseName. apply fileName_withBaseName.
    rewrite hasChar_app, Hsep.
    destruct (extname_shape p) as [->|[e [-> [_ He]]]]; [reflexivity|].
    simpl. exact He. }
  assert (Hext : NodePath.extname q = NodePath.extname p).
  { unfold NodePath.extname at 1. rewrite Hname.
    destruct (extname_shape p) as [E|[e [E [He _]]]]; rewrite E.
    - rewrite splitLast_absent; [reflexivity|].
      now rewrite hasChar_app, Hdot.
    - rewrite splitLast_last by assumption.
      destruct h; [congruence | reflexivity]. }
  unfold NodePath.basename. rewrite Hext, Hname, endsWith_app, length_app.
  replace (String.length h + String.length (NodePath.extname p)
           - String.length (NodePath.extname p)) with (String.length h) by lia.
  apply substring_take.
Qed.

End PathFacts.

Section DigestFacts.

Lemma hexDigit_plain (c : ascii) (n : N) :
  forallb (fun d => negb (Ascii.eqb d c)) (list_ascii_of_string "0123456789abcdef") = true ->
  Ascii.eqb (MD5.hexDigit n) c = false.
Proof.
  intros Hall. rewrite forallb_forall in Hall.
  apply negb_true_iff. apply Hall. unfold MD5.hexDigit.
  destruct (nth_in_or_default (N.to_nat n)
              (list_ascii_of_string "0123456789abcdef") "0"%char) as [Hin| ->];
    [assumption | simpl; auto].
Qed.

Lemma hex_plain (c : ascii) (l : list N) :
  forallb (fun d => negb (Ascii.eqb d c)) (list_ascii_of_string "0123456789abcdef") = true ->
  NodePath.hasChar c (MD5.hex l) = false.
Proof.
  intros Hall. induction l as [|x l IH]; [reflexivity|].
  cbn [MD5.hex NodePath.hasChar].
  now rewrite !(hexDigit_plain c _ Hall), IH.
Qed.

Lemma digest_not_empty (msg : list N) : MD5.hex (MD5.digest msg) <> "".
Proof.
  unfold MD5.digest.
  destruct (MD5.blocks _ _ _) as [[[a b] c] d].
  cbn [MD5.leBytes app MD5.hex]. discriminate.
Qed.

Lemma hex_length (l : list N) : String.length (MD5.hex l) = 2 * List.length l.
Proof. induction l as [|x l IH]; simpl; [reflexivity | rewrite IH; lia]. Qed.

(** The digest is a string of 32 characters, all of them hexadecimal
    digits. *)
Lemma md5_hex_is_hexadecimal (buf : list byte) :
  String.length (md5_hex buf) = 32
  /\ forall c, NodePath.hasChar c (md5_hex buf) = true ->
               In c (list_ascii_of_string "0123456789abcdef").
Proof.
  cbn [md5_hex md5]. unfold MD5.hashBytes. split.
  - rewrite hex_length. unfold MD5.digest.
    destruct (MD5.blocks _ _ _) as [[[a b] c] d]. reflexivity.
  - intros c Hc.
    destruct (in_dec Ascii.ascii_dec c (list_ascii_of_string "0123456789abcdef"))
      as [Hin|Hout]; [assumption|].
    rewrite hex_plain in Hc; [discriminate|].
    apply forallb_forall. intros d Hd. apply negb_true_iff.
    apply Ascii.eqb_neq. intros ->. contradiction.
Qed.

End DigestFacts.

Section LinkFacts.

Import LinkTable.

Lemma Set_of_nil (l : list string) : JS.Set_of l = [] -> l = [].
Proof.
  destruct l as [|x l]; [reflexivity|]. intros Hnil. exfalso.
  destruct (fold_Set_add (x :: l) [] (NoDup_nil _)) as [_ Hin].
  fold (JS.Set_of (x :: l)) in Hin. rewrite Hnil in Hin.
  apply (proj2 (Hin x)). right. now left.
Qed.

Lemma filter_none {X : Type} (f : string * X -> bool) (d : list (string * X)) :
  map fst (filter f d) = [] <-> forall e, In e d -> f e = false.
Proof.
  induction d as [|e d IH]; simpl.
  - split; [intros _ ? [] | reflexivity].
  - destruct (f e) eqn:E; simpl.
    + split; [discriminate|]. intros Hall. specialize (Hall e (or_introl eq_refl)).
      congruence.
    + rewrite IH. split.
      * intros Hall e' [<-|Hin]; auto.
      * intros Hall e' Hin. apply Hall. now right.
Qed.

Lemma unreferenced_iff (d : Index) (u : string) :
  JS.Set_of (notesWithLink d u ++ canvasesWithLink d u) = []
  <-> forall e, In e d -> refers u e = false.
Proof.
  split.
  - intros Hnil. apply Set_of_nil in Hnil. apply app_eq_nil in Hnil as [Hn Hc].
    unfold notesWithLink in Hn. unfold canvasesWithLink in Hc.
    rewrite filter_none in Hn, Hc. intros e He.
    specialize (Hn e He). specialize (Hc e He).
    destruct (isCanvas (fst e)); simpl in *; assumption.
  - intros Hall.
    assert (Hn : notesWithLink d u = []).
    { apply filter_none. intros e He. rewrite (Hall e He). apply andb_false_r. }
    assert (Hc : canvasesWithLink d u = []).
    { apply filter_none. intros e He. rewrite (Hall e He). apply andb_false_r. }
    now rewrite Hn, Hc.
Qed.

Lemma refers_retarget (oldPath newPath u : string) (ts : list string) :
  newPath <> u ->
  existsb (String.eqb u) ts = false ->
  existsb (String.eqb u) (map (retarget oldPath newPath) ts) = false.
Proof.
  intros Hu. induction ts as [|t ts IH]; simpl; [reflexivity|].
  intros Hts. apply orb_false_iff in Hts as [Ht Hts].
  rewrite (IH Hts), orb_false_r. unfold retarget.
  destruct (String.eqb t oldPath); [|assumption].
  apply String.eqb_neq. congruence.
Qed.

Lemma unreferenced_after_rewriteLinks (d : Index) (note oldPath newPath u : string) :
  newPath <> u ->
  (forall e, In e d -> refers u e = false) ->
  forall e, In e (rewriteLinks note oldPath newPath d) -> refers u e = false.
Proof.
  intros Hu Hall e He. unfold rewriteLinks in He.
  apply in_map_iff in He as [e0 [<- He0]].
  specialize (Hall e0 He0).
  destruct (String.eqb (fst e0) note); [|assumption].
  unfold refers in *. cbn [snd]. now apply refers_retarget.
Qed.

End LinkFacts.

(** The path utility, the digest and the link table of the scenarios are
    lawful. *)
#[export] Instance scenario_collaborators_lawful :
  @Lawful LinkTable.Index nodePath md5 linkTable.
Proof.
  constructor.
  - intros p bytes q. unfold q.
    change (NodePath.basename (NodePath.withBaseName p (MD5.hashBytes bytes))
              (NodePath.extname (NodePath.withBaseName p (MD5.hashBytes bytes)))
            = MD5.hashBytes bytes).
    apply basename_withBaseName.
    + apply digest_not_empty.
    + now apply hex_plain.
    + now apply hex_plain.
  - intros w p q u t _ Hnone. exact Hnone.
  - intros w p u t Hnone. exact Hnone.
  - intros w note oldPath newPath u Hu Hnone.
    unfold referencingDocuments, referencingNotes in *.
    cbn [getNotesThatHaveLinkToFile getNotesThatHaveLinkToFileInCanvas linkTable JS.orEmpty] in *.
    pose proof (proj1 (unreferenced_iff _ _) Hnone) as Hall.
    apply unreferenced_iff.
    unfold rewriteOne, applyRewrite.
    destruct (JS.endsWith note ".canvas"); cbn [cache snd updateChangedPathInCanvas
      updateChangedPathInNote linkTable LinkTable.update];
      now apply unreferenced_after_rewriteLinks.
Qed.

(* ===================================================================== *)
(** * The properties on concrete vaults *)
(* ===================================================================== *)

Section Runs.

Import Scenario.

Ltac run := vm_compute; first [reflexivity | discriminate].

(** C1 as stated fails: the attachment passes the filters, is
    not canonically named, and a file with another fingerprint sits at
    its candidate path; but nothing refers to it and only linked
    attachments are renamed, so the call returns at step 3 and reports
    nothing. *)
Lemma unlinked_name_clash_is_not_reported :
  gatedOut linkedOnly "c.png" = false
  /\ lookup "c.png" (files clash) = Some bytesA
  /\ canonicallyNamed "c.png" bytesA = false
  /\ lookup (getFilePathWithRenamedBaseName "c.png" (md5_hex bytesA)) (files clash)
     = Some bytesB
  /\ md5_hex bytesB <> md5_hex bytesA
  /\ renameAttachmentIfNeeded (A := free) linkedOnly "c.png" clash = (Ok false, clash)
  /\ trace clash = [].
Proof.
  split; [run|]. split; [run|]. split; [run|]. split; [run|].
  split; [run|]. split; run.
Qed.

Lemma name_clash_blocks_witness :
  renameAttachmentIfNeeded (A := free) everything "c.png" clash
  = (Ok false,
     report (Warn (msgNameClash "c.png"
                     (getFilePathWithRenamedBaseName "c.png" (md5_hex bytesA)))) clash).
Proof.
  refine (proj1 (proj2 (proj2 (proj2 (proj2
    (name_clash_blocks (A := free) everything "c.png" clash bytesA bytesB
       _ _ _ _ _))))) _).
  - run.
  - run.
  - run.
  - run.
  - run.
  - right. reflexivity.
Defined.

Lemma merge_deletes_before_rewriting_witness :
  let validPath := getFilePathWithRenamedBaseName "b.png" (md5_hex bytesA) in
  trace (snd (renameAttachmentIfNeeded (A := free) everything "b.png" duplicate))
  = (trace duplicate
       ++ Deleted "b.png"
       :: map (rewriteEvent "b.png" validPath) (referencingDocuments duplicate "b.png")
       ++ [Log (msgMerged "b.png" validPath)])%list.
Proof.
  refine (proj2 (proj2 (proj1 (proj2
    (merge_deletes_before_rewriting (A := free) everything "b.png" duplicate
       bytesA bytesA _ _ _ _ _ _)) _ _))).
  - run.
  - run.
  - run.
  - run.
  - reflexivity.
  - reflexivity.
  - run.
  - run.
Defined.

Lemma batch_processes_every_attachment_witness :
  exists steps w',
    Pass (A := cLocked) everything (paths (files batch)) batch steps w'
    /\ map (fun s => fst (fst s)) steps = paths (files batch)
    /\ renameAllAttachments (A := cLocked) everything batch
       = (Ok tt, report (Notice (countNotice (succeeded steps))) w').
Proof.
  destruct (batch_processes_every_attachment (A := cLocked) everything batch)
    as [steps [w' [Hpass [Hmap [Hrun _]]]]].
  - repeat constructor; simpl; intuition discriminate.
  - exists steps, w'. auto.
Defined.

Lemma malformed_active_canvas_rejects_witness :
  renameOnlyActiveAttachments (A := free) everything (Some board)
    (Some {| view := {| viewType := "canvas" |} |}) broken
  = (Thrown "SyntaxError: Unexpected token in JSON", broken).
Proof.
  refine (proj2 (proj1 (malformed_active_canvas_rejects (A := free) everything board broken
                          (list_byte_of_string brokenCanvas) _ _ _ _) _)).
  - reflexivity.
  - run.
  - run.
  - run.
Defined.

Lemma referencing_documents_rewritten_once_witness :
  exists evs,
    trace (snd (renameAttachmentIfNeeded (A := free) everything "b.png" duplicate))
    = (trace duplicate ++ evs)%list
    /\ List.length (filter (isRewriteOf "board.canvas") evs) = 1.
Proof.
  destruct (proj2 (referencing_documents_rewritten_once (A := free) everything)
              "b.png" duplicate
              (snd (renameAttachmentIfNeeded (A := free) everything "b.png" duplicate)))
    as [evs [Htrace Hcount]].
  - run.
  - exists evs. split; [exact Htrace|].
    apply (Hcount "board.canvas"). vm_compute. auto.
Defined.

Lemma generateValidBaseName_depends_on_bytes_only_witness :
  generateValidBaseName "c.png" clash = (Ok (md5_hex bytesA), clash)
  /\ generateValidBaseName "b.png" duplicate = (Ok (md5_hex bytesA), duplicate).
Proof.
  apply (generateValidBaseName_depends_on_bytes_only clash duplicate "c.png" "b.png" bytesA).
  - reflexivity.
  - reflexivity.
Defined.

(** C8 as stated fails: the storage rejects the delete of the
    duplicate [b.png]; the outcome is Blocked and the report names
    [b.png], but not the destination path. *)
Lemma delete_failure_report_omits_destination :
  let validPath := hashA ++ ".png" in
  decision (A := bLocked) everything duplicate "b.png"
  = Some (Blocked validPath
            (DeleteFailed "Error: EPERM: operation not permitted, unlink 'b.png'"))
  /\ exists msg,
       renameAttachmentIfNeeded (A := bLocked) everything "b.png" duplicate
       = (Ok false, report (Error msg) duplicate)
       /\ JS.includes msg "b.png" = true
       /\ JS.includes msg validPath = false.
Proof.
  split; [run|].
  exists (msgCantDelete "b.png" "Error: EPERM: operation not permitted, unlink 'b.png'").
  split; [run|]. split; run.
Qed.

Lemma blocked_is_reported_witness :
  renameAttachmentIfNeeded (A := bLocked) everything "b.png" duplicate
  = (Ok false,
     report (Error (msgCantDelete "b.png"
                      "Error: EPERM: operation not permitted, unlink 'b.png'"))
       duplicate).
Proof.
  refine (proj1 (blocked_is_reported (A := bLocked) everything "b.png" duplicate
                   (hashA ++ ".png")
                   (DeleteFailed "Error: EPERM: operation not permitted, unlink 'b.png'")
                   _)).
  run.
Defined.

Lemma no_mutation_when_false_witness :
  files (report (Warn (msgNameClash "c.png" (hashA ++ ".png"))) clash) = files clash.
Proof.
  refine (proj1 (no_mutation_when_false (A := free) everything "c.png" clash
                   (report (Warn (msgNameClash "c.png" (hashA ++ ".png"))) clash) _)).
  run.
Defined.

(** The pass over [batch] when [c.png] is locked: the rejected rename is
    reported and the pass goes on, [a.png] is renamed, [b.png] is merged
    into it, and the note embeds the canonical file twice. *)
Example batch_with_locked_file :
  let r := renameAllAttachments (A := cLocked) everything batch in
  fst r = Ok tt
  /\ paths (files (snd r)) = ["c.png"; hashA ++ ".png"; "note.md"]
  /\ cache (snd r) = [("note.md", ["c.png"; hashA ++ ".png"; hashA ++ ".png"])]
  /\ lookup "note.md" (files (snd r))
     = Some (list_byte_of_string
               (LinkTable.renderNote ["c.png"; hashA ++ ".png"; hashA ++ ".png"]))
  /\ filter isMutation (trace (snd r))
     = [Renamed "a.png" (hashA ++ ".png");
        NoteUpdated "note.md" "a.png" (hashA ++ ".png");
        Deleted "b.png";
        NoteUpdated "note.md" "b.png" (hashA ++ ".png")]
  /\ last (trace (snd r)) (Notice "") = Notice "Renamed 2 files.".
Proof.
  split; [run|]. split; [run|]. split; [run|]. split; [run|]. split; run.
Qed.



End Runs.

(* ===================================================================== *)
(** * More about the engine *)
(* ===================================================================== *)

Section EngineMore.

Context {D : Type} {P : PathUtil} {H : Md5} {LH : LinksHandler D} {A : App D}.
Variable settings : PluginSettings.

(** ** A vault of which nothing passes the gate *)

Lemma gatedOut_empty_folder (p : string) :
  In "" (ignoreFolders settings) -> gatedOut settings p = true.
Proof.
  intros Hin. unfold gatedOut, checkFilePathIsIgnored.
  apply orb_true_iff. left. apply anyFolder_spec. exists "". split; [assumption|].
  unfold JS.startsWith. now destruct p.
Qed.

Lemma gatedOut_no_types (p : string) :
  renameFileTypes settings = [] -> gatedOut settings p = true.
Proof.
  intros Hnone. unfold gatedOut, checkFileTypeIsAllowed. rewrite Hnone.
  apply orb_true_r.
Qed.

(** X1. An empty entry in the ignored folders is a prefix of every path,
    and an empty list of file types allows none: with either, every call of
    [renameAttachmentIfNeeded] returns [false] without reading the file, and
    a pass of [renameAllAttachments] over any vault changes nothing and
    shows the notice of the zero count. *)
Theorem empty_settings_entry_disables_the_plugin (w : World D) :
  In "" (ignoreFolders settings) \/ renameFileTypes settings = [] ->
  (forall p w0, renameAttachmentIfNeeded settings p w0 = (Ok false, w0))
  /\ renameAllAttachments settings w
     = (Ok tt, report (Notice "No files found that need to be renamed") w).
Proof.
  intros Hempty.
  assert (Hgate : forall p, gatedOut settings p = true).
  { intros p. destruct Hempty; [now apply gatedOut_empty_folder
                               | now apply gatedOut_no_types]. }
  split.
  - intros p w0. apply idle_run. now apply idle_gated.
  - unfold renameAllAttachments. unfold bind at 1. unfold vault_getFiles.
    unfold bind at 1. rewrite forOf_idle; [reflexivity|].
    intros u _. now apply idle_gated.
Qed.

(** ** The rename path (lines 132-152) *)

Lemma decision_when_target_free (w : World D) (p : string) (bytes : list byte) :
  gatedOut settings p = false ->
  lookup p (files w) = Some bytes ->
  canonicallyNamed p bytes = false ->
  skippedAsUnlinked settings w p = false ->
  lookup (getFilePathWithRenamedBaseName p (md5_hex bytes)) (files w) = None ->
  decision settings w p =
  Some (match renameRejects (files w) p (getFilePathWithRenamedBaseName p (md5_hex bytes)) with
        | Some e => Blocked (getFilePathWithRenamedBaseName p (md5_hex bytes)) (RenameFailed e)
        | None => Rename (getFilePathWithRenamedBaseName p (md5_hex bytes))
        end).
Proof.
  intros Hgate Hfile Hname Hskip Htarget.
  unfold decision, decisionFor.
  now rewrite Hgate, Hfile, Hname, Hskip, Htarget.
Qed.

(** X2. When no file has the candidate path: a rename the storage rejects
    leaves the vault as it is, is reported with both paths and the error,
    and gives [false]; a rename it accepts comes first, then one rewrite per
    referencing document from the old path to the candidate path, then the
    log line, and gives [true]; the files afterwards are the old ones with
    the attachment under its candidate path. *)
Theorem rename_then_rewrite (file : string) (w : World D) (bytes : list byte) :
  gatedOut settings file = false ->
  lookup file (files w) = Some bytes ->
  canonicallyNamed file bytes = false ->
  skippedAsUnlinked settings w file = false ->
  lookup (getFilePathWithRenamedBaseName file (md5_hex bytes)) (files w) = None ->
  let validPath := getFilePathWithRenamedBaseName file (md5_hex bytes) in
  let r := renameAttachmentIfNeeded settings file w in
  (forall e, renameRejects (files w) file validPath = Some e ->
     r = (Ok false, report (Error (msgCantRename file validPath e)) w))
  /\ (renameRejects (files w) file validPath = None ->
      fst r = Ok true
      /\ trace (snd r) =
         (trace w ++ Renamed file validPath
            :: map (rewriteEvent file validPath) (referencingDocuments w file)
            ++ [Log (msgRenamed file validPath)])%list
      /\ paths (files (snd r)) = paths (moveFile file validPath (files w))
      /\ fileExists validPath (files (snd r)) = true).
Proof.
  intros Hgate Hfile Hname Hskip Htarget validPath r.
  unfold r. rewrite renameAttachmentIfNeeded_decision.
  rewrite (decision_when_target_free w file bytes) by assumption.
  fold validPath. split.
  - intros e He. now rewrite He.
  - intros Hacc. rewrite Hacc. cbn [enact fst snd]. split; [reflexivity|].
    split; [|split].
    + unfold report; cbn [trace]. rewrite rewriteAll_trace. cbn [trace].
      rewrite <- !app_assoc. reflexivity.
    + unfold report; cbn [files]. now rewrite paths_rewriteAll.
    + unfold report; cbn [files]. rewrite fileExists_rewriteAll. cbn [files].
      unfold fileExists. now rewrite (lookup_moveFile_new _ _ _ bytes).
Qed.

(** ** What a call and a pass add up to *)

Lemma countOf_app (f : Event -> bool) (a b : list Event) :
  countOf f (a ++ b) = countOf f a + countOf f b.
Proof. unfold countOf. now rewrite filter_app, List.length_app. Qed.

Lemma countOf_rewrites (f : Event -> bool) (oldPath newPath : string) (notes : list string) :
  (forall a b c, f (NoteUpdated a b c) = false) ->
  (forall a b c, f (CanvasUpdated a b c) = false) ->
  countOf f (map (rewriteEvent oldPath newPath) notes) = 0.
Proof.
  intros Hn Hc. unfold countOf. induction notes as [|n l IH]; [reflexivity|].
  cbn [map filter]. unfold rewriteEvent at 1.
  destruct (JS.endsWith n ".canvas"); [rewrite Hc | rewrite Hn]; exact IH.
Qed.

Lemma length_moveFile (p q : string) (fs : Files) :
  List.length (moveFile p q fs) = List.length fs.
Proof.
  induction fs as [|[k b] fs IH]; simpl; [reflexivity|].
  destruct (String.eqb k p); simpl; congruence.
Qed.

Lemma length_removeFile (p : string) (fs : Files) (bytes : list byte) :
  lookup p fs = Some bytes -> S (List.length (removeFile p fs)) = List.length fs.
Proof.
  induction fs as [|[k b] fs IH]; simpl; [discriminate|].
  destruct (String.eqb k p); simpl; [reflexivity|].
  intros Hl. now rewrite IH.
Qed.

Lemma length_files_rewriteAll (notes : list string) (oldPath newPath : string) (w : World D) :
  List.length (files (rewriteAll notes oldPath newPath w)) = List.length (files w).
Proof.
  rewrite <- (length_map fst (files (rewriteAll notes oldPath newPath w))).
  rewrite <- (length_map fst (files w)).
  fold (paths (files (rewriteAll notes oldPath newPath w))). fold (paths (files w)).
  now rewrite paths_rewriteAll.
Qed.

(** One call: a rename or a delete exactly when it returns [true], no
    notice, as many files fewer as it deleted, and distinct paths kept. *)
Lemma call_accounts (file : string) (w : World D) :
  let r := renameAttachmentIfNeeded settings file w in
  exists evs,
    trace (snd r) = (trace w ++ evs)%list
    /\ countOf isNotice evs = 0
    /\ acts evs <= 1
    /\ (forall b, fst r = Ok b -> acts evs = if b then 1 else 0)
    /\ List.length (files (snd r)) + countOf isDeleted evs = List.length (files w)
    /\ (NoDup (paths (files w)) -> NoDup (paths (files (snd r)))).
Proof.
  intros r. unfold r. rewrite renameAttachmentIfNeeded_decision.
  destruct (decision settings w file) as [[|q|q|q why]|] eqn:Hd; cbn [enact fst snd].
  - exists []. rewrite app_nil_r. cbn. repeat split; auto.
    + intros b E. now inversion E.
  - exists (Renamed file q :: map (rewriteEvent file q) (referencingDocuments w file)
              ++ [Log (msgRenamed file q)]).
    assert (Hc : forall f, f (Log (msgRenamed file q)) = false ->
                 (forall a b c, f (NoteUpdated a b c) = false) ->
                 (forall a b c, f (CanvasUpdated a b c) = false) ->
                 countOf f (Renamed file q
                              :: map (rewriteEvent file q) (referencingDocuments w file)
                              ++ [Log (msgRenamed file q)])
                 = if f (Renamed file q) then 1 else 0).
    { intros f Hl Hn Hcv.
      change (countOf f ([Renamed file q]
                ++ map (rewriteEvent file q) (referencingDocuments w file)
                ++ [Log (msgRenamed file q)])
              = if f (Renamed file q) then 1 else 0).
      rewrite !countOf_app, countOf_rewrites by assumption.
      unfold countOf. cbn [filter]. rewrite Hl.
      destruct (f (Renamed file q)); reflexivity. }
    unfold acts. rewrite !Hc by reflexivity. cbn [isRenamed isDeleted isNotice].
    split; [|split; [reflexivity|split; [lia|split; [|split]]]].
    + unfold report; cbn [trace]. rewrite rewriteAll_trace. cbn [trace].
      rewrite <- !app_assoc. reflexivity.
    + intros b E. now inversion E.
    + unfold report; cbn [files]. rewrite length_files_rewriteAll. cbn [files].
      rewrite length_moveFile. lia.
    + intros Hnd. unfold report; cbn [files]. rewrite paths_rewriteAll. cbn [files].
      apply decision_rename_inv in Hd as [bytes [_ [_ [_ [_ Hq]]]]].
      apply NoDup_moveFile; [assumption | now apply lookup_notIn].
  - exists (Deleted file :: map (rewriteEvent file q) (referencingDocuments w file)
              ++ [Log (msgMerged file q)]).
    assert (Hc : forall f, f (Log (msgMerged file q)) = false ->
                 (forall a b c, f (NoteUpdated a b c) = false) ->
                 (forall a b c, f (CanvasUpdated a b c) = false) ->
                 countOf f (Deleted file
                              :: map (rewriteEvent file q) (referencingDocuments w file)
                              ++ [Log (msgMerged file q)])
                 = if f (Deleted file) then 1 else 0).
    { intros f Hl Hn Hcv.
      change (countOf f ([Deleted file]
                ++ map (rewriteEvent file q) (referencingDocuments w file)
                ++ [Log (msgMerged file q)])
              = if f (Deleted file) then 1 else 0).
      rewrite !countOf_app, countOf_rewrites by assumption.
      unfold countOf. cbn [filter]. rewrite Hl.
      destruct (f (Deleted file)); reflexivity. }
    unfold acts. rewrite !Hc by reflexivity. cbn [isRenamed isDeleted isNotice].
    split; [|split; [reflexivity|split; [lia|split; [|split]]]].
    + unfold report; cbn [trace]. rewrite rewriteAll_trace. cbn [trace].
      rewrite <- !app_assoc. reflexivity.
    + intros b E. now inversion E.
    + unfold report; cbn [files]. rewrite length_files_rewriteAll. cbn [files].
      apply decision_merge_inv in Hd as [bytes [existing [Hfile _]]].
      rewrite <- (length_removeFile file (files w) bytes Hfile). lia.
    + intros Hnd. unfold report; cbn [files]. rewrite paths_rewriteAll. cbn [files].
      now apply NoDup_removeFile.
  - exists [blockedReport file q why]. unfold acts, countOf.
    split; [reflexivity|].
    destruct why; cbn; repeat split; auto; intros b E; now inversion E.
  - exists []. rewrite app_nil_r. cbn. repeat split; auto. intros b E. discriminate.
Qed.

Lemma pass_accounts (rest : list string) (w w' : World D)
    (steps : list (string * bool * World D)) :
  Pass settings rest w steps w' ->
  exists evs,
    trace w' = (trace w ++ evs)%list
    /\ countOf isNotice evs = 0
    /\ acts evs = succeeded steps
    /\ List.length (files w') + countOf isDeleted evs = List.length (files w)
    /\ (NoDup (paths (files w)) -> NoDup (paths (files w'))).
Proof.
  induction 1 as [w|file rest w w1 w2 renamed steps Hrun Hpass IH].
  - exists []. rewrite app_nil_r. cbn. repeat split; auto.
  - destruct IH as [evs2 [Ht2 [Hn2 [Ha2 [Hl2 Hnd2]]]]].
    destruct (call_accounts file w) as [evs1 [Ht1 [Hn1 [_ [Ha1 [Hl1 Hnd1]]]]]].
    rewrite Hrun in Ht1, Ha1, Hl1, Hnd1. cbn [fst snd] in *.
    exists (evs1 ++ evs2)%list. unfold acts in *. rewrite !countOf_app.
    split; [now rewrite Ht2, Ht1, app_assoc|].
    split; [lia|]. split; [|split; [lia | auto]].
    specialize (Ha1 renamed eq_refl).
    unfold succeeded in *. cbn [filter fst snd].
    destruct renamed; cbn [List.length]; lia.
Qed.

(** X5. A pass of [renameAllAttachments] keeps the paths of the vault
    distinct and creates no file: the vault has as many files fewer as the
    pass deleted. *)
Theorem pass_keeps_the_vault_well_formed (w : World D) :
  NoDup (paths (files w)) ->
  let w' := snd (renameAllAttachments settings w) in
  NoDup (paths (files w'))
  /\ List.length (files w') + countOf isDeleted (newEvents w w') = List.length (files w).
Proof.
  intros Hnd w'.
  assert (Hex : forall p, In p (paths (files w)) -> fileExists p (files w) = true)
    by (intros p; apply fileExists_In).
  destruct (pass_exists settings (paths (files w)) w Hnd Hex) as [steps [w1 [Hpass _]]].
  destruct (pass_accounts _ _ _ _ Hpass) as [evs [Ht [Hn [Ha [Hl Hnd1]]]]].
  assert (Hw : w' = report (Notice (countNotice (succeeded steps))) w1).
  { unfold w', renameAllAttachments. unfold bind at 1. unfold vault_getFiles.
    unfold bind at 1. now rewrite (forOf_pass settings _ _ _ _ 0 Hpass). }
  rewrite Hw. unfold report at 1 2; cbn [files]. split; [auto|].
  rewrite (newEvents_app w _ (evs ++ [Notice (countNotice (succeeded steps))])).
  - rewrite countOf_app. unfold countOf at 2. cbn. lia.
  - unfold report; cbn [trace]. now rewrite Ht, app_assoc.
Qed.

End EngineMore.

Section EngineLawful.

Context {D : Type} {P : PathUtil} {H : Md5} {LH : LinksHandler D} {A : App D}.
Context {L : Lawful}.
Variable settings : PluginSettings.

Lemma fileExists_false (p : string) (fs : Files) :
  ~ In p (paths fs) -> fileExists p fs = false.
Proof.
  intros Hout. destruct (fileExists p fs) eqn:E; [|reflexivity].
  apply fileExists_In in E. contradiction.
Qed.

Lemma candidate_is_another_path (file : string) (w : World D) (bytes existing : list byte) :
  lookup file (files w) = Some bytes ->
  canonicallyNamed file bytes = false ->
  lookup (getFilePathWithRenamedBaseName file (md5_hex bytes)) (files w) = Some existing ->
  md5_hex existing = md5_hex bytes ->
  getFilePathWithRenamedBaseName file (md5_hex bytes) <> file.
Proof.
  intros Hfile Hname Htarget Hsame Heq.
  pose proof (canonical_at_candidate file bytes existing Hsame) as Hcanon.
  rewrite Heq in Hcanon, Htarget. congruence.
Qed.

(** X6. After a call of [renameAttachmentIfNeeded] that returned [true], in
    a vault with distinct paths: the old path of the attachment is gone, its
    candidate path, another path, holds a file, and unless that file is one
    of the documents that were rewritten, its bytes have the fingerprint of
    the attachment and it is canonically named. *)
Theorem success_leaves_the_canonical_file (file : string) (w : World D) :
  NoDup (paths (files w)) ->
  fst (renameAttachmentIfNeeded settings file w) = Ok true ->
  exists bytes,
    lookup file (files w) = Some bytes
    /\ let q := getFilePathWithRenamedBaseName file (md5_hex bytes) in
       let w' := snd (renameAttachmentIfNeeded settings file w) in
       q <> file
       /\ fileExists file (files w') = false
       /\ fileExists q (files w') = true
       /\ (~ In q (referencingDocuments w file) ->
           exists content, lookup q (files w') = Some content
                           /\ md5_hex content = md5_hex bytes
                           /\ canonicallyNamed q content = true).
Proof.
  intros Hnd. rewrite renameAttachmentIfNeeded_decision.
  destruct (decision settings w file) as [[|q|q|q why]|] eqn:Hd; cbn [enact fst snd];
    intros E; try discriminate.
  - apply decision_rename_inv in Hd as [bytes [Hfile [_ [Hname [Hq Hfree]]]]].
    exists bytes. split; [assumption|]. rewrite <- Hq. cbv zeta.
    assert (Hqf : q <> file) by (intros ->; congruence).
    unfold report; cbn [files]. split; [assumption|]. split; [|split].
    + apply fileExists_false. rewrite paths_rewriteAll. cbn [files].
      now apply notin_moveFile.
    + rewrite fileExists_rewriteAll. cbn [files]. unfold fileExists.
      now rewrite (lookup_moveFile_new _ _ _ bytes).
    + intros Hrefs. exists bytes. split; [|split; [reflexivity|]].
      * rewrite lookup_rewriteAll_other by (intros note Hn ->; contradiction).
        cbn [files]. now apply lookup_moveFile_new.
      * rewrite Hq. now apply canonical_at_candidate.
  - apply decision_merge_inv in Hd
      as [bytes [existing [Hfile [_ [Hname [Hq [Htarget Hsame]]]]]]].
    exists bytes. split; [assumption|]. rewrite <- Hq. cbv zeta.
    assert (Hqf : q <> file).
    { rewrite Hq. rewrite Hq in Htarget.
      exact (candidate_is_another_path file w bytes existing Hfile Hname Htarget Hsame). }
    unfold report; cbn [files]. split; [assumption|]. split; [|split].
    + apply fileExists_false. rewrite paths_rewriteAll. cbn [files].
      now apply notin_removeFile.
    + rewrite fileExists_rewriteAll. cbn [files]. unfold fileExists.
      now rewrite lookup_removeFile_other, Htarget.
    + intros Hrefs. exists existing. split; [|split; [assumption|]].
      * rewrite lookup_rewriteAll_other by (intros note Hn ->; contradiction).
        cbn [files]. now rewrite lookup_removeFile_other.
      * rewrite Hq. now apply canonical_at_candidate.
Qed.

Lemma decision_merge_setting (w : World D) (file q : string) :
  decision settings w file = Some (MergeAndDelete q) ->
  mergeTheSameAttachments settings = true.
Proof.
  unfold decision, decisionFor.
  destruct (gatedOut settings file); [discriminate|].
  destruct (lookup file (files w)) as [bytes|]; [|discriminate].
  destruct (canonicallyNamed file bytes); [discriminate|].
  destruct (skippedAsUnlinked settings w file); [discriminate|].
  destruct (lookup _ (files w)) as [existing|].
  - destruct (negb (String.eqb (md5_hex existing) (md5_hex bytes))); [discriminate|].
    destruct (mergeTheSameAttachments settings); [reflexivity | discriminate].
  - destruct (renameRejects (files w) file _); discriminate.
Qed.

End EngineLawful.

Section TwoCopies.

Context {D : Type} {P : PathUtil} {H : Md5} {LH : LinksHandler D} {A : App D}.
Variable settings : PluginSettings.

(** X8. Two attachments with the same bytes, both past the gate and not
    canonically named, with the same candidate path, which no file has
    yet; each is referred to by a document or unlinked attachments are
    renamed too; the storage accepts the rename of the first.  Then the
    first is renamed to the candidate path, and the second finds it there:
    with merging disabled it is reported and left; with merging enabled it
    is deleted as the duplicate, and both calls return [true], unless the
    storage rejects the delete, which is reported. *)
Theorem first_copy_is_renamed_second_is_merged (a b : string) (w : World D)
    (bytes : list byte) :
  NoDup (paths (files w)) ->
  a <> b ->
  gatedOut settings a = false -> gatedOut settings b = false ->
  lookup a (files w) = Some bytes -> lookup b (files w) = Some bytes ->
  canonicallyNamed a bytes = false -> canonicallyNamed b bytes = false ->
  let q := getFilePathWithRenamedBaseName a (md5_hex bytes) in
  getFilePathWithRenamedBaseName b (md5_hex bytes) = q ->
  lookup q (files w) = None ->
  ~ In b (referencingDocuments w a) -> ~ In q (referencingDocuments w a) ->
  skippedAsUnlinked settings w a = false ->
  renameRejects (files w) a q = None ->
  let w1 := snd (renameAttachmentIfNeeded settings a w) in
  skippedAsUnlinked settings w1 b = false ->
  let second := renameAttachmentIfNeeded settings b w1 in
  decision settings w a = Some (Rename q)
  /\ fst (renameAttachmentIfNeeded settings a w) = Ok true
  /\ (mergeTheSameAttachments settings = false ->
      second = (Ok false, report (Warn (msgMergeDisabled b q)) w1))
  /\ (mergeTheSameAttachments settings = true ->
      (forall e, deleteRejects (files w1) b = Some e ->
         second = (Ok false, report (Error (msgCantDelete b e)) w1))
      /\ (deleteRejects (files w1) b = None ->
          decision settings w1 b = Some (MergeAndDelete q)
          /\ fst second = Ok true
          /\ fileExists a (files (snd second)) = false
          /\ fileExists b (files (snd second)) = false
          /\ fileExists q (files (snd second)) = true)).
Proof.
  intros Hnd Hab Hga Hgb Hfa Hfb Hna Hnb q Hsameq Hfree Hbrefs Hqrefs Hskipa Hren
    w1 Hskipb second.
  assert (Hda : decision settings w a = Some (Rename q)).
  { rewrite (decision_when_target_free settings w a bytes) by auto.
    fold q. now rewrite Hren. }
  assert (Hw1 : w1 = snd (enact w a (Rename q))).
  { unfold w1. now rewrite renameAttachmentIfNeeded_decision, Hda. }
  assert (Hbq : b <> q) by (intros ->; congruence).
  assert (Hqa : q <> a) by (intros E; rewrite E in Hfree; congruence).
  assert (Hp1 : paths (files w1) = paths (moveFile a q (files w))).
  { rewrite Hw1. cbn [enact snd]. unfold report; cbn [files].
    now rewrite paths_rewriteAll. }
  assert (Hb1 : lookup b (files w1) = Some bytes).
  { rewrite Hw1. cbn [enact snd]. unfold report; cbn [files].
    rewrite lookup_rewriteAll_other by (intros note Hn ->; contradiction).
    cbn [files]. rewrite lookup_moveFile_other; auto. }
  assert (Hq1 : lookup q (files w1) = Some bytes).
  { rewrite Hw1. cbn [enact snd]. unfold report; cbn [files].
    rewrite lookup_rewriteAll_other by (intros note Hn ->; contradiction).
    cbn [files]. now apply lookup_moveFile_new. }
  assert (Hdb : decision settings w1 b
                = Some (if negb (mergeTheSameAttachments settings)
                        then Blocked q MergeDisallowed
                        else match deleteRejects (files w1) b with
                             | Some e => Blocked q (DeleteFailed e)
                             | None => MergeAndDelete q
                             end)).
  { rewrite (decision_when_target_exists settings w1 b bytes bytes); auto.
    - now rewrite Hskipb, String.eqb_refl, Hsameq.
    - now rewrite Hsameq. }
  assert (Hsecond : second
                    = match decision settings w1 b with
                      | Some d => (Ok (fst (enact w1 b d)), snd (enact w1 b d))
                      | None => (Thrown ("File not found: " ++ b), w1)
                      end)
    by (unfold second; apply renameAttachmentIfNeeded_decision).
  split; [assumption|]. split.
  { now rewrite renameAttachmentIfNeeded_decision, Hda. }
  split.
  - intros Hoff. now rewrite Hsecond, Hdb, Hoff.
  - intros Hon. rewrite Hon in Hdb. cbn [negb] in Hdb. split.
    + intros e He. now rewrite Hsecond, Hdb, He.
    + intros Hdel. rewrite Hdel in Hdb. split; [assumption|].
      rewrite Hsecond, Hdb. cbn [enact fst snd]. split; [reflexivity|].
      unfold report; cbn [files]. rewrite !fileExists_rewriteAll. cbn [files].
      assert (Hnd1 : NoDup (paths (files w1))).
      { rewrite Hp1. apply NoDup_moveFile; [assumption | now apply lookup_notIn]. }
      split; [|split].
      * apply fileExists_false. intros Hin. apply in_paths_removeFile in Hin.
        rewrite Hp1 in Hin. revert Hin. now apply notin_moveFile.
      * apply fileExists_false. now apply notin_removeFile.
      * unfold fileExists. rewrite lookup_removeFile_other by congruence.
        now rewrite Hq1.
Qed.

End TwoCopies.

(* ===================================================================== *)
(** * More about the active document *)
(* ===================================================================== *)

Section ActiveMore.

Context {D : Type} {P : PathUtil} {H : Md5} {LH : LinksHandler D} {A : App D}.
Variable settings : PluginSettings.

Local Open Scope js_scope.

(** The body of the loop of lines 166-172 and the one of lines 179-188. *)
Let linkBody : string -> nat -> M D nat :=
  fun rlink renamedCount =>
    file <- vault_getAbstractFileByPath rlink ;;
    match file with
    | None => ret renamedCount
    | Some file =>
        renamed <- renameAttachmentIfNeeded settings file ;;
        ret (if renamed : bool then S renamedCount else renamedCount)
    end.

Let nodeBody (mdfile : TFile) : JSON -> nat -> M D nat :=
  fun node renamedCount =>
    type <- getProp node "type" ;;
    file <- getProp node "file" ;;
    if isString type "file" && truthy file then
      filePath <- lh_getFullPathForLink file (path mdfile) ;;
      file <- vault_getAbstractFileByPath filePath ;;
      match file with
      | None => ret renamedCount
      | Some file =>
          renamed <- renameAttachmentIfNeeded settings file ;;
          ret (if renamed : bool then S renamedCount else renamedCount)
      end
    else ret renamedCount.

Lemma activeMD_no_leaf (mdfile : TFile) :
  renameAttachmentsForActiveMD settings None mdfile
  = throw "TypeError: Cannot read properties of null (reading 'view')".
Proof. reflexivity. Qed.

Lemma activeMD_unfold (leaf : WorkspaceLeaf) (mdfile : TFile) :
  renameAttachmentsForActiveMD settings (Some leaf) mdfile =
  if String.eqb (extension mdfile) "md" then
    rlinks <- metadataCache_resolvedLinks (path mdfile) ;;
    forOf rlinks linkBody 0
  else if String.eqb (extension mdfile) "canvas" then
    content <- vault_read (path mdfile) ;;
    canvasData <- JSON_parse_ content ;;
    nodesProp <- getProp canvasData "nodes" ;;
    nodes <- iterate nodesProp ;;
    forOf nodes (nodeBody mdfile) 0
  else ret 0.
Proof. reflexivity. Qed.

Lemma acts_app (a b : list Event) : acts (a ++ b) = acts a + acts b.
Proof. unfold acts. rewrite !countOf_app. lia. Qed.

(** A computation that counts: it shows no notice, and when it returns
    its result is [acc] plus the renames and deletes it performed. *)
Let counting (c : M D nat) (acc : nat) : Prop :=
  forall w, exists evs,
    trace (snd (c w)) = (trace w ++ evs)%list
    /\ countOf isNotice evs = 0
    /\ forall n, fst (c w) = Ok n -> n = acc + acts evs.

Lemma counting_ret (acc : nat) : counting (ret acc) acc.
Proof.
  intros w. exists []. rewrite app_nil_r. repeat split.
  intros n E. inversion E. cbn. lia.
Qed.

Lemma counting_throw (e : string) (acc : nat) : counting (throw e) acc.
Proof.
  intros w. exists []. rewrite app_nil_r. repeat split. intros n E. discriminate.
Qed.

Lemma counting_call (file : string) (acc : nat) :
  counting (renamed <- renameAttachmentIfNeeded settings file ;;
            ret (if renamed : bool then S acc else acc)) acc.
Proof.
  intros w. destruct (call_accounts settings file w) as [evs [Ht [Hn [_ [Ha _]]]]].
  exists evs. unfold bind.
  destruct (renameAttachmentIfNeeded settings file w) as [[b|e] w1]; cbn [fst snd] in *.
  - repeat split; try assumption. intros n E. inversion E.
    rewrite (Ha b eq_refl). destruct b; lia.
  - repeat split; try assumption. intros n E. discriminate.
Qed.

Lemma bind_Ok {X Y : Type} (c : M D X) (k : X -> M D Y) (w w' : World D) (x : X) :
  c w = (Ok x, w') -> bind c k w = k x w'.
Proof. unfold bind. now intros ->. Qed.

Lemma bind_Thrown {X Y : Type} (c : M D X) (k : X -> M D Y) (w w' : World D) (e : string) :
  c w = (Thrown e, w') -> bind c k w = (Thrown e, w').
Proof. unfold bind. now intros ->. Qed.

Lemma counting_linkBody (rlink : string) (acc : nat) : counting (linkBody rlink acc) acc.
Proof.
  intros w. unfold linkBody.
  rewrite (bind_Ok _ _ w w (if fileExists rlink (files w) then Some rlink else None))
    by reflexivity.
  destruct (fileExists rlink (files w)).
  - apply counting_call.
  - apply counting_ret.
Qed.

Lemma getProp_run (v : JSON) (k : string) (w : World D) :
  (exists x, getProp v k w = (Ok x, w)) \/ (exists e, getProp v k w = (Thrown e, w)).
Proof. unfold getProp, ret, throw. destruct v; eauto. Qed.

Lemma counting_nodeBody (mdfile : TFile) (node : JSON) (acc : nat) :
  counting (nodeBody mdfile node acc) acc.
Proof.
  intros w. unfold nodeBody.
  destruct (getProp_run node "type" w) as [[type E]|[e E]];
    [rewrite (bind_Ok _ _ _ _ _ E)
    | rewrite (bind_Thrown _ _ _ _ _ E); apply (counting_throw e acc w)].
  destruct (getProp_run node "file" w) as [[file E']|[e E']];
    [rewrite (bind_Ok _ _ _ _ _ E')
    | rewrite (bind_Thrown _ _ _ _ _ E'); apply (counting_throw e acc w)].
  destruct (isString type "file" && truthy file); [|apply counting_ret].
  assert (Hlink : (exists x, lh_getFullPathForLink file (path mdfile) w = (Ok x, w))
                  \/ (exists e, lh_getFullPathForLink file (path mdfile) w = (Thrown e, w))).
  { unfold lh_getFullPathForLink, ret, throw. destruct file as [[]|]; eauto. }
  destruct Hlink as [[filePath El]|[e El]];
    [rewrite (bind_Ok _ _ _ _ _ El)
    | rewrite (bind_Thrown _ _ _ _ _ El); apply (counting_throw e acc w)].
  apply counting_linkBody.
Qed.

Lemma counting_forOf {X : Type} (items : list X) (body : X -> nat -> M D nat) :
  (forall x acc, counting (body x acc) acc) ->
  forall acc, counting (forOf items body acc) acc.
Proof.
  intros Hbody. induction items as [|x items IH]; intros acc w.
  - apply counting_ret.
  - cbn [forOf].
    destruct (Hbody x acc w) as [evs1 [Ht1 [Hn1 Ha1]]].
    destruct (body x acc w) as [[n1|e] w1] eqn:E; cbn [fst snd] in *.
    + rewrite (bind_Ok _ _ _ _ _ E).
      destruct (IH n1 w1) as [evs2 [Ht2 [Hn2 Ha2]]].
      exists (evs1 ++ evs2)%list. rewrite countOf_app, acts_app.
      split; [now rewrite Ht2, Ht1, app_assoc|]. split; [lia|].
      intros n En. rewrite (Ha2 n En), (Ha1 n1 eq_refl). lia.
    + rewrite (bind_Thrown _ _ _ _ _ E).
      exists evs1. cbn [fst snd]. auto.
Qed.

Lemma counting_activeMD (activeLeaf : option WorkspaceLeaf) (mdfile : TFile) :
  counting (renameAttachmentsForActiveMD settings activeLeaf mdfile) 0.
Proof.
  intros w. destruct activeLeaf as [leaf|];
    [|rewrite activeMD_no_leaf; apply (counting_throw _ 0 w)].
  rewrite activeMD_unfold.
  destruct (String.eqb (extension mdfile) "md").
  - destruct (resolvedLinks (cache w) (path mdfile)) as [l|] eqn:El.
    + rewrite (bind_Ok _ _ w w l)
        by (unfold metadataCache_resolvedLinks; now rewrite El).
      apply counting_forOf. apply counting_linkBody.
    + rewrite (bind_Thrown _ _ w w "TypeError: Cannot convert undefined or null to object")
        by (unfold metadataCache_resolvedLinks; now rewrite El).
      apply (counting_throw _ 0 w).
  - destruct (String.eqb (extension mdfile) "canvas"); [|apply counting_ret].
    destruct (lookup (path mdfile) (files w)) as [bytes|] eqn:Ef.
    2:{ rewrite (bind_Thrown _ _ w w ("File not found: " ++ path mdfile))
          by (unfold vault_read; now rewrite Ef).
        apply (counting_throw _ 0 w). }
    rewrite (bind_Ok _ _ w w (string_of_list_byte bytes))
      by (unfold vault_read; now rewrite Ef).
    destruct (JSON_parse (string_of_list_byte bytes)) as [canvasData|] eqn:Ep.
    2:{ rewrite (bind_Thrown _ _ w w "SyntaxError: Unexpected token in JSON")
          by (unfold JSON_parse_; now rewrite Ep).
        apply (counting_throw _ 0 w). }
    rewrite (bind_Ok _ _ w w canvasData) by (unfold JSON_parse_; now rewrite Ep).
    destruct (getProp_run canvasData "nodes" w) as [[nodesProp E]|[e E]];
      [rewrite (bind_Ok _ _ _ _ _ E)
      | rewrite (bind_Thrown _ _ _ _ _ E); apply (counting_throw e 0 w)].
    assert (Hit : (exists x, iterate nodesProp w = (Ok x, w))
                  \/ (exists e, iterate nodesProp w = (Thrown e, w))).
    { unfold iterate, ret, throw. destruct nodesProp as [[]|]; eauto. }
    destruct Hit as [[nodes Ei]|[e Ei]];
      [rewrite (bind_Ok _ _ _ _ _ Ei)
      | rewrite (bind_Thrown _ _ _ _ _ Ei); apply (counting_throw e 0 w)].
    apply counting_forOf. apply counting_nodeBody.
Qed.

(** X9. The command for the active document, with or without an active
    leaf: when it returns, it has shown exactly one notice, as its last
    event, and the notice is the one for no active file, the one for a file
    that is neither a note nor a canvas (no event came before either), or
    the count of the renames and deletes performed on the way; when it
    rejects, it has shown none. *)
Theorem active_command_shows_one_notice (activeFile : option TFile)
    (activeLeaf : option WorkspaceLeaf) (w : World D) :
  let r := renameOnlyActiveAttachments settings activeFile activeLeaf w in
  exists evs,
    countOf isNotice evs = 0
    /\ match fst r with
       | Ok _ =>
           exists msg,
             trace (snd r) = (trace w ++ evs ++ [Notice msg])%list
             /\ (msg = countNotice (acts evs)
                 \/ evs = []
                    /\ (msg = "No active file"
                        \/ msg = "Active file must be a markdown or canvas file"))
       | Thrown _ => trace (snd r) = (trace w ++ evs)%list
       end.
Proof.
  intros r. unfold r, renameOnlyActiveAttachments.
  destruct activeFile as [activeFile|].
  - destruct (negb (JS.endsWith (path activeFile) ".md")
              && negb (JS.endsWith (path activeFile) ".canvas")).
    + exists []. split; [reflexivity|]. cbn. eexists. split; [reflexivity|]. auto.
    + destruct (counting_activeMD activeLeaf activeFile w) as [evs [Ht [Hn Ha]]].
      exists evs. split; [assumption|]. unfold bind.
      destruct (renameAttachmentsForActiveMD settings activeLeaf activeFile w) as [[n|e] w1];
        cbn [fst snd] in *.
      * exists (countNotice n). split.
        -- unfold new_Notice, emit. cbn [snd trace]. now rewrite Ht, <- app_assoc.
        -- left. now rewrite (Ha n eq_refl).
      * assumption.
  - exists []. split; [reflexivity|]. cbn. eexists. split; [reflexivity|]. auto.
Qed.

(** ** Canvases *)

Lemma activeMD_canvas_run (leaf : WorkspaceLeaf) (mdfile : TFile) (w : World D)
    (bytes : list byte) (canvasData : JSON) :
  extension mdfile = "canvas" ->
  lookup (path mdfile) (files w) = Some bytes ->
  JSON_parse (string_of_list_byte bytes) = Some canvasData ->
  renameAttachmentsForActiveMD settings (Some leaf) mdfile w =
  (nodesProp <- getProp canvasData "nodes" ;;
   nodes <- iterate nodesProp ;;
   forOf nodes (nodeBody mdfile) 0) w.
Proof.
  intros Hext Hfile Hparse. rewrite activeMD_unfold, Hext.
  cbn [String.eqb Ascii.eqb Bool.eqb].
  rewrite (bind_Ok _ _ w w (string_of_list_byte bytes))
    by (unfold vault_read; now rewrite Hfile).
  rewrite (bind_Ok _ _ w w canvasData) by (unfold JSON_parse_; now rewrite Hparse).
  reflexivity.
Qed.

(** X10. The entry point for the active document rejects, with the world
    as it was, for a note the metadata cache has no resolved links for and
    for a canvas whose parsed object has no [nodes] (the empty object
    [{}] is one); the command then shows no notice.  Without an active leaf
    it rejects for every document, at line 159, with the world as it was. *)
Theorem active_document_without_links_rejects (leaf : WorkspaceLeaf) (mdfile : TFile)
    (w : World D) :
  (extension mdfile = "md" ->
   resolvedLinks (cache w) (path mdfile) = None ->
   renameAttachmentsForActiveMD settings (Some leaf) mdfile w
   = (Thrown "TypeError: Cannot convert undefined or null to object", w))
  /\ (forall bytes fields,
        extension mdfile = "canvas" ->
        lookup (path mdfile) (files w) = Some bytes ->
        JSON_parse (string_of_list_byte bytes) = Some (JObject fields) ->
        field "nodes" fields = None ->
        renameAttachmentsForActiveMD settings (Some leaf) mdfile w
        = (Thrown "TypeError: canvasData.nodes is not iterable", w)
        /\ (JS.endsWith (path mdfile) ".canvas" = true ->
            renameOnlyActiveAttachments settings (Some mdfile) (Some leaf) w
            = (Thrown "TypeError: canvasData.nodes is not iterable", w)))
  /\ renameAttachmentsForActiveMD settings None mdfile w
     = (Thrown "TypeError: Cannot read properties of null (reading 'view')", w)
  /\ (negb (JS.endsWith (path mdfile) ".md") && negb (JS.endsWith (path mdfile) ".canvas")
      = false ->
      renameOnlyActiveAttachments settings (Some mdfile) None w
      = (Thrown "TypeError: Cannot read properties of null (reading 'view')", w)).
Proof.
  split; [|split; [|split]].
  - intros Hext Hnone. rewrite activeMD_unfold, Hext. cbn [String.eqb Ascii.eqb Bool.eqb].
    apply bind_Thrown. unfold metadataCache_resolvedLinks. now rewrite Hnone.
  - intros bytes fields Hext Hfile Hparse Hnodes.
    assert (Hrun : renameAttachmentsForActiveMD settings (Some leaf) mdfile w
                   = (Thrown "TypeError: canvasData.nodes is not iterable", w)).
    { rewrite (activeMD_canvas_run leaf mdfile w bytes (JObject fields)) by assumption.
      rewrite (bind_Ok _ _ w w None) by (unfold getProp, ret; now rewrite Hnodes).
      now apply bind_Thrown. }
    split; [exact Hrun|]. intros Hpath.
    unfold renameOnlyActiveAttachments. rewrite Hpath, andb_false_r.
    now apply bind_Thrown.
  - reflexivity.
  - intros Hguard. unfold renameOnlyActiveAttachments. rewrite Hguard. reflexivity.
Qed.









End ActiveMore.

(* ===================================================================== *)
(** * The methods no command calls *)
(* ===================================================================== *)

Section UnusedMore.

Context {D : Type} {P : PathUtil} {H : Md5} {LH : LinksHandler D} {A : App D}.
Context {FM : FileManager D}.
Variable settings : PluginSettings.

Lemma fileManager_renameFile_run (p q : string) (w : World D) :
  fileManager_renameFile p q w =
  match renameFileRejects (files w) p q with
  | Some e => (Thrown e, w)
  | None => (Ok tt, renamedByFileManager p q w)
  end.
Proof. reflexivity. Qed.

(** What [renameAttachment] does, case by case. *)
Lemma renameAttachment_run (file validBaseName : string) (w : World D) :
  let validPath := getFilePathWithRenamedBaseName file validBaseName in
  renameAttachment settings file validBaseName w =
  match lookup validPath (files w) with
  | Some existing =>
      if negb (String.eqb (md5_hex existing) validBaseName)
      then (Ok false, report (Warn (msgNameClash file validPath)) w)
      else if negb (mergeTheSameAttachments settings)
      then (Ok false, report (Warn (msgMergeDisabledDelte file validPath)) w)
      else
        match deleteRejects (files w) validPath with
        | Some e => (Ok false, report (Error (msgCantDelete file e)) w)
        | None =>
            let deleted := mkWorld (removeFile validPath (files w)) (cache w)
                             (trace w ++ [Deleted validPath]) in
            match renameFileRejects (files deleted) file validPath with
            | Some e => (Ok false, report (Error (msgCantDelete file e)) deleted)
            | None =>
                (Ok true,
                 report (Log (msgMerged validPath validPath))
                   (renamedByFileManager file validPath deleted))
            end
        end
  | None =>
      match renameFileRejects (files w) file validPath with
      | Some e => (Ok false, report (Error (msgCantRename file validPath e)) w)
      | None =>
          (Ok true,
           report (Log (msgRenamed validPath validPath))
             (renamedByFileManager file validPath w))
      end
  end.
Proof.
  intros validPath. unfold renameAttachment. fold validPath.
  unfold bind at 1, adapter_exists, fileExists.
  destruct (lookup validPath (files w)) as [existing|] eqn:Htarget.
  - unfold bind at 1. rewrite generateValidBaseName_run, Htarget.
    destruct (negb (String.eqb (md5_hex existing) validBaseName)); [reflexivity|].
    destruct (negb (mergeTheSameAttachments settings)); [reflexivity|].
    unfold tryCatch. unfold bind at 1. unfold vault_getAbstractFileByPath, fileExists.
    rewrite Htarget. unfold bind at 1. unfold vault_delete_found, vault_delete.
    destruct (deleteRejects (files w) validPath) as [e|]; [reflexivity|].
    rewrite fileManager_renameFile_run. cbn [files].
    destruct (renameFileRejects (removeFile validPath (files w)) file validPath);
      reflexivity.
  - unfold tryCatch. rewrite fileManager_renameFile_run.
    destruct (renameFileRejects (files w) file validPath); reflexivity.
Qed.

(** X13. [renameAttachment] on a duplicate, with merging enabled, deletes
    the file that has the candidate path (not the attachment) and then
    renames the attachment onto it.  When the storage rejects the delete
    nothing has changed; when the delete is accepted and the rename is
    rejected, the call returns [false] although the file at the candidate
    path is gone, and the report says that the attachment could not be
    deleted; when both are accepted the events are the delete, the rename
    and the log line, and the log line names the candidate path twice: it
    reads [file.path] after the rename. *)
Theorem renameAttachment_deletes_the_target_first (file validBaseName : string)
    (w : World D) (existing : list byte) :
  let validPath := getFilePathWithRenamedBaseName file validBaseName in
  lookup validPath (files w) = Some existing ->
  md5_hex existing = validBaseName ->
  mergeTheSameAttachments settings = true ->
  let r := renameAttachment settings file validBaseName w in
  (forall e, deleteRejects (files w) validPath = Some e ->
     r = (Ok false, report (Error (msgCantDelete file e)) w))
  /\ (deleteRejects (files w) validPath = None ->
      (forall e, renameFileRejects (removeFile validPath (files w)) file validPath = Some e ->
         fst r = Ok false
         /\ files (snd r) = removeFile validPath (files w)
         /\ trace (snd r)
            = (trace w ++ [Deleted validPath; Error (msgCantDelete file e)])%list
         /\ (NoDup (paths (files w)) -> fileExists validPath (files (snd r)) = false))
      /\ (renameFileRejects (removeFile validPath (files w)) file validPath = None ->
          fst r = Ok true
          /\ trace (snd r)
             = (trace w ++ [Deleted validPath; Renamed file validPath;
                            Log (msgMerged validPath validPath)])%list)).
Proof.
  intros validPath Htarget Hsame Hmerge r.
  assert (Hr : r = match deleteRejects (files w) validPath with
                   | Some e => (Ok false, report (Error (msgCantDelete file e)) w)
                   | None =>
                       let deleted := mkWorld (removeFile validPath (files w)) (cache w)
                                        (trace w ++ [Deleted validPath]) in
                       match renameFileRejects (files deleted) file validPath with
                       | Some e => (Ok false, report (Error (msgCantDelete file e)) deleted)
                       | None =>
                           (Ok true,
                            report (Log (msgMerged validPath validPath))
                              (renamedByFileManager file validPath deleted))
                       end
                   end).
  { unfold r. rewrite renameAttachment_run. fold validPath.
    rewrite Htarget, Hsame, String.eqb_refl, Hmerge. reflexivity. }
  split.
  - intros e He. now rewrite Hr, He.
  - intros Hdel. rewrite Hr, Hdel. cbv zeta. cbn [files]. split.
    + intros e He. rewrite He. cbn [fst snd]. unfold report; cbn [files trace].
      split; [reflexivity|]. split; [reflexivity|]. split.
      * now rewrite <- app_assoc.
      * intros Hnd. destruct (fileExists validPath (removeFile validPath (files w))) eqn:Hex;
          [|reflexivity].
        apply fileExists_In in Hex. exfalso. revert Hex. now apply notin_removeFile.
    + intros Hren. rewrite Hren. cbn [fst snd]. split; [reflexivity|].
      unfold report, renamedByFileManager; cbn [trace]. now rewrite <- !app_assoc.
Qed.

(** X14. [renameAttachment] never calls the rewriters of the links handler,
    and a call that returns [false] has either left the files as they were
    or has deleted exactly the file at the candidate path (the rename was
    rejected after the delete). *)
Theorem renameAttachment_false_may_have_deleted (file validBaseName : string) (w : World D) :
  let validPath := getFilePathWithRenamedBaseName file validBaseName in
  let r := renameAttachment settings file validBaseName w in
  countOf isRewrite (newEvents w (snd r)) = 0
  /\ (fst r = Ok false ->
      files (snd r) = files w
      \/ files (snd r) = removeFile validPath (files w)
         /\ In (Deleted validPath) (newEvents w (snd r))
         /\ exists e, renameFileRejects (removeFile validPath (files w)) file validPath
                      = Some e).
Proof.
  intros validPath r. unfold r. rewrite renameAttachment_run. fold validPath.
  destruct (lookup validPath (files w)) as [existing|].
  - destruct (negb (String.eqb (md5_hex existing) validBaseName)).
    { cbn [fst snd]. rewrite (newEvents_app w _ [Warn (msgNameClash file validPath)])
        by reflexivity. split; [reflexivity | now left]. }
    destruct (negb (mergeTheSameAttachments settings)).
    { cbn [fst snd].
      rewrite (newEvents_app w _ [Warn (msgMergeDisabledDelte file validPath)])
        by reflexivity. split; [reflexivity | now left]. }
    destruct (deleteRejects (files w) validPath) as [e|].
    { cbn [fst snd]. rewrite (newEvents_app w _ [Error (msgCantDelete file e)])
        by reflexivity. split; [reflexivity | now left]. }
    cbv zeta. cbn [files].
    destruct (renameFileRejects (removeFile validPath (files w)) file validPath)
      as [e|] eqn:Hren; cbn [fst snd].
    + rewrite (newEvents_app w _ [Deleted validPath; Error (msgCantDelete file e)])
        by (unfold report; cbn [trace]; now rewrite <- app_assoc).
      split; [reflexivity|]. intros _. right. unfold report; cbn [files].
      split; [reflexivity|]. split; [now left | eauto].
    + rewrite (newEvents_app w _ [Deleted validPath; Renamed file validPath;
                                  Log (msgMerged validPath validPath)])
        by (unfold report, renamedByFileManager; cbn [trace]; now rewrite <- !app_assoc).
      split; [reflexivity | discriminate].
  - destruct (renameFileRejects (files w) file validPath) as [e|]; cbn [fst snd].
    + rewrite (newEvents_app w _ [Error (msgCantRename file validPath e)])
        by reflexivity. split; [reflexivity | now left].
    + rewrite (newEvents_app w _ [Renamed file validPath;
                                  Log (msgRenamed validPath validPath)])
        by (unfold report, renamedByFileManager; cbn [trace]; now rewrite <- !app_assoc).
      split; [reflexivity | discriminate].
Qed.

End UnusedMore.

Section SaveNameMore.

Context {R : LinkResolver}.

(** X15. [saveAttachmentNameInLink] asks the editor for one replacement per
    link of the cache that has no display text of its own (an empty one, or
    one equal to the link text) and resolves to the file, in the order of
    the cache and at the cached position of the link as it is; every
    replacement is the generated link for the new base name without its
    first character.  Links with another display text, links the cache has
    no display text for and links to other files are left alone, and
    without [mdc.links] nothing is replaced. *)
Theorem saveAttachmentNameInLink_replaces_plain_links
    (mdfilePath filePath parentPath baseName : string) :
  (forall links : list LinkCache,
      saveAttachmentNameInLink (Some links) mdfilePath filePath parentPath baseName
      = map (fun l => {| replacement :=
                           substringFrom1 (generateMarkdownLink filePath parentPath "" baseName);
                         rangeFrom := positionStart l;
                         rangeTo := positionEnd l |})
            (filter (fun l => negb (hasOwnDisplayText l)
                              && resolvesTo mdfilePath filePath l) links))
  /\ saveAttachmentNameInLink None mdfilePath filePath parentPath baseName = []
  /\ (forall l, displayText l = None -> hasOwnDisplayText l = true)
  /\ (forall l d, displayText l = Some d -> d <> "" -> d <> linkText l ->
                  hasOwnDisplayText l = true).
Proof.
  split; [|split; [reflexivity|split]].
  - intros links. unfold saveAttachmentNameInLink.
    induction links as [|l links IH]; [reflexivity|].
    cbn [replaceLinks filter]. unfold resolvesTo at 1.
    destruct (hasOwnDisplayText l); cbn [negb andb]; [exact IH|].
    destruct (getFirstLinkpathDest (getLinkpath (linkText l)) mdfilePath) as [afile|];
      [|exact IH].
    destruct (String.eqb_spec afile filePath) as [->|]; [|exact IH].
    cbn [map]. now rewrite IH.
  - intros l Hd. unfold hasOwnDisplayText. now rewrite Hd.
  - intros l d Hd Hne Hother. unfold hasOwnDisplayText. rewrite Hd.
    apply andb_true_iff. split; apply negb_true_iff; apply String.eqb_neq; congruence.
Qed.

End SaveNameMore.

Section SetMore.

Lemma Set_add_new (acc : list string) (x : string) :
  ~ In x acc -> JS.Set_add acc x = (acc ++ [x])%list.
Proof.
  intros Hout. unfold JS.Set_add.
  destruct (existsb (String.eqb x) acc) eqn:E; [|reflexivity].
  apply existsb_exists in E as [y [Hy Hxy]]. apply String.eqb_eq in Hxy. now subst.
Qed.

Lemma fold_Set_add_distinct (l acc : list string) :
  NoDup (acc ++ l) -> fold_left JS.Set_add l acc = (acc ++ l)%list.
Proof.
  revert acc. induction l as [|x l IH]; intros acc Hnd; simpl.
  - now rewrite app_nil_r.
  - rewrite Set_add_new.
    + rewrite IH; rewrite <- app_assoc; [reflexivity | exact Hnd].
    + apply NoDup_remove_2 in Hnd. intros Hin. apply Hnd. apply in_or_app. now left.
Qed.

(** X16. When the two look-ups name no document twice, the documents are
    rewritten in the order the look-ups gave them, the notes first and the
    canvases after them: the set of line 89 changes nothing; and whatever
    the look-ups give, a document that comes first in them comes first in
    the set. *)
Theorem referencing_notes_keep_the_lookup_order (mdNotes canvasNotes : option (list string)) :
  (NoDup (JS.orEmpty mdNotes ++ JS.orEmpty canvasNotes) ->
   referencingNotes mdNotes canvasNotes = (JS.orEmpty mdNotes ++ JS.orEmpty canvasNotes)%list)
  /\ (forall first rest,
        (JS.orEmpty mdNotes ++ JS.orEmpty canvasNotes)%list = first :: rest ->
        exists others, referencingNotes mdNotes canvasNotes = first :: others).
Proof.
  split.
  - intros Hnd. unfold referencingNotes, JS.Set_of.
    now rewrite fold_Set_add_distinct.
  - intros first rest Hl. unfold referencingNotes, JS.Set_of. rewrite Hl.
    cbn [fold_left JS.Set_add existsb].
    assert (Hgrow : forall l acc, exists more, fold_left JS.Set_add l acc = (acc ++ more)%list).
    { induction l as [|x l IH]; intros acc; simpl.
      - exists []. now rewrite app_nil_r.
      - destruct (IH (JS.Set_add acc x)) as [more Hmore]. rewrite Hmore.
        unfold JS.Set_add. destruct (existsb (String.eqb x) acc).
        + now exists more.
        + exists (x :: more). now rewrite <- app_assoc. }
    destruct (Hgrow rest ([] ++ [first])%list) as [more Hmore].
    exists more. exact Hmore.
Qed.

End SetMore.

(* ===================================================================== *)
(** * When an awaited call outside a [try] rejects *)
(* ===================================================================== *)

Section UnguardedCalls.

Context {D : Type} {P : PathUtil} {H : Md5} {LH : LinksHandler D} {A : App D}.
Context {F : Faults D}.
Variable settings : PluginSettings.

Lemma unguarded_updateReferences_run (notes : list string) (oldPath newPath : string)
    (w : World D) :
  Unguarded.updateReferences notes oldPath newPath w
  = rewriteUntilRejected notes oldPath newPath w.
Proof.
  unfold Unguarded.updateReferences.
  revert w; induction notes as [|n l IH]; intros w; [reflexivity|].
  cbn [forOf rewriteUntilRejected]. unfold bind at 1.
  unfold rewriteRejects, rewriteOne.
  destruct (JS.endsWith n ".canvas").
  - unfold Unguarded.lh_updateChangedPathInCanvas, Unguarded.orRejects.
    destruct (updateCanvasRejects (files w) (cache w) n oldPath newPath);
      [reflexivity|].
    unfold lh_updateChangedPathInCanvas. apply IH.
  - unfold Unguarded.lh_updateChangedPathInNote, Unguarded.orRejects.
    destruct (updateNoteRejects (files w) (cache w) n oldPath newPath);
      [reflexivity|].
    unfold lh_updateChangedPathInNote. apply IH.
Qed.

Lemma unguarded_generateValidBaseName_run (p : string) (w : World D) :
  Unguarded.generateValidBaseName p w =
  match readBinaryRejects (files w) p with
  | Some e => (Thrown e, w)
  | None =>
      match lookup p (files w) with
      | Some b => (Ok (md5_hex b), w)
      | None => (Thrown ("File not found: " ++ p), w)
      end
  end.
Proof.
  unfold Unguarded.generateValidBaseName, bind, Unguarded.vault_readBinary,
    Unguarded.orRejects, vault_readBinary.
  destruct (readBinaryRejects (files w) p); [reflexivity|].
  destruct (lookup p (files w)); reflexivity.
Qed.

(** A call rejects with the first error of a call before the decision;
    without one it comes to what the decision of steps 1 to 6 enacts, the
    rewriting being cut short where a rewriter rejects. *)
Lemma unguarded_decision (file : string) (w : World D) :
  Unguarded.renameAttachmentIfNeeded settings file w =
  match rejectsBeforeActing settings w file with
  | Some e => (Thrown e, w)
  | None =>
      match decision settings w file with
      | Some d => enactUnguarded w file d
      | None => (Thrown ("File not found: " ++ file), w)
      end
  end.
Proof.
  unfold Unguarded.renameAttachmentIfNeeded, rejectsBeforeActing, decision, gatedOut.
  destruct (checkFilePathIsIgnored settings file
            || negb (checkFileTypeIsAllowed settings file)) eqn:Egate;
    [reflexivity|].
  unfold bind at 1. rewrite unguarded_generateValidBaseName_run.
  destruct (readBinaryRejects (files w) file) as [e|]; [reflexivity|].
  destruct (lookup file (files w)) as [bytes|] eqn:Efile; [|reflexivity].
  unfold decisionFor, gatedOut, canonicallyNamed, skippedAsUnlinked. rewrite Egate.
  destruct (String.eqb (basename file (extname file)) (md5_hex bytes)); [reflexivity|].
  unfold bind at 1, Unguarded.lh_getNotesThatHaveLinkToFile, Unguarded.orRejects.
  destruct (getNotesRejects (files w) (cache w) file) as [e|]; [reflexivity|].
  unfold lh_getNotesThatHaveLinkToFile.
  unfold bind at 1, Unguarded.lh_getNotesThatHaveLinkToFileInCanvas, Unguarded.orRejects.
  destruct (getCanvasNotesRejects (files w) (cache w) file) as [e|]; [reflexivity|].
  unfold lh_getNotesThatHaveLinkToFileInCanvas.
  fold (referencingDocuments w file).
  assert (Elen : Nat.eqb (List.length (referencingDocuments w file)) 0
                 = match referencingDocuments w file with [] => true | _ => false end)
    by now destruct (referencingDocuments w file).
  rewrite Elen.
  destruct ((match referencingDocuments w file with [] => true | _ => false end)
            && renameOnlyLinkedAttachments settings); [reflexivity|].
  set (validPath := getFilePathWithRenamedBaseName file (md5_hex bytes)).
  unfold bind at 1, Unguarded.adapter_exists, Unguarded.orRejects.
  destruct (existsRejects (files w) validPath) as [e|]; [reflexivity|].
  unfold adapter_exists, fileExists.
  destruct (lookup validPath (files w)) as [existing|] eqn:Etarget.
  - unfold bind at 1. rewrite unguarded_generateValidBaseName_run, Etarget.
    destruct (readBinaryRejects (files w) validPath) as [e|]; [reflexivity|].
    destruct (String.eqb (md5_hex existing) (md5_hex bytes)); cbn [negb].
    + destruct (mergeTheSameAttachments settings); cbn [negb].
      * unfold tryCatch, vault_delete.
        destruct (deleteRejects (files w) file) as [e|]; [reflexivity|].
        unfold bind at 1. rewrite unguarded_updateReferences_run.
        cbn [enactUnguarded]. unfold thenLog.
        destruct (rewriteUntilRejected _ _ _ _) as [[[]|e] w']; reflexivity.
      * reflexivity.
    + reflexivity.
  - unfold tryCatch, vault_rename.
    destruct (renameRejects (files w) file validPath) as [e|]; [reflexivity|].
    unfold bind at 1. rewrite unguarded_updateReferences_run.
    cbn [enactUnguarded]. unfold thenLog.
    destruct (rewriteUntilRejected _ _ _ _) as [[[]|e] w']; reflexivity.
Qed.

(** The rewriting goes through a first part of the documents; when it is
    cut short, the rewriter rejected for the next one. *)
Lemma rewriteUntilRejected_run (notes : list string) (oldPath newPath : string)
    (w : World D) :
  exists done rest,
    notes = (done ++ rest)%list
    /\ snd (rewriteUntilRejected notes oldPath newPath w)
       = rewriteAll done oldPath newPath w
    /\ match fst (rewriteUntilRejected notes oldPath newPath w) with
       | Ok _ => rest = []
       | Thrown e =>
           exists note later,
             rest = note :: later
             /\ rewriteRejects oldPath newPath (rewriteAll done oldPath newPath w) note
                = Some e
       end.
Proof.
  revert w. induction notes as [|n l IH]; intros w.
  - exists [], []. repeat split.
  - cbn [rewriteUntilRejected].
    destruct (rewriteRejects oldPath newPath w n) as [e|] eqn:Hrej.
    + exists [], (n :: l). repeat split. cbn [fst]. exists n, l. split; [reflexivity|].
      exact Hrej.
    + destruct (IH (rewriteOne oldPath newPath w n)) as [done [rest [Hl [Hw Hr]]]].
      exists (n :: done), rest. split; [now rewrite Hl|]. split; [exact Hw|].
      exact Hr.
Qed.

(** Without a call that rejects the methods are those of the engine. *)
Lemma rewriteUntilRejected_all (notes : list string) (oldPath newPath : string)
    (w : World D) :
  (forall w0 note, rewriteRejects oldPath newPath w0 note = None) ->
  rewriteUntilRejected notes oldPath newPath w
  = (Ok tt, rewriteAll notes oldPath newPath w).
Proof.
  intros Hnone. revert w. induction notes as [|n l IH]; intros w; [reflexivity|].
  cbn [rewriteUntilRejected]. rewrite Hnone. apply IH.
Qed.

(** One call: no notice; when it returns, a rename or a delete exactly
    when it returns [true]; never more than one. *)
Lemma unguarded_call_accounts (file : string) (w : World D) :
  let r := Unguarded.renameAttachmentIfNeeded settings file w in
  exists evs,
    trace (snd r) = (trace w ++ evs)%list
    /\ countOf isNotice evs = 0
    /\ (forall b, fst r = Ok b -> acts evs = if b then 1 else 0).
Proof.
  intros r. unfold r. rewrite unguarded_decision.
  destruct (rejectsBeforeActing settings w file) as [e|].
  { exists []. rewrite app_nil_r. cbn. repeat split. intros b E. discriminate. }
  assert (Hacting : forall (first : Event) (msg : string) (q : string) (w0 : World D),
             trace w0 = (trace w ++ [first])%list ->
             isNotice first = false ->
             acts [first] = 1 ->
             let r0 := thenLog msg
                         (rewriteUntilRejected (referencingDocuments w file) file q w0) in
             exists evs,
               trace (snd r0) = (trace w ++ evs)%list
               /\ countOf isNotice evs = 0
               /\ (forall b, fst r0 = Ok b -> acts evs = if b then 1 else 0)).
  { intros first msg q w0 Hw0 Hfirst Hact r0. unfold r0, thenLog.
    destruct (rewriteUntilRejected_run (referencingDocuments w file) file q w0)
      as [done [rest [_ [Hsnd _]]]].
    destruct (rewriteUntilRejected (referencingDocuments w file) file q w0)
      as [[[]|e] w']; cbn [fst snd] in *; subst w'.
    - exists ([first] ++ map (rewriteEvent file q) done ++ [Log msg])%list.
      split; [|split].
      + unfold report; cbn [trace]. rewrite rewriteAll_trace, Hw0.
        now rewrite <- !app_assoc.
      + rewrite !countOf_app, countOf_rewrites by reflexivity.
        unfold countOf. cbn [filter]. now rewrite Hfirst.
      + intros b E. inversion E. rewrite !acts_app, Hact.
        unfold acts. rewrite !countOf_rewrites by reflexivity. reflexivity.
    - exists ([first] ++ map (rewriteEvent file q) done)%list.
      split; [|split].
      + rewrite rewriteAll_trace, Hw0. now rewrite <- !app_assoc.
      + rewrite !countOf_app, countOf_rewrites by reflexivity.
        unfold countOf. cbn [filter]. now rewrite Hfirst.
      + intros b E. discriminate. }
  destruct (decision settings w file) as [[|q|q|q why]|] eqn:Hd;
    cbn [enactUnguarded enact fst snd].
  - exists []. rewrite app_nil_r. cbn. repeat split. intros b E. now inversion E.
  - apply (Hacting (Renamed file q)); reflexivity.
  - apply (Hacting (Deleted file)); reflexivity.
  - exists [blockedReport file q why]. unfold acts, countOf.
    split; [reflexivity|].
    destruct why; cbn; repeat split; auto; intros b E; now inversion E.
  - exists []. rewrite app_nil_r. cbn. repeat split. intros b E. discriminate.
Qed.

Lemma unguarded_forOf_accounts (l : list string) (n : nat) (w : World D) :
  let r := forOf l (Unguarded.countIfRenamed settings) n w in
  exists evs,
    trace (snd r) = (trace w ++ evs)%list
    /\ countOf isNotice evs = 0
    /\ (forall m, fst r = Ok m -> m = n + acts evs).
Proof.
  revert n w. induction l as [|file l IH]; intros n w r; unfold r.
  - exists []. rewrite app_nil_r. cbn. repeat split. intros m E. inversion E. lia.
  - assert (Hstep : forOf (file :: l) (Unguarded.countIfRenamed settings) n w
                    = match Unguarded.renameAttachmentIfNeeded settings file w with
                      | (Ok b, w1) =>
                          forOf l (Unguarded.countIfRenamed settings)
                            (if b then S n else n) w1
                      | (Thrown e, w1) => (Thrown e, w1)
                      end).
    { cbn [forOf]. unfold bind at 1. unfold Unguarded.countIfRenamed at 1.
      unfold bind at 1.
      destruct (Unguarded.renameAttachmentIfNeeded settings file w) as [[b|e] w1];
        reflexivity. }
    rewrite Hstep.
    destruct (unguarded_call_accounts file w) as [evs1 [Ht1 [Hn1 Ha1]]].
    destruct (Unguarded.renameAttachmentIfNeeded settings file w) as [[b|e] w1];
      cbn [fst snd] in *.
    + destruct (IH (if b then S n else n) w1) as [evs2 [Ht2 [Hn2 Ha2]]].
      exists (evs1 ++ evs2)%list. rewrite countOf_app, acts_app.
      split; [now rewrite Ht2, Ht1, app_assoc|]. split; [lia|].
      intros m E. rewrite (Ha2 m E), (Ha1 b eq_refl). destruct b; lia.
    + exists evs1. repeat split; try assumption. intros m E. discriminate.
Qed.

(** X4. The whole-vault command, whichever awaited calls reject: when it
    returns it has shown exactly one notice, as its last event, and the
    number in it is the number of renames plus the number of deletes it
    performed; when it rejects it has shown no notice, whatever it renamed
    or deleted before. *)
Theorem notice_counts_renames_and_deletes (w : World D) :
  let r := Unguarded.renameAllAttachments settings w in
  exists evs,
    countOf isNotice evs = 0
    /\ match fst r with
       | Ok _ =>
           trace (snd r)
           = (trace w ++ evs
                ++ [Notice (countNotice (countOf isRenamed evs + countOf isDeleted evs))])%list
       | Thrown _ => trace (snd r) = (trace w ++ evs)%list
       end.
Proof.
  intros r.
  assert (Hrun : r = match forOf (paths (files w)) (Unguarded.countIfRenamed settings) 0 w
                     with
                     | (Ok m, w1) => (Ok tt, report (Notice (countNotice m)) w1)
                     | (Thrown e, w1) => (Thrown e, w1)
                     end).
  { unfold r, Unguarded.renameAllAttachments.
    unfold bind at 1. unfold vault_getFiles. unfold bind at 1.
    destruct (forOf (paths (files w)) (Unguarded.countIfRenamed settings) 0 w)
      as [[m|e] w1]; reflexivity. }
  rewrite Hrun.
  destruct (unguarded_forOf_accounts (paths (files w)) 0 w) as [evs [Ht [Hn Ha]]].
  destruct (forOf (paths (files w)) (Unguarded.countIfRenamed settings) 0 w)
    as [[m|e] w1]; cbn [fst snd] in *.
  - exists evs. split; [assumption|]. unfold report; cbn [trace].
    rewrite (Ha m eq_refl), Ht, <- app_assoc. reflexivity.
  - exists evs. split; assumption.
Qed.

Lemma forOf_app {X S : Type} (a b : list X) (body : X -> S -> M D S) (acc : S)
    (w : World D) :
  forOf (a ++ b) body acc w = bind (forOf a body acc) (fun acc' => forOf b body acc') w.
Proof.
  revert acc w. induction a as [|x a IH]; intros acc w; [reflexivity|].
  cbn [app forOf]. unfold bind.
  destruct (body x acc w) as [[acc'|e] w1]; [|reflexivity].
  rewrite IH. reflexivity.
Qed.

(** C4. A pass of [renameAllAttachments] is cut short by a call that
    rejects: when the files before [file] have been processed and the call
    for [file] rejects, the command rejects with the same error in the
    world that call left; the files after [file] are not processed and no
    notice is shown.  The call rejects, with nothing changed, when the read
    of the attachment rejects: [readBinary] is awaited outside any [try]
    (line 280), and the loop of lines 35-39 has none. *)
Theorem rejected_call_aborts_the_batch (w w1 : World D) (before after : list string)
    (file : string) (n : nat) :
  paths (files w) = (before ++ file :: after)%list ->
  forOf before (Unguarded.countIfRenamed settings) 0 w = (Ok n, w1) ->
  (forall e w2,
     Unguarded.renameAttachmentIfNeeded settings file w1 = (Thrown e, w2) ->
     Unguarded.renameAllAttachments settings w = (Thrown e, w2)
     /\ countOf isNotice (newEvents w w2) = 0)
  /\ (forall e,
        gatedOut settings file = false ->
        readBinaryRejects (files w1) file = Some e ->
        Unguarded.renameAttachmentIfNeeded settings file w1 = (Thrown e, w1)).
Proof.
  intros Hfiles Hbefore. split.
  - intros e w2 Hcall.
    assert (Hloop : forOf (paths (files w)) (Unguarded.countIfRenamed settings) 0 w
                    = (Thrown e, w2)).
    { rewrite Hfiles, forOf_app. unfold bind at 1. rewrite Hbefore.
      cbn [forOf]. unfold bind at 1. unfold Unguarded.countIfRenamed at 1.
      unfold bind at 1. now rewrite Hcall. }
    split.
    + unfold Unguarded.renameAllAttachments. unfold bind at 1. unfold vault_getFiles.
      unfold bind at 1. now rewrite Hloop.
    + destruct (unguarded_forOf_accounts (paths (files w)) 0 w) as [evs [Ht [Hn _]]].
      rewrite Hloop in Ht. cbn [snd] in Ht.
      now rewrite (newEvents_app w w2 evs Ht).
  - intros e Hgate Hread. rewrite unguarded_decision.
    unfold rejectsBeforeActing. now rewrite Hgate, Hread.
Qed.

(** X3. A call of [renameAttachmentIfNeeded], whether it returns or
    rejects, leaves the bytes of every file that is neither the attachment
    nor one of the documents that refer to it.  A call that rejects has
    changed nothing, or it has renamed or deleted the attachment and
    rewritten the documents up to the one for which the rewriter rejected:
    that one and the ones after it still refer to the old path. *)
Theorem other_files_keep_their_bytes (file u : string) (w : World D) :
  u <> file ->
  ~ In u (referencingDocuments w file) ->
  fileExists u (files w) = true ->
  let r := Unguarded.renameAttachmentIfNeeded settings file w in
  lookup u (files (snd r)) = lookup u (files w)
  /\ (forall e, fst r = Thrown e ->
        snd r = w
        \/ exists q done note later,
             referencingDocuments w file = (done ++ note :: later)%list
             /\ rewriteRejects file q (snd r) note = Some e
             /\ (newEvents w (snd r) = Renamed file q :: map (rewriteEvent file q) done
                 \/ newEvents w (snd r) = Deleted file :: map (rewriteEvent file q) done)).
Proof.
  intros Hfile Hrefs Hex r. unfold r. rewrite unguarded_decision.
  destruct (rejectsBeforeActing settings w file) as [e0|].
  { split; [reflexivity | intros; now left]. }
  assert (Hacting : forall (first : Event) (msg : string) (q : string) (w0 : World D),
             trace w0 = (trace w ++ [first])%list ->
             lookup u (files w0) = lookup u (files w) ->
             let r0 := thenLog msg
                         (rewriteUntilRejected (referencingDocuments w file) file q w0) in
             lookup u (files (snd r0)) = lookup u (files w)
             /\ (forall e, fst r0 = Thrown e ->
                   exists done note later,
                     referencingDocuments w file = (done ++ note :: later)%list
                     /\ rewriteRejects file q (snd r0) note = Some e
                     /\ newEvents w (snd r0) = first :: map (rewriteEvent file q) done)).
  { intros first msg q w0 Hw0 Hu r0. unfold r0, thenLog.
    destruct (rewriteUntilRejected_run (referencingDocuments w file) file q w0)
      as [done [rest [Hsplit [Hsnd Hfst]]]].
    assert (Hdone : forall note, In note done -> note <> u).
    { intros note Hn ->. apply Hrefs. rewrite Hsplit. apply in_or_app. now left. }
    destruct (rewriteUntilRejected (referencingDocuments w file) file q w0)
      as [[[]|e] w']; cbn [fst snd] in *; subst w'.
    - split; [|discriminate]. unfold report; cbn [files].
      now rewrite lookup_rewriteAll_other.
    - split; [now rewrite lookup_rewriteAll_other|].
      intros e' E. inversion E; subst e'.
      destruct Hfst as [note [later [-> Hrej]]].
      exists done, note, later. split; [assumption|]. split; [assumption|].
      apply newEvents_app. rewrite rewriteAll_trace, Hw0.
      now rewrite <- app_assoc. }
  destruct (decision settings w file) as [[|q|q|q why]|] eqn:Hd;
    cbn [enactUnguarded enact fst snd].
  - split; [reflexivity | discriminate].
  - apply decision_rename_inv in Hd as [bytes [_ [_ [_ [_ Hq]]]]].
    destruct (Hacting (Renamed file q) (msgRenamed file q) q
                (mkWorld (moveFile file q (files w)) (cache w)
                   (trace w ++ [Renamed file q]))) as [Hkeep Hrej]; [reflexivity | |].
    { cbn [files]. apply lookup_moveFile_other; [assumption|].
      intros ->. unfold fileExists in Hex. now rewrite Hq in Hex. }
    split; [exact Hkeep|]. intros e E. right.
    destruct (Hrej e E) as [done [note [later [H1 [H2 H3]]]]].
    exists q, done, note, later. auto.
  - destruct (Hacting (Deleted file) (msgMerged file q) q
                (mkWorld (removeFile file (files w)) (cache w)
                   (trace w ++ [Deleted file]))) as [Hkeep Hrej]; [reflexivity | |].
    { cbn [files]. now apply lookup_removeFile_other. }
    split; [exact Hkeep|]. intros e E. right.
    destruct (Hrej e E) as [done [note [later [H1 [H2 H3]]]]].
    exists q, done, note, later. auto.
  - split; [reflexivity | discriminate].
  - split; [reflexivity | intros; now left].
Qed.

(** The rewriting after a rename or a delete: the events are the
    rewrites of a first part of the documents, and the log line when all
    of them were rewritten. *)
Lemma thenLog_run (msg : string) (notes : list string) (oldPath newPath : string)
    (w0 : World D) :
  let r0 := thenLog msg (rewriteUntilRejected notes oldPath newPath w0) in
  exists done logged,
    incl done notes
    /\ files (snd r0) = files (rewriteAll done oldPath newPath w0)
    /\ trace (snd r0)
       = (trace w0 ++ map (rewriteEvent oldPath newPath) done ++ logged)%list
    /\ (logged = [] \/ logged = [Log msg]).
Proof.
  intros r0. unfold r0, thenLog.
  destruct (rewriteUntilRejected_run notes oldPath newPath w0)
    as [done [rest [Hsplit [Hsnd _]]]].
  assert (Hincl : incl done notes).
  { intros n Hn. rewrite Hsplit. apply in_or_app. now left. }
  destruct (rewriteUntilRejected notes oldPath newPath w0) as [[[]|e] w'];
    cbn [fst snd] in *; subst w'.
  - exists done, [Log msg]. split; [assumption|]. split; [reflexivity|].
    split; [|now right]. unfold report; cbn [trace].
    now rewrite rewriteAll_trace, <- app_assoc.
  - exists done, []. split; [assumption|]. split; [reflexivity|].
    split; [|now left]. now rewrite rewriteAll_trace, app_nil_r.
Qed.

(** X7. [renameAttachmentIfNeeded], whether it returns or rejects, deletes
    nothing but the attachment it was called on, only when merging is
    enabled, and only when the file that has the candidate path has the
    same fingerprint; when the candidate path is another path than the one
    of the attachment (the code does not compare them), that file is in
    the vault after the call. *)
Theorem delete_keeps_a_copy (file p : string) (w : World D) :
  let w' := snd (Unguarded.renameAttachmentIfNeeded settings file w) in
  In (Deleted p) (newEvents w w') ->
  p = file
  /\ mergeTheSameAttachments settings = true
  /\ exists bytes existing,
       lookup file (files w) = Some bytes
       /\ let q := getFilePathWithRenamedBaseName file (md5_hex bytes) in
          lookup q (files w) = Some existing
          /\ md5_hex existing = md5_hex bytes
          /\ (q <> file -> fileExists q (files w') = true).
Proof.
  intros w'. unfold w'. rewrite unguarded_decision.
  destruct (rejectsBeforeActing settings w file) as [e0|].
  { cbn [snd]. rewrite (newEvents_app w w []) by now rewrite app_nil_r. intros []. }
  assert (Hrewrites : forall q done, ~ In (Deleted p) (map (rewriteEvent file q) done)).
  { intros q done Hin. apply in_map_iff in Hin as [n [E _]]. unfold rewriteEvent in E.
    destruct (JS.endsWith n ".canvas"); discriminate. }
  destruct (decision settings w file) as [[|q|q|q why]|] eqn:Hd;
    cbn [enactUnguarded enact fst snd].
  - rewrite (newEvents_app w w []) by now rewrite app_nil_r. intros [].
  - destruct (thenLog_run (msgRenamed file q) (referencingDocuments w file) file q
                (mkWorld (moveFile file q (files w)) (cache w)
                   (trace w ++ [Renamed file q])))
      as [done [logged [_ [_ [Ht Hlog]]]]].
    rewrite (newEvents_app _ _
               (Renamed file q :: map (rewriteEvent file q) done ++ logged))
      by (rewrite Ht; cbn [trace]; now rewrite <- app_assoc).
    intros [E|Hin]; [discriminate|].
    apply in_app_or in Hin as [Hin|Hin]; [now apply Hrewrites in Hin|].
    destruct Hlog as [->| ->]; [destruct Hin|].
    destruct Hin as [E|[]]. discriminate.
  - destruct (thenLog_run (msgMerged file q) (referencingDocuments w file) file q
                (mkWorld (removeFile file (files w)) (cache w)
                   (trace w ++ [Deleted file])))
      as [done [logged [_ [Hf [Ht Hlog]]]]].
    rewrite (newEvents_app _ _
               (Deleted file :: map (rewriteEvent file q) done ++ logged))
      by (rewrite Ht; cbn [trace]; now rewrite <- app_assoc).
    intros Hin.
    assert (Hp : p = file).
    { destruct Hin as [E|Hin]; [now inversion E|].
      apply in_app_or in Hin as [Hin|Hin]; [now apply Hrewrites in Hin|].
      destruct Hlog as [->| ->]; [destruct Hin|].
      destruct Hin as [E|[]]. discriminate. }
    split; [assumption|]. split; [exact (decision_merge_setting settings w file q Hd)|].
    apply decision_merge_inv in Hd
      as [bytes [existing [Hfile [_ [Hname [Hq [Htarget Hsame]]]]]]].
    exists bytes, existing. split; [assumption|]. rewrite <- Hq. cbv zeta.
    split; [assumption|]. split; [assumption|].
    intros Hqf. unfold fileExists. rewrite Hf.
    change (fileExists q (files (rewriteAll done file q
              (mkWorld (removeFile file (files w)) (cache w)
                 (trace w ++ [Deleted file])))) = true).
    rewrite fileExists_rewriteAll. cbn [files]. unfold fileExists.
    now rewrite lookup_removeFile_other, Htarget.
  - rewrite (newEvents_app _ _ [blockedReport file q why]) by reflexivity.
    intros [E|[]]. destruct why; discriminate.
  - rewrite (newEvents_app w w []) by now rewrite app_nil_r. intros [].
Qed.

End UnguardedCalls.

(** Without a call that rejects, the methods are those of the engine. *)
Section WithoutFaults.

Context {D : Type} {P : PathUtil} {H : Md5} {LH : LinksHandler D} {A : App D}.
Variable settings : PluginSettings.

Lemma unguarded_without_faults (file : string) (w : World D) :
  Unguarded.renameAttachmentIfNeeded (F := noFaults) settings file w
  = renameAttachmentIfNeeded settings file w.
Proof.
  rewrite unguarded_decision, renameAttachmentIfNeeded_decision.
  assert (Hnone : rejectsBeforeActing (F := noFaults) settings w file = None).
  { unfold rejectsBeforeActing. cbn [readBinaryRejects getNotesRejects
      getCanvasNotesRejects existsRejects noFaults].
    destruct (gatedOut settings file); [reflexivity|].
    destruct (lookup file (files w)) as [bytes|]; [|reflexivity].
    destruct (canonicallyNamed file bytes); [reflexivity|].
    destruct (skippedAsUnlinked settings w file); [reflexivity|].
    now destruct (lookup _ (files w)). }
  rewrite Hnone.
  destruct (decision settings w file) as [[|q|q|q why]|]; try reflexivity;
    cbn [enactUnguarded enact fst snd];
    rewrite rewriteUntilRejected_all; try reflexivity;
    intros w0 note; unfold rewriteRejects; now destruct (JS.endsWith note ".canvas").
Qed.

Lemma unguarded_pass_without_faults (w : World D) :
  Unguarded.renameAllAttachments (F := noFaults) settings w
  = renameAllAttachments settings w.
Proof.
  unfold Unguarded.renameAllAttachments, renameAllAttachments.
  unfold bind at 1 3. unfold vault_getFiles. unfold bind at 1 2.
  assert (Hloop : forall l n w0,
             forOf l (Unguarded.countIfRenamed (F := noFaults) settings) n w0
             = forOf l (countIfRenamed settings) n w0).
  { induction l as [|file l IH]; intros n w0; [reflexivity|].
    cbn [forOf]. unfold bind at 1 2.
    unfold Unguarded.countIfRenamed at 1, countIfRenamed at 1. unfold bind at 1 2.
    rewrite unguarded_without_faults.
    destruct (renameAttachmentIfNeeded settings file w0) as [[b|e] w1];
      [apply IH | reflexivity]. }
  now rewrite Hloop.
Qed.

End WithoutFaults.

(* ===================================================================== *)
(** * More runs on concrete vaults *)
(* ===================================================================== *)

Section RunsMore.

Import Scenario Scenario2.

Ltac run := vm_compute; first [reflexivity | discriminate].
Ltac distinct := repeat constructor; simpl; intuition discriminate.
Ltac absent := vm_compute; intuition discriminate.

Lemma empty_settings_entry_disables_the_plugin_witness :
  renameAllAttachments (A := free) emptyFolderEntry twins
  = (Ok tt, report (Notice "No files found that need to be renamed") twins).
Proof.
  refine (proj2 (empty_settings_entry_disables_the_plugin (A := free)
                   emptyFolderEntry twins _)).
  left. simpl. auto.
Defined.

Lemma rename_then_rewrite_witness :
  fst (renameAttachmentIfNeeded (A := free) everything "a.png" twins) = Ok true.
Proof.
  refine (proj1 (proj2 (rename_then_rewrite (A := free) everything "a.png" twins bytesA
                          _ _ _ _ _) _)).
  - run.
  - run.
  - run.
  - run.
  - run.
  - run.
Defined.

Lemma pass_keeps_the_vault_well_formed_witness :
  let w' := snd (renameAllAttachments (A := free) everything batch) in
  NoDup (paths (files w'))
  /\ List.length (files w') + countOf isDeleted (newEvents batch w')
     = List.length (files batch).
Proof.
  refine (pass_keeps_the_vault_well_formed (A := free) everything batch _).
  distinct.
Defined.

Lemma success_leaves_the_canonical_file_witness :
  exists bytes,
    lookup "a.png" (files twins) = Some bytes
    /\ let q := getFilePathWithRenamedBaseName "a.png" (md5_hex bytes) in
       let w' := snd (renameAttachmentIfNeeded (A := free) everything "a.png" twins) in
       q <> "a.png"
       /\ fileExists "a.png" (files w') = false
       /\ fileExists q (files w') = true
       /\ (~ In q (referencingDocuments twins "a.png") ->
           exists content, lookup q (files w') = Some content
                           /\ md5_hex content = md5_hex bytes
                           /\ canonicallyNamed q content = true).
Proof.
  refine (success_leaves_the_canonical_file (A := free) everything "a.png" twins _ _).
  - distinct.
  - run.
Defined.

Lemma active_document_without_links_rejects_witness :
  renameAttachmentsForActiveMD (A := free) everything (Some canvasLeaf) aNote twoNodes
  = (Thrown "TypeError: Cannot convert undefined or null to object", twoNodes)
  /\ renameOnlyActiveAttachments (A := free) everything (Some emptyBoard)
       (Some canvasLeaf) twoNodes
     = (Thrown "TypeError: canvasData.nodes is not iterable", twoNodes).
Proof.
  split.
  - refine (proj1 (active_document_without_links_rejects (A := free) everything
                     canvasLeaf aNote twoNodes) _ _).
    + reflexivity.
    + run.
  - refine (proj2 (proj1 (proj2 (active_document_without_links_rejects (A := free)
                                   everything canvasLeaf emptyBoard twoNodes))
                     (list_byte_of_string "{}") [] _ _ _ _) _).
    + reflexivity.
    + run.
    + run.
    + reflexivity.
    + run.
Defined.



Lemma renameAttachment_deletes_the_target_first_witness :
  let validPath := getFilePathWithRenamedBaseName "b.png" (md5_hex bytesA) in
  let r := renameAttachment (A := free) (FM := lockedManager ["b.png"]) everything
             "b.png" (md5_hex bytesA) duplicate in
  fst r = Ok false
  /\ files (snd r) = removeFile validPath (files duplicate)
  /\ trace (snd r)
     = (trace duplicate
          ++ [Deleted validPath;
              Error (msgCantDelete "b.png"
                       "Error: EPERM: operation not permitted, rename 'b.png'")])%list
  /\ (NoDup (paths (files duplicate)) -> fileExists validPath (files (snd r)) = false).
Proof.
  refine (proj1 (proj2 (renameAttachment_deletes_the_target_first (A := free)
                          (FM := lockedManager ["b.png"]) everything
                          "b.png" (md5_hex bytesA) duplicate bytesA _ _ _) _) _ _).
  - run.
  - reflexivity.
  - reflexivity.
  - run.
  - run.
Defined.

Lemma renameAttachment_false_may_have_deleted_witness :
  let validPath := getFilePathWithRenamedBaseName "b.png" hashA in
  let r := renameAttachment (A := free) (FM := lockedManager ["b.png"]) everything
             "b.png" hashA duplicate in
  files (snd r) = files duplicate
  \/ files (snd r) = removeFile validPath (files duplicate)
     /\ In (Deleted validPath) (newEvents duplicate (snd r))
     /\ exists e, renameFileRejects (FileManager := lockedManager ["b.png"])
                    (removeFile validPath (files duplicate)) "b.png" validPath
                  = Some e.
Proof.
  refine (proj2 (renameAttachment_false_may_have_deleted (A := free)
                   (FM := lockedManager ["b.png"]) everything "b.png" hashA duplicate) _).
  run.
Defined.

Lemma saveAttachmentNameInLink_replaces_plain_links_witness :
  saveAttachmentNameInLink (R := byName) (Some someLinks) "note.md" "img.png" "" hashA
  = [ {| replacement := "[" ++ hashA ++ "](img.png)";
         rangeFrom := at_ 0 0; rangeTo := at_ 0 18 |} ].
Proof.
  rewrite (proj1 (saveAttachmentNameInLink_replaces_plain_links (R := byName)
                    "note.md" "img.png" "" hashA) someLinks).
  reflexivity.
Defined.

Lemma referencing_notes_keep_the_lookup_order_witness :
  referencingNotes (Some ["note.md"; "other.md"]) (Some ["board.canvas"])
  = ["note.md"; "other.md"; "board.canvas"].
Proof.
  refine (proj1 (referencing_notes_keep_the_lookup_order
                   (Some ["note.md"; "other.md"]) (Some ["board.canvas"])) _).
  distinct.
Defined.

(** The first pass over [standingClash], where only linked attachments
    are renamed, leaves [c.png] Blocked by a file that stays where it is:
    the run is settled, and the second pass repeats the report and changes
    nothing. *)
Example second_pass_repeats_a_standing_clash :
  let first := renameAllAttachments (A := free) linkedOnly standingClash in
  let second := renameAllAttachments (A := free) linkedOnly (snd first) in
  cleanRun linkedOnly standingClash (snd first) = false
  /\ settledRun (A := free) linkedOnly standingClash (snd first) = true
  /\ files (snd second) = files (snd first)
  /\ cache (snd second) = cache (snd first)
  /\ newEvents (snd first) (snd second)
     = [Warn (msgNameClash "c.png" (hashA ++ ".png"));
        Notice "No files found that need to be renamed"].
Proof.
  split; [run|]. split; [run|]. split; [run|]. split; run.
Qed.

(** A document that is an attachment to rename and is rewritten after its
    turn: [selfNamedNote] has the name of its digest and is left alone, then
    [a.png] is renamed and the note rewritten, so its bytes no longer have
    the digest of its name.  Nothing was Blocked in the first pass; the
    run is not settled, and the second pass renames the note. *)
Example second_pass_renames_a_rewritten_document :
  let first := renameAllAttachments (A := free) notesToo selfNamed in
  let second := renameAllAttachments (A := free) notesToo (snd first) in
  NoDup (paths (files selfNamed))
  /\ fst first = Ok tt
  /\ blockedIn (A := free) notesToo (paths (files selfNamed)) selfNamed = []
  /\ settledRun (A := free) notesToo selfNamed (snd first) = false
  /\ fst second = Ok tt
  /\ last (trace (snd second)) (Notice "") = Notice "Renamed 1 file."
  /\ fileExists selfNamedNote (files (snd second)) = false.
Proof.
  split; [vm_compute; distinct|]. split; [run|]. split; [run|]. split; [run|].
  split; [run|]. split; run.
Qed.

Lemma rejected_call_aborts_the_batch_witness :
  let w1 := snd (Unguarded.renameAttachmentIfNeeded (A := free)
                   (F := failing ["a.png"] []) everything "c.png" batch) in
  Unguarded.renameAllAttachments (A := free) (F := failing ["a.png"] []) everything batch
  = (Thrown "Error: EACCES: permission denied, open 'a.png'", w1)
  /\ countOf isNotice (newEvents batch w1) = 0.
Proof.
  refine (proj1 (rejected_call_aborts_the_batch (A := free) (F := failing ["a.png"] [])
                   everything batch _ ["c.png"] ["b.png"; "note.md"] "a.png" 1 _ _)
            _ _ _).
  - reflexivity.
  - run.
  - refine (proj2 (rejected_call_aborts_the_batch (A := free)
                     (F := failing ["a.png"] []) everything batch _
                     ["c.png"] ["b.png"; "note.md"] "a.png" 1 _ _) _ _ _).
    + reflexivity.
    + run.
    + run.
    + run.
Defined.

(** The pass over [batch] when [a.png] cannot be read: [c.png] has been
    renamed, the command rejects at [a.png], no notice is shown, and
    [b.png], which a call would have renamed, has not been looked at. *)
Example batch_with_unreadable_file :
  let r := Unguarded.renameAllAttachments (A := free) (F := failing ["a.png"] [])
             everything batch in
  fst r = Thrown "Error: EACCES: permission denied, open 'a.png'"
  /\ paths (files (snd r)) = [hashB ++ ".png"; "a.png"; "b.png"; "note.md"]
  /\ trace (snd r)
     = [Renamed "c.png" (hashB ++ ".png");
        NoteUpdated "note.md" "c.png" (hashB ++ ".png");
        Log (msgRenamed "c.png" (hashB ++ ".png"))]
  /\ fst (Unguarded.renameAttachmentIfNeeded (A := free) (F := failing ["a.png"] [])
            everything "b.png" (snd r)) = Ok true.
Proof.
  split; [run|]. split; [run|]. split; run.
Qed.

(** The pass over [twins] when the note cannot be written: [a.png] has
    been renamed, the rewriter rejects, the command rejects with it; the
    note still embeds [a.png], which is no longer in the vault. *)
Example pass_with_read_only_note :
  let r := Unguarded.renameAllAttachments (A := free) (F := failing [] ["note.md"])
             everything twins in
  fst r = Thrown "Error: EPERM: operation not permitted, open 'note.md'"
  /\ trace (snd r) = [Renamed "a.png" (hashA ++ ".png")]
  /\ fileExists "a.png" (files (snd r)) = false
  /\ lookup "note.md" (files (snd r)) = lookup "note.md" (files twins)
  /\ cache (snd r) = cache twins.
Proof.
  split; [run|]. split; [run|]. split; [run|]. split; run.
Qed.

Lemma other_files_keep_their_bytes_witness :
  lookup "b.png"
    (files (snd (Unguarded.renameAttachmentIfNeeded (A := free)
                   (F := failing [] ["note.md"]) everything "a.png" twins)))
  = lookup "b.png" (files twins).
Proof.
  refine (proj1 (other_files_keep_their_bytes (A := free) (F := failing [] ["note.md"])
                   everything "a.png" "b.png" twins _ _ _)).
  - discriminate.
  - absent.
  - run.
Defined.

Lemma delete_keeps_a_copy_witness :
  mergeTheSameAttachments everything = true
  /\ exists bytes existing,
       lookup "b.png" (files duplicate) = Some bytes
       /\ let q := getFilePathWithRenamedBaseName "b.png" (md5_hex bytes) in
          lookup q (files duplicate) = Some existing
          /\ md5_hex existing = md5_hex bytes
          /\ (q <> "b.png" ->
              fileExists q
                (files (snd (Unguarded.renameAttachmentIfNeeded (A := free)
                               (F := failing [] ["note.md"]) everything "b.png"
                               duplicate)))
              = true).
Proof.
  refine (proj2 (delete_keeps_a_copy (A := free) (F := failing [] ["note.md"])
                   everything "b.png" "b.png" duplicate _)).
  vm_compute. left. reflexivity.
Defined.

Lemma first_copy_is_renamed_second_is_merged_witness :
  let q := getFilePathWithRenamedBaseName "a.png" (md5_hex bytesA) in
  let w1 := snd (renameAttachmentIfNeeded (A := free) linkedOnly "a.png" twins) in
  let second := renameAttachmentIfNeeded (A := free) linkedOnly "b.png" w1 in
  decision (A := free) linkedOnly w1 "b.png" = Some (MergeAndDelete q)
  /\ fst second = Ok true
  /\ fileExists "a.png" (files (snd second)) = false
  /\ fileExists "b.png" (files (snd second)) = false
  /\ fileExists q (files (snd second)) = true.
Proof.
  refine (proj2 (proj2 (proj2 (proj2
    (first_copy_is_renamed_second_is_merged (A := free) linkedOnly
       "a.png" "b.png" twins bytesA _ _ _ _ _ _ _ _ _ _ _ _ _ _ _))) _) _).
  - distinct.
  - discriminate.
  - run.
  - run.
  - run.
  - run.
  - run.
  - run.
  - run.
  - run.
  - absent.
  - absent.
  - run.
  - run.
  - run.
  - reflexivity.
  - run.
Defined.

End RunsMore.
